(** * Bit-banged 1-Wire master driver: the polling state machine of
      [oneWire.c] / [oneWire.h], and the properties of its specification.

    The driver is a switch over [OneWireState] that the application polls
    ([onewire_process]).  It talks to two collaborators: the FreeRTOS tick
    counter ([xTaskGetTickCount]) and the HAL pin primitives
    ([HAL_GPIO_WritePin], [HAL_GPIO_ReadPin]).  Both are modelled by a
    [World] that is threaded through every call: the tick counter and the
    line level are oracles indexed by the number of reads made so far, and
    every HAL call is appended to a log.  The file-scope variable
    [sampled_bus_bit] lives in the world as well, since all instances share
    it.

    The instance structure is passed by pointer in C; here a function that
    writes to it returns the updated record.  Integers are [Z] with the
    reduction of the C type written out ([uint8_t], [TickType_t]).

    What is not in the two source files is taken as follows:
    - [configTICK_RATE_HZ] (FreeRTOSConfig.h) is a variable of the section
      that holds the driver;
    - [TickType_t] is the 32-bit tick type and [pdMS_TO_TICKS] the macro of
      FreeRTOS;
    - [onewire_init] has the three parameters of its definition in
      [oneWire.c]. *)

From Stdlib Require Import ZArith List Bool Lia.
Import ListNotations.
Open Scope Z_scope.

(** ** Machine integers *)

(** Conversion to [uint8_t] and to [uint32_t] (assignment to an unsigned
    object reduces modulo 2^width). *)
Definition uint8_t (z : Z) : Z := z mod 256.
Definition uint32_t (z : Z) : Z := z mod 4294967296.

(** [TickType_t] is the 32-bit tick type of the Cortex-M FreeRTOS port. *)
Definition TickType_t (z : Z) : Z := uint32_t z.

(** ** Types of [oneWire.h] and of the HAL *)

Inductive GPIO_PinState : Type :=
| GPIO_PIN_RESET
| GPIO_PIN_SET.

(** The C enumeration value of a pin level, as used when the level is
    passed for a [uint8_t]. *)
Definition pin_value (p : GPIO_PinState) : Z :=
  match p with GPIO_PIN_RESET => 0 | GPIO_PIN_SET => 1 end.

Inductive OneWireState : Type :=
| ONEWIRE_STATE_IDLE
| ONEWIRE_STATE_ERROR
| ONEWIRE_STATE_RESET_INIT
| ONEWIRE_STATE_RESET_DRIVE_BUS_LOW
| ONEWIRE_STATE_RESET_RELEASE_BUS
| ONEWIRE_STATE_RESET_SAMPLE_BUS
| ONEWIRE_STATE_RESET_DONE
| ONEWIRE_STATE_WRITE_HIGH_INIT
| ONEWIRE_STATE_WRITE_HIGH_DRIVE_BUS_LOW
| ONEWIRE_STATE_WRITE_HIGH_RELEASE_BUS
| ONEWIRE_STATE_WRITE_HIGH_DONE
| ONEWIRE_STATE_WRITE_LOW_INIT
| ONEWIRE_STATE_WRITE_LOW_DRIVE_BUS_LOW
| ONEWIRE_STATE_WRITE_LOW_RELEASE_BUS
| ONEWIRE_STATE_WRITE_LOW_DONE
| ONEWIRE_STATE_MASTER_READ_INIT
| ONEWIRE_STATE_MASTER_READ_DRIVE_BUS_LOW
| ONEWIRE_STATE_MASTER_READ_RELEASE_BUS
| ONEWIRE_STATE_MASTER_READ_SAMPLE_BUS
| ONEWIRE_STATE_MASTER_READ_DONE
| ONEWIRE_STATE_SLAVE_READ_INIT
| ONEWIRE_STATE_SLAVE_READ_MONITOR_BUS
| ONEWIRE_STATE_SLAVE_READ_RELEASE_BUS
| ONEWIRE_STATE_SLAVE_READ_SAMPLE_BUS
| ONEWIRE_STATE_SLAVE_READ_DONE.

(** [oneWire.c] names the read states [ONEWIRE_STATE_READ_*]; the header
    declares them as [ONEWIRE_STATE_MASTER_READ_*].  The read cases of
    [onewire_process] are the master read family. *)
Abbreviation ONEWIRE_STATE_READ_INIT := ONEWIRE_STATE_MASTER_READ_INIT.
Abbreviation ONEWIRE_STATE_READ_DRIVE_BUS_LOW := ONEWIRE_STATE_MASTER_READ_DRIVE_BUS_LOW.
Abbreviation ONEWIRE_STATE_READ_RELEASE_BUS := ONEWIRE_STATE_MASTER_READ_RELEASE_BUS.
Abbreviation ONEWIRE_STATE_READ_SAMPLE_BUS := ONEWIRE_STATE_MASTER_READ_SAMPLE_BUS.
Abbreviation ONEWIRE_STATE_READ_DONE := ONEWIRE_STATE_MASTER_READ_DONE.

Definition OneWireState_eq_dec (a b : OneWireState) : {a = b} + {a <> b}.
Proof. decide equality. Defined.

Definition state_eqb (a b : OneWireState) : bool :=
  if OneWireState_eq_dec a b then true else false.

Inductive OneWireFlags : Type :=
| FLAG_ERROR
| FLAG_PRESENCE_DETECTED
| FLAG_BYTE_RECEIVED
| FLAG_BYTE_SEND
| FLAG_IS_SLAVE.

(** The enumeration value of a flag: its bit position in [flag_reg]. *)
Definition flag_bit (f : OneWireFlags) : Z :=
  match f with
  | FLAG_ERROR => 0
  | FLAG_PRESENCE_DETECTED => 1
  | FLAG_BYTE_RECEIVED => 2
  | FLAG_BYTE_SEND => 3
  | FLAG_IS_SLAVE => 4
  end.

Record OneWireDriver : Type := mkOneWireDriver {
  Pin : Z;
  Port : Z;
  state : OneWireState;
  tx_byte : Z;
  rx_byte : Z;
  bit_index : Z;
  timestamp : Z;
  flag_reg : Z
}.

Definition with_state (o : OneWireDriver) (s : OneWireState) : OneWireDriver :=
  mkOneWireDriver (Pin o) (Port o) s (tx_byte o) (rx_byte o) (bit_index o)
                  (timestamp o) (flag_reg o).
Definition with_tx_byte (o : OneWireDriver) (v : Z) : OneWireDriver :=
  mkOneWireDriver (Pin o) (Port o) (state o) v (rx_byte o) (bit_index o)
                  (timestamp o) (flag_reg o).
Definition with_rx_byte (o : OneWireDriver) (v : Z) : OneWireDriver :=
  mkOneWireDriver (Pin o) (Port o) (state o) (tx_byte o) v (bit_index o)
                  (timestamp o) (flag_reg o).
Definition with_bit_index (o : OneWireDriver) (v : Z) : OneWireDriver :=
  mkOneWireDriver (Pin o) (Port o) (state o) (tx_byte o) (rx_byte o) v
                  (timestamp o) (flag_reg o).
Definition with_timestamp (o : OneWireDriver) (v : Z) : OneWireDriver :=
  mkOneWireDriver (Pin o) (Port o) (state o) (tx_byte o) (rx_byte o)
                  (bit_index o) v (flag_reg o).
Definition with_flag_reg (o : OneWireDriver) (v : Z) : OneWireDriver :=
  mkOneWireDriver (Pin o) (Port o) (state o) (tx_byte o) (rx_byte o)
                  (bit_index o) (timestamp o) v.

(** ** The world the driver runs in *)

(** One entry per HAL call on the line: [HAL_GPIO_Init], [HAL_GPIO_WritePin]
    and [HAL_GPIO_ReadPin] (with the level it returned). *)
Inductive HalCall : Type :=
| PinInit (port pin : Z)
| PinWrite (port pin : Z) (level : GPIO_PinState)
| PinRead (port pin : Z) (level : GPIO_PinState).

(** [tick_source k] is what the k-th call of [xTaskGetTickCount] returns and
    [pin_source k] the line level seen by the k-th [HAL_GPIO_ReadPin];
    [sampled_bus_bit] is the file-scope variable of [oneWire.c]. *)
Record World : Type := mkWorld {
  tick_source : nat -> Z;
  tick_reads : nat;
  pin_source : nat -> GPIO_PinState;
  pin_reads : nat;
  bus_log : list HalCall;
  sampled_bus_bit : GPIO_PinState
}.

(** Computations that use the world. *)
Definition M (A : Type) : Type := World -> A * World.

Definition ret {A : Type} (a : A) : M A := fun w => (a, w).
Definition bind {A B : Type} (m : M A) (k : A -> M B) : M B :=
  fun w => let (a, w') := m w in k a w'.

Notation "x <- m ;; k" := (bind m (fun x => k))
  (at level 61, m at next level, right associativity).
Notation "m ;;; k" := (bind m (fun _ => k))
  (at level 61, right associativity).

Definition xTaskGetTickCount : M Z := fun w =>
  (TickType_t (tick_source w (tick_reads w)),
   mkWorld (tick_source w) (S (tick_reads w)) (pin_source w) (pin_reads w)
           (bus_log w) (sampled_bus_bit w)).

Definition HAL_GPIO_WritePin (port pin : Z) (level : GPIO_PinState) : M unit :=
  fun w =>
  (tt,
   mkWorld (tick_source w) (tick_reads w) (pin_source w) (pin_reads w)
           (bus_log w ++ [PinWrite port pin level]) (sampled_bus_bit w)).

Definition HAL_GPIO_ReadPin (port pin : Z) : M GPIO_PinState := fun w =>
  let level := pin_source w (pin_reads w) in
  (level,
   mkWorld (tick_source w) (tick_reads w) (pin_source w) (S (pin_reads w))
           (bus_log w ++ [PinRead port pin level]) (sampled_bus_bit w)).

Definition HAL_GPIO_Init (port pin : Z) : M unit := fun w =>
  (tt,
   mkWorld (tick_source w) (tick_reads w) (pin_source w) (pin_reads w)
           (bus_log w ++ [PinInit port pin]) (sampled_bus_bit w)).

Definition get_sampled_bus_bit : M GPIO_PinState := fun w =>
  (sampled_bus_bit w, w).

Definition set_sampled_bus_bit (v : GPIO_PinState) : M unit := fun w =>
  (tt,
   mkWorld (tick_source w) (tick_reads w) (pin_source w) (pin_reads w)
           (bus_log w) v).

(** ** Timing constants of [oneWire.h] (standard speed) *)

Definition WRITE_1_LOW_DELAY : Z := 6.
Definition WRITE_1_RELEASE_BUS_DELAY : Z := 64.
Definition WRITE_0_LOW_DELAY : Z := 60.
Definition WRITE_0_RELEASE_BUS_DELAY : Z := 10.
Definition READ_RELEASE_BUS_DELAY : Z := 9.
Definition READ_SAMPLE_DELAY : Z := 55.
Definition RESET_INIT_DELAY : Z := 0.
Definition RESET_DRIVE_BUS_LOW_DELAY : Z := 480.
Definition RESET_RELEASE_BUS_DELAY : Z := 70.
Definition RESET_SAMPLE_BUS_DELAY : Z := 410.

(** ** The driver *)

Section Driver.

(** The tick rate of the application's FreeRTOS configuration. *)
Variable configTICK_RATE_HZ : Z.

(** FreeRTOS: [(TickType_t)(((TickType_t)(x) * (TickType_t)configTICK_RATE_HZ)
    / (TickType_t)1000)]. *)
Definition pdMS_TO_TICKS (x : Z) : Z :=
  TickType_t (TickType_t (TickType_t x * TickType_t configTICK_RATE_HZ) / 1000).

Definition pull_low (o : OneWireDriver) : M unit :=
  HAL_GPIO_WritePin (Port o) (Pin o) GPIO_PIN_RESET.

Definition pull_high (o : OneWireDriver) : M unit :=
  HAL_GPIO_WritePin (Port o) (Pin o) GPIO_PIN_SET.

Definition read_pin (o : OneWireDriver) : M GPIO_PinState :=
  HAL_GPIO_ReadPin (Port o) (Pin o).

Definition is_time_expired (o : OneWireDriver) (expatration_time : Z) : M bool :=
  now <- xTaskGetTickCount ;;
  ret (TickType_t (timestamp o + pdMS_TO_TICKS expatration_time) <=? now).

Definition set_state (o : OneWireDriver) (new_state : OneWireState)
  : M OneWireDriver :=
  let o := with_state o new_state in
  now <- xTaskGetTickCount ;;
  ret (with_timestamp o now).

Definition pin_output_mode (o : OneWireDriver) : M unit :=
  HAL_GPIO_Init (Port o) (Pin o).

Definition set_flag (o : OneWireDriver) (f : OneWireFlags) : OneWireDriver :=
  if flag_bit f <? 8
  then with_flag_reg o (uint8_t (Z.lor (flag_reg o) (Z.shiftl 1 (flag_bit f))))
  else o.

Definition reset_flag (o : OneWireDriver) (f : OneWireFlags) : OneWireDriver :=
  if flag_bit f <? 8
  then with_flag_reg o
         (uint8_t (Z.land (flag_reg o) (Z.lnot (Z.shiftl 1 (flag_bit f)))))
  else o.

Definition get_flag (o : OneWireDriver) (f : OneWireFlags) : Z :=
  if flag_bit f <? 8
  then uint8_t (Z.land (Z.shiftr (flag_reg o) (flag_bit f)) 1)
  else 0.

Definition store_read_bit (o : OneWireDriver) (value : Z) : OneWireDriver :=
  if negb (value =? 0)
  then with_rx_byte o
         (uint8_t (Z.lor (rx_byte o) (Z.shiftl 1 (bit_index o))))
  else with_rx_byte o
         (uint8_t (Z.land (rx_byte o) (Z.lnot (Z.shiftl 1 (bit_index o))))).

Definition set_write_init_state (o : OneWireDriver) (bit : Z)
  : M OneWireDriver :=
  now <- xTaskGetTickCount ;;
  let o := with_timestamp o now in
  if negb (bit =? 0)
  then ret (with_state o ONEWIRE_STATE_WRITE_HIGH_INIT)
  else ret (with_state o ONEWIRE_STATE_WRITE_LOW_INIT).

Definition handle_write_bit_done_state (o : OneWireDriver) : M OneWireDriver :=
  let o := with_bit_index o (uint8_t (bit_index o + 1)) in
  if 8 <=? bit_index o
  then
    o <- set_state o ONEWIRE_STATE_IDLE ;;
    let o := with_bit_index o 0 in
    let o := with_rx_byte o 0 in
    ret (set_flag o FLAG_BYTE_SEND)
  else
    set_write_init_state o
      (uint8_t (Z.land (Z.shiftr (tx_byte o) (bit_index o)) 1)).

Definition onewire_init (o : OneWireDriver) (port pin : Z) : M OneWireDriver :=
  let o := mkOneWireDriver pin port (state o) (tx_byte o) (rx_byte o)
             (bit_index o) (timestamp o) (flag_reg o) in
  pin_output_mode o ;;;
  let o := with_state o ONEWIRE_STATE_IDLE in
  let o := with_rx_byte o 0 in
  let o := with_tx_byte o 0 in
  let o := with_bit_index o 0 in
  let o := with_timestamp o 0 in
  ret (with_flag_reg o 0).

(** The body of [case ONEWIRE_STATE_WRITE_HIGH_INIT], which is also where
    control arrives from the case above it when that case does not [break]. *)
Definition case_WRITE_HIGH_INIT (o : OneWireDriver) : M OneWireDriver :=
  o <- set_state o ONEWIRE_STATE_WRITE_HIGH_DRIVE_BUS_LOW ;;
  pull_low o ;;;
  ret o.

Definition onewire_process (o : OneWireDriver) : M OneWireDriver :=
  match state o with
  | ONEWIRE_STATE_RESET_INIT =>
      e <- is_time_expired o (pdMS_TO_TICKS RESET_INIT_DELAY) ;;
      if e then
        o <- set_state o ONEWIRE_STATE_RESET_DRIVE_BUS_LOW ;;
        pull_low o ;;;
        ret o
      else ret o
  | ONEWIRE_STATE_RESET_DRIVE_BUS_LOW =>
      e <- is_time_expired o (pdMS_TO_TICKS RESET_DRIVE_BUS_LOW_DELAY) ;;
      if e then
        o <- set_state o ONEWIRE_STATE_RESET_RELEASE_BUS ;;
        pull_high o ;;;
        ret o
      else ret o
  | ONEWIRE_STATE_RESET_RELEASE_BUS =>
      e <- is_time_expired o (pdMS_TO_TICKS RESET_RELEASE_BUS_DELAY) ;;
      if e then
        o <- set_state o ONEWIRE_STATE_RESET_SAMPLE_BUS ;;
        ret (reset_flag o FLAG_PRESENCE_DETECTED)
      else ret o
  | ONEWIRE_STATE_RESET_SAMPLE_BUS =>
      e <- is_time_expired o (pdMS_TO_TICKS RESET_SAMPLE_BUS_DELAY) ;;
      if negb e then
        p <- read_pin o ;;
        let o := match p with
                 | GPIO_PIN_RESET => set_flag o FLAG_PRESENCE_DETECTED
                 | GPIO_PIN_SET => o
                 end in
        (* the [break] of this case sits inside the [else] block only *)
        case_WRITE_HIGH_INIT o
      else
        o <- set_state o ONEWIRE_STATE_RESET_DONE ;;
        if negb (get_flag o FLAG_PRESENCE_DETECTED =? 0)
        then ret (set_flag o FLAG_ERROR)
        else ret o
  | ONEWIRE_STATE_WRITE_HIGH_INIT =>
      case_WRITE_HIGH_INIT o
  | ONEWIRE_STATE_WRITE_HIGH_DRIVE_BUS_LOW =>
      e <- is_time_expired o (pdMS_TO_TICKS WRITE_1_LOW_DELAY) ;;
      if e then
        o <- set_state o ONEWIRE_STATE_WRITE_HIGH_RELEASE_BUS ;;
        pull_high o ;;;
        ret o
      else ret o
  | ONEWIRE_STATE_WRITE_HIGH_RELEASE_BUS =>
      e <- is_time_expired o (pdMS_TO_TICKS WRITE_1_RELEASE_BUS_DELAY) ;;
      if e then set_state o ONEWIRE_STATE_WRITE_HIGH_DONE
      else ret o
  | ONEWIRE_STATE_WRITE_LOW_INIT =>
      o <- set_state o ONEWIRE_STATE_WRITE_LOW_DRIVE_BUS_LOW ;;
      pull_low o ;;;
      ret o
  | ONEWIRE_STATE_WRITE_LOW_DRIVE_BUS_LOW =>
      e <- is_time_expired o (pdMS_TO_TICKS WRITE_0_LOW_DELAY) ;;
      if e then
        o <- set_state o ONEWIRE_STATE_WRITE_LOW_RELEASE_BUS ;;
        pull_high o ;;;
        ret o
      else ret o
  | ONEWIRE_STATE_WRITE_LOW_RELEASE_BUS =>
      e <- is_time_expired o (pdMS_TO_TICKS WRITE_0_RELEASE_BUS_DELAY) ;;
      if e then set_state o ONEWIRE_STATE_WRITE_LOW_DONE
      else ret o
  | ONEWIRE_STATE_WRITE_HIGH_DONE
  | ONEWIRE_STATE_WRITE_LOW_DONE =>
      handle_write_bit_done_state o
  | ONEWIRE_STATE_READ_INIT =>
      o <- set_state o ONEWIRE_STATE_READ_DRIVE_BUS_LOW ;;
      pull_low o ;;;
      ret o
  | ONEWIRE_STATE_READ_DRIVE_BUS_LOW =>
      e <- is_time_expired o (pdMS_TO_TICKS WRITE_1_LOW_DELAY) ;;
      if e then
        o <- set_state o ONEWIRE_STATE_READ_RELEASE_BUS ;;
        pull_high o ;;;
        ret o
      else ret o
  | ONEWIRE_STATE_READ_RELEASE_BUS =>
      e <- is_time_expired o (pdMS_TO_TICKS READ_RELEASE_BUS_DELAY) ;;
      if e then set_state o ONEWIRE_STATE_READ_SAMPLE_BUS
      else ret o
  | ONEWIRE_STATE_READ_SAMPLE_BUS =>
      e <- is_time_expired o (pdMS_TO_TICKS READ_SAMPLE_DELAY) ;;
      if negb e then
        p <- read_pin o ;;
        match p with
        | GPIO_PIN_RESET => set_sampled_bus_bit GPIO_PIN_RESET ;;; ret o
        | GPIO_PIN_SET => ret o
        end
      else
        b <- get_sampled_bus_bit ;;
        let o := store_read_bit o (uint8_t (pin_value b)) in
        set_state o ONEWIRE_STATE_READ_DONE
  | ONEWIRE_STATE_READ_DONE =>
      let o := with_bit_index o (uint8_t (bit_index o + 1)) in
      set_sampled_bus_bit GPIO_PIN_SET ;;;
      if 8 <=? bit_index o
      then
        let o := set_flag o FLAG_BYTE_RECEIVED in
        let o := with_bit_index o 0 in
        set_state o ONEWIRE_STATE_IDLE
      else
        set_state o ONEWIRE_STATE_READ_INIT
  | _ =>
      o <- set_state o ONEWIRE_STATE_ERROR ;;
      ret (set_flag o FLAG_ERROR)
  end.

Definition onewire_write_byte (o : OneWireDriver) (data : Z) : M OneWireDriver :=
  let o := with_tx_byte o (uint8_t data) in
  let o := with_bit_index o 0 in
  set_write_init_state o (uint8_t (Z.land (uint8_t data) 1)).

End Driver.

(** ** Polling the engine *)

(** [poll rate n o w]: the application calls [onewire_process] [n] times. *)
Fixpoint poll (rate : Z) (n : nat) (o : OneWireDriver) (w : World)
  : OneWireDriver * World :=
  match n with
  | O => (o, w)
  | S n' =>
      let (o', w') := onewire_process rate o w in
      poll rate n' o' w'
  end.

(** The states entered during [n] polls: one entry for every call of
    [onewire_process] that leaves the instance in another state than it
    found it in. *)
Fixpoint phase_log (rate : Z) (n : nat) (o : OneWireDriver) (w : World)
  : list OneWireState :=
  match n with
  | O => []
  | S n' =>
      let (o', w') := onewire_process rate o w in
      (if state_eqb (state o) (state o') then [] else [state o'])
        ++ phase_log rate n' o' w'
  end.

(** The world after [k] further reads of the tick counter and nothing else. *)
Definition after_tick_reads (k : nat) (w : World) : World :=
  mkWorld (tick_source w) (k + tick_reads w) (pin_source w) (pin_reads w)
          (bus_log w) (sampled_bus_bit w).

(** The delay constant that the case of each timed state passes to
    [is_time_expired] (through [pdMS_TO_TICKS]); [None] for the states whose
    case does not look at the clock. *)
Definition phase_delay (s : OneWireState) : option Z :=
  match s with
  | ONEWIRE_STATE_RESET_INIT => Some RESET_INIT_DELAY
  | ONEWIRE_STATE_RESET_DRIVE_BUS_LOW => Some RESET_DRIVE_BUS_LOW_DELAY
  | ONEWIRE_STATE_RESET_RELEASE_BUS => Some RESET_RELEASE_BUS_DELAY
  | ONEWIRE_STATE_RESET_SAMPLE_BUS => Some RESET_SAMPLE_BUS_DELAY
  | ONEWIRE_STATE_WRITE_HIGH_DRIVE_BUS_LOW => Some WRITE_1_LOW_DELAY
  | ONEWIRE_STATE_WRITE_HIGH_RELEASE_BUS => Some WRITE_1_RELEASE_BUS_DELAY
  | ONEWIRE_STATE_WRITE_LOW_DRIVE_BUS_LOW => Some WRITE_0_LOW_DELAY
  | ONEWIRE_STATE_WRITE_LOW_RELEASE_BUS => Some WRITE_0_RELEASE_BUS_DELAY
  | ONEWIRE_STATE_READ_DRIVE_BUS_LOW => Some WRITE_1_LOW_DELAY
  | ONEWIRE_STATE_READ_RELEASE_BUS => Some READ_RELEASE_BUS_DELAY
  | ONEWIRE_STATE_READ_SAMPLE_BUS => Some READ_SAMPLE_DELAY
  | _ => None
  end.

(** The instance is in a timed phase and the check its case makes finds the
    deadline not elapsed. *)
Definition deadline_pending (rate : Z) (o : OneWireDriver) (w : World) : bool :=
  match phase_delay (state o) with
  | Some d => negb (fst (is_time_expired rate o (pdMS_TO_TICKS rate d) w))
  | None => false
  end.

(** A log entry that only looks at the line. *)
Definition is_sample (c : HalCall) : bool :=
  match c with
  | PinRead _ _ _ => true
  | _ => false
  end.

(** A timed phase that only waits: every timed phase but the two sample
    windows. *)
Definition waits_without_sampling (s : OneWireState) : bool :=
  match s with
  | ONEWIRE_STATE_RESET_INIT
  | ONEWIRE_STATE_RESET_DRIVE_BUS_LOW
  | ONEWIRE_STATE_RESET_RELEASE_BUS
  | ONEWIRE_STATE_WRITE_HIGH_DRIVE_BUS_LOW
  | ONEWIRE_STATE_WRITE_HIGH_RELEASE_BUS
  | ONEWIRE_STATE_WRITE_LOW_DRIVE_BUS_LOW
  | ONEWIRE_STATE_WRITE_LOW_RELEASE_BUS
  | ONEWIRE_STATE_READ_DRIVE_BUS_LOW
  | ONEWIRE_STATE_READ_RELEASE_BUS => true
  | _ => false
  end.

(** The formal reading of C2 at one poll: when the deadline of the current
    timed phase is pending, a poll changes neither the instance nor the
    log of line operations. *)
Definition waiting_is_silent (rate : Z) (o : OneWireDriver) (w : World) : Prop :=
  deadline_pending rate o w = true ->
  fst (onewire_process rate o w) = o
  /\ bus_log (snd (onewire_process rate o w)) = bus_log w.

(** ** Sample windows *)

Definition is_high (p : GPIO_PinState) : bool :=
  match p with GPIO_PIN_SET => true | GPIO_PIN_RESET => false end.

(** The levels seen by [n] successive reads of the line, starting with the
    next one. *)
Definition next_samples (n : nat) (w : World) : list GPIO_PinState :=
  map (pin_source w) (seq (pin_reads w) n).

(** The world after [n] polls of instance [o] inside its open read sample
    window: [n] reads of the tick counter, [n] samples of the line in the
    log, and the scratch bit low as soon as one sample was low. *)
Definition after_window_polls (o : OneWireDriver) (n : nat) (w : World) : World :=
  mkWorld (tick_source w) (n + tick_reads w) (pin_source w) (n + pin_reads w)
          (bus_log w ++ map (PinRead (Port o) (Pin o)) (next_samples n w))
          (if forallb is_high (next_samples n w)
           then sampled_bus_bit w else GPIO_PIN_RESET).

(** The formal reading of C7 for a window of [n] open polls followed by the
    poll that finds it closed: the bit stored at [bit_index] is 1 exactly
    when every sample of the window was high. *)
Definition read_window_records_samples
  (rate : Z) (n : nat) (o : OneWireDriver) (w : World) : Prop :=
  state o = ONEWIRE_STATE_READ_SAMPLE_BUS ->
  0 <= bit_index o < 8 ->
  (forall k, (k < n)%nat ->
             deadline_pending rate o (after_tick_reads k w) = true) ->
  deadline_pending rate o (after_tick_reads n w) = false ->
  Z.testbit (rx_byte (fst (poll rate (S n) o w))) (bit_index o)
  = forallb is_high (next_samples n w).

(** The scratch bit is at its start value whenever the instance is outside
    the read sample window and [READ_DONE]: polls keep it that way. *)
Definition scratch_rests (o : OneWireDriver) (w : World) : Prop :=
  state o = ONEWIRE_STATE_READ_SAMPLE_BUS
  \/ state o = ONEWIRE_STATE_READ_DONE
  \/ sampled_bus_bit w = GPIO_PIN_SET.

(** ** The phases of a byte write *)

(** The four phases of a write slot. *)
Inductive SlotPhase : Type :=
| AtInit
| AtDriveLow
| AtRelease
| AtDone.

(** The state of each phase in the write-high ([true]) and the write-low
    ([false]) family. *)
Definition slot_state (high : bool) (p : SlotPhase) : OneWireState :=
  match high, p with
  | true, AtInit => ONEWIRE_STATE_WRITE_HIGH_INIT
  | true, AtDriveLow => ONEWIRE_STATE_WRITE_HIGH_DRIVE_BUS_LOW
  | true, AtRelease => ONEWIRE_STATE_WRITE_HIGH_RELEASE_BUS
  | true, AtDone => ONEWIRE_STATE_WRITE_HIGH_DONE
  | false, AtInit => ONEWIRE_STATE_WRITE_LOW_INIT
  | false, AtDriveLow => ONEWIRE_STATE_WRITE_LOW_DRIVE_BUS_LOW
  | false, AtRelease => ONEWIRE_STATE_WRITE_LOW_RELEASE_BUS
  | false, AtDone => ONEWIRE_STATE_WRITE_LOW_DONE
  end.

(** The phases of a slot that are still to be entered from phase [p]. *)
Definition phases_left (high : bool) (p : SlotPhase) : list OneWireState :=
  match p with
  | AtInit => [slot_state high AtDriveLow; slot_state high AtRelease;
               slot_state high AtDone]
  | AtDriveLow => [slot_state high AtRelease; slot_state high AtDone]
  | AtRelease => [slot_state high AtDone]
  | AtDone => []
  end.

Definition write_slot (high : bool) : list OneWireState :=
  slot_state high AtInit :: phases_left high AtInit.

(** The slots of bits [i], [i+1], ... ([m] of them) of value [v]. *)
Fixpoint write_slots (v : Z) (i : Z) (m : nat) : list OneWireState :=
  match m with
  | O => []
  | S m' => write_slot (Z.testbit v i) ++ write_slots v (i + 1) m'
  end.

(** The states a complete write of [v] goes through: eight slots, bit 0
    first, and then [IDLE]. *)
Definition byte_write_phases (v : Z) : list OneWireState :=
  flat_map (fun i => write_slot (Z.testbit v i)) [0; 1; 2; 3; 4; 5; 6; 7]
    ++ [ONEWIRE_STATE_IDLE].

(** The line operations of one slot, and those still to come from phase
    [p] of a slot. *)
Definition slot_actions (port pin : Z) : list HalCall :=
  [PinWrite port pin GPIO_PIN_RESET;
   PinWrite port pin GPIO_PIN_SET].

Definition actions_left (port pin : Z) (p : SlotPhase) : list HalCall :=
  match p with
  | AtInit => slot_actions port pin
  | AtDriveLow => [PinWrite port pin GPIO_PIN_SET]
  | AtRelease | AtDone => []
  end.

Definition byte_write_actions (port pin : Z) : list HalCall :=
  concat (repeat (slot_actions port pin) 8).

(** The instance is in phase [p] of the slot of bit [i] of [v]. *)
Definition in_slot (v i : Z) (p : SlotPhase) (o : OneWireDriver) : Prop :=
  state o = slot_state (Z.testbit v i) p
  /\ tx_byte o = uint8_t v
  /\ bit_index o = i.

(** The time stamp of the instance is the latest reading of the tick
    counter. *)
Definition stamped (o : OneWireDriver) (w : World) : Prop :=
  exists j, tick_reads w = S j /\ timestamp o = TickType_t (tick_source w j).

(** The delay constants of the two write families. *)
Definition write_delays : list Z :=
  [WRITE_1_LOW_DELAY; WRITE_1_RELEASE_BUS_DELAY;
   WRITE_0_LOW_DELAY; WRITE_0_RELEASE_BUS_DELAY].

(** Between reading [j] and reading [j+1] of the tick counter, for
    [lo <= j < hi], every write delay elapses: the application polls no
    faster than the longest write phase lasts. *)
Definition punctual (rate : Z) (ticks : nat -> Z) (lo hi : nat) : Prop :=
  forall j d,
    (lo <= j < hi)%nat ->
    In d write_delays ->
    TickType_t (TickType_t (ticks j) + pdMS_TO_TICKS rate (pdMS_TO_TICKS rate d))
    <= TickType_t (ticks (S j)).

(** The same as a check that can be run. *)
Definition punctualb (rate : Z) (ticks : nat -> Z) (lo hi : nat) : bool :=
  forallb
    (fun j =>
       forallb
         (fun d =>
            TickType_t (TickType_t (ticks j)
                        + pdMS_TO_TICKS rate (pdMS_TO_TICKS rate d))
            <=? TickType_t (ticks (S j)))
         write_delays)
    (seq lo (hi - lo)).

(** The polls and the reads of the tick counter that complete a write from
    phase [p] of a slot with [m] more slots to follow, when no poll finds a
    deadline pending. *)
Definition polls_left (p : SlotPhase) (m : nat) : nat :=
  (match p with
   | AtInit => 4 | AtDriveLow => 3 | AtRelease => 2 | AtDone => 1
   end + m * 4)%nat.

Definition reads_left (p : SlotPhase) (m : nat) : nat :=
  (match p with
   | AtInit => 6 | AtDriveLow => 5 | AtRelease => 3 | AtDone => 1
   end + m * 6)%nat.

(** ** Concrete instances and worlds *)

(** An instance on port 0x48000000, pin 1, in state [s] with index [i],
    time stamp [t] and flag register [f]; both buffers empty. *)
Definition driver_at (s : OneWireState) (i t f : Z) : OneWireDriver :=
  mkOneWireDriver 1 1207959552 s 0 0 i t f.

(** A world in which every read of the tick counter returns [t] and every
    read of the line returns [p]; nothing has happened yet. *)
Definition steady_world (t : Z) (p : GPIO_PinState) : World :=
  mkWorld (fun _ => t) 0%nat (fun _ => p) 0%nat [] GPIO_PIN_SET.

(** A world whose tick counter and line follow the given functions. *)
Definition scripted_world (ticks : nat -> Z) (pins : nat -> GPIO_PinState)
  : World :=
  mkWorld ticks 0%nat pins 0%nat [] GPIO_PIN_SET.

(** The clock of a reset that is polled promptly: the settle, hold and
    release deadlines are found elapsed, and the first poll of the sample
    window comes one tick after the window opened (rate 1000 Hz, so the
    window is 410 ticks long). *)
Definition reset_clock (k : nat) : Z :=
  match k with
  | 0%nat | 1%nat => 0
  | 2%nat | 3%nat => 480
  | 4%nat | 5%nat => 550
  | _ => 551
  end.

(** Two instances on two lines, both in their read sample window, in a
    world started with the scratch bit high.  The tick counter reads 0, 0
    and then 100; the first sample of the line is low, all later ones are
    high. *)
Definition other_line : OneWireDriver :=
  mkOneWireDriver 2 1207959552 ONEWIRE_STATE_READ_SAMPLE_BUS 0 0 0 0 0.

Definition two_line_world : World :=
  scripted_world (fun k => if (k <? 2)%nat then 0 else 100)
                 (fun k => match k with O => GPIO_PIN_RESET | _ => GPIO_PIN_SET end).

(** The instance under test on the first line: in its read sample window,
    with 0xFF in [rx_byte], so that the bit stored at index 0 shows. *)
Definition line_under_test : OneWireDriver :=
  mkOneWireDriver 1 1207959552 ONEWIRE_STATE_READ_SAMPLE_BUS 0 255 0 0 0.

(** One instance whose read is abandoned inside the window and started
    again after [onewire_init].  The first reading of the tick counter, 0,
    finds the window open and the first sample of the line is low; the
    later readings let the second read go through drive-low, release, one
    open poll of its window (tick 310, window opened at tick 300) and the
    poll that closes it (tick 400), on a line that is high all the time. *)
Definition restart_clock (k : nat) : Z :=
  match k with
  | 0%nat => 0
  | 1%nat => 100
  | 2%nat | 3%nat => 200
  | 4%nat | 5%nat => 300
  | 6%nat => 310
  | _ => 400
  end.

Definition restart_world : World :=
  scripted_world restart_clock
    (fun k => match k with O => GPIO_PIN_RESET | _ => GPIO_PIN_SET end).

(** The same world with the scratch bit put back to its start value. *)
Definition with_scratch_high (w : World) : World :=
  mkWorld (tick_source w) (tick_reads w) (pin_source w) (pin_reads w)
          (bus_log w) GPIO_PIN_SET.

(** A window of three polls on a quiet line, closed at tick 60: bit 3 of
    [rx_byte] is set. *)
Definition quiet_window_world : World :=
  scripted_world (fun k => if (k <? 3)%nat then 10 else 60)
                 (fun _ => GPIO_PIN_SET).

(** A tick counter that advances by 100 between any two reads. *)
Definition slow_clock (k : nat) : Z := Z.of_nat k * 100.

(** ** The state diagram *)

Definition all_states : list OneWireState :=
  [ONEWIRE_STATE_IDLE; ONEWIRE_STATE_ERROR;
   ONEWIRE_STATE_RESET_INIT; ONEWIRE_STATE_RESET_DRIVE_BUS_LOW;
   ONEWIRE_STATE_RESET_RELEASE_BUS; ONEWIRE_STATE_RESET_SAMPLE_BUS;
   ONEWIRE_STATE_RESET_DONE;
   ONEWIRE_STATE_WRITE_HIGH_INIT; ONEWIRE_STATE_WRITE_HIGH_DRIVE_BUS_LOW;
   ONEWIRE_STATE_WRITE_HIGH_RELEASE_BUS; ONEWIRE_STATE_WRITE_HIGH_DONE;
   ONEWIRE_STATE_WRITE_LOW_INIT; ONEWIRE_STATE_WRITE_LOW_DRIVE_BUS_LOW;
   ONEWIRE_STATE_WRITE_LOW_RELEASE_BUS; ONEWIRE_STATE_WRITE_LOW_DONE;
   ONEWIRE_STATE_READ_INIT; ONEWIRE_STATE_READ_DRIVE_BUS_LOW;
   ONEWIRE_STATE_READ_RELEASE_BUS; ONEWIRE_STATE_READ_SAMPLE_BUS;
   ONEWIRE_STATE_READ_DONE;
   ONEWIRE_STATE_SLAVE_READ_INIT; ONEWIRE_STATE_SLAVE_READ_MONITOR_BUS;
   ONEWIRE_STATE_SLAVE_READ_RELEASE_BUS; ONEWIRE_STATE_SLAVE_READ_SAMPLE_BUS;
   ONEWIRE_STATE_SLAVE_READ_DONE].

(** The states one call of [onewire_process] can leave an instance in, by
    the state it finds it in, as the cases of the switch give them. *)
Definition successors (s : OneWireState) : list OneWireState :=
  match s with
  | ONEWIRE_STATE_RESET_INIT =>
      [ONEWIRE_STATE_RESET_INIT; ONEWIRE_STATE_RESET_DRIVE_BUS_LOW]
  | ONEWIRE_STATE_RESET_DRIVE_BUS_LOW =>
      [ONEWIRE_STATE_RESET_DRIVE_BUS_LOW; ONEWIRE_STATE_RESET_RELEASE_BUS]
  | ONEWIRE_STATE_RESET_RELEASE_BUS =>
      [ONEWIRE_STATE_RESET_RELEASE_BUS; ONEWIRE_STATE_RESET_SAMPLE_BUS]
  | ONEWIRE_STATE_RESET_SAMPLE_BUS =>
      [ONEWIRE_STATE_WRITE_HIGH_DRIVE_BUS_LOW; ONEWIRE_STATE_RESET_DONE]
  | ONEWIRE_STATE_WRITE_HIGH_INIT =>
      [ONEWIRE_STATE_WRITE_HIGH_DRIVE_BUS_LOW]
  | ONEWIRE_STATE_WRITE_HIGH_DRIVE_BUS_LOW =>
      [ONEWIRE_STATE_WRITE_HIGH_DRIVE_BUS_LOW;
       ONEWIRE_STATE_WRITE_HIGH_RELEASE_BUS]
  | ONEWIRE_STATE_WRITE_HIGH_RELEASE_BUS =>
      [ONEWIRE_STATE_WRITE_HIGH_RELEASE_BUS; ONEWIRE_STATE_WRITE_HIGH_DONE]
  | ONEWIRE_STATE_WRITE_LOW_INIT =>
      [ONEWIRE_STATE_WRITE_LOW_DRIVE_BUS_LOW]
  | ONEWIRE_STATE_WRITE_LOW_DRIVE_BUS_LOW =>
      [ONEWIRE_STATE_WRITE_LOW_DRIVE_BUS_LOW;
       ONEWIRE_STATE_WRITE_LOW_RELEASE_BUS]
  | ONEWIRE_STATE_WRITE_LOW_RELEASE_BUS =>
      [ONEWIRE_STATE_WRITE_LOW_RELEASE_BUS; ONEWIRE_STATE_WRITE_LOW_DONE]
  | ONEWIRE_STATE_WRITE_HIGH_DONE
  | ONEWIRE_STATE_WRITE_LOW_DONE =>
      [ONEWIRE_STATE_IDLE; ONEWIRE_STATE_WRITE_HIGH_INIT;
       ONEWIRE_STATE_WRITE_LOW_INIT]
  | ONEWIRE_STATE_READ_INIT =>
      [ONEWIRE_STATE_READ_DRIVE_BUS_LOW]
  | ONEWIRE_STATE_READ_DRIVE_BUS_LOW =>
      [ONEWIRE_STATE_READ_DRIVE_BUS_LOW; ONEWIRE_STATE_READ_RELEASE_BUS]
  | ONEWIRE_STATE_READ_RELEASE_BUS =>
      [ONEWIRE_STATE_READ_RELEASE_BUS; ONEWIRE_STATE_READ_SAMPLE_BUS]
  | ONEWIRE_STATE_READ_SAMPLE_BUS =>
      [ONEWIRE_STATE_READ_SAMPLE_BUS; ONEWIRE_STATE_READ_DONE]
  | ONEWIRE_STATE_READ_DONE =>
      [ONEWIRE_STATE_IDLE; ONEWIRE_STATE_READ_INIT]
  | _ => [ONEWIRE_STATE_ERROR]
  end.

(** The states the switch has a case for. *)
Definition has_case (s : OneWireState) : bool :=
  match s with
  | ONEWIRE_STATE_IDLE | ONEWIRE_STATE_ERROR | ONEWIRE_STATE_RESET_DONE
  | ONEWIRE_STATE_SLAVE_READ_INIT | ONEWIRE_STATE_SLAVE_READ_MONITOR_BUS
  | ONEWIRE_STATE_SLAVE_READ_RELEASE_BUS | ONEWIRE_STATE_SLAVE_READ_SAMPLE_BUS
  | ONEWIRE_STATE_SLAVE_READ_DONE => false
  | _ => true
  end.

(** The five states of the reset family. *)
Definition in_reset_family (s : OneWireState) : bool :=
  match s with
  | ONEWIRE_STATE_RESET_INIT | ONEWIRE_STATE_RESET_DRIVE_BUS_LOW
  | ONEWIRE_STATE_RESET_RELEASE_BUS | ONEWIRE_STATE_RESET_SAMPLE_BUS
  | ONEWIRE_STATE_RESET_DONE => true
  | _ => false
  end.

(** The states in which the engine holds the line low. *)
Definition is_drive_low_state (s : OneWireState) : bool :=
  match s with
  | ONEWIRE_STATE_RESET_DRIVE_BUS_LOW
  | ONEWIRE_STATE_WRITE_HIGH_DRIVE_BUS_LOW
  | ONEWIRE_STATE_WRITE_LOW_DRIVE_BUS_LOW
  | ONEWIRE_STATE_READ_DRIVE_BUS_LOW => true
  | _ => false
  end.

(** The two sample windows. *)
Definition is_sample_window (s : OneWireState) : bool :=
  match s with
  | ONEWIRE_STATE_RESET_SAMPLE_BUS | ONEWIRE_STATE_READ_SAMPLE_BUS => true
  | _ => false
  end.

(** Instances and worlds that exercise every edge of the diagram at a tick
    rate of 1000 Hz: time stamp 5, so that at tick count 0 every deadline is
    pending and at tick count 1000 every deadline has elapsed. *)
Definition edge_instances (s : OneWireState) : list OneWireDriver :=
  [mkOneWireDriver 1 1207959552 s 0 0 0 5 0;
   mkOneWireDriver 1 1207959552 s 255 0 0 5 0;
   mkOneWireDriver 1 1207959552 s 0 0 7 5 0].

Definition edge_worlds : list World :=
  [steady_world 0 GPIO_PIN_SET; steady_world 1000 GPIO_PIN_SET].

(** Edge [s -> s'] is taken by one of these instances in one of these
    worlds. *)
Definition edge_taken (s s' : OneWireState) : bool :=
  existsb
    (fun o =>
       existsb
         (fun w => state_eqb (state (fst (onewire_process 1000 o w))) s')
         edge_worlds)
    (edge_instances s).

(** ** The line and the registers *)

(** The log entry is an operation on line ([port], [pin]). *)
Definition on_line (port pin : Z) (c : HalCall) : bool :=
  match c with
  | PinInit p q | PinWrite p q _ | PinRead p q _ =>
      (p =? port) && (q =? pin)
  end.

(** Whether line ([port], [pin]) is held low after the operations of
    [log]: the level last written to it is low.  A line never written to is
    not held low. *)
Definition driven_low (port pin : Z) (log : list HalCall) : bool :=
  fold_left
    (fun low c =>
       match c with
       | PinWrite p q level =>
           if (p =? port) && (q =? pin) then negb (is_high level) else low
       | _ => low
       end)
    log false.

(** Every field of the instance holds a value of its C type, and
    [bit_index] is a bit position of a byte. *)
Definition well_formed (o : OneWireDriver) : Prop :=
  0 <= tx_byte o < 256
  /\ 0 <= rx_byte o < 256
  /\ 0 <= bit_index o < 8
  /\ 0 <= timestamp o < 4294967296
  /\ 0 <= flag_reg o < 256.

(** ** The phases of a reset and of a byte read *)

Definition reset_delays : list Z :=
  [RESET_INIT_DELAY; RESET_DRIVE_BUS_LOW_DELAY;
   RESET_RELEASE_BUS_DELAY; RESET_SAMPLE_BUS_DELAY].

Definition read_delays : list Z :=
  [WRITE_1_LOW_DELAY; READ_RELEASE_BUS_DELAY; READ_SAMPLE_DELAY].

(** Between reading [j] and reading [j+1] of the tick counter, for
    [lo <= j < hi], every delay of the list elapses. *)
Definition punctual_for (delays : list Z) (rate : Z) (ticks : nat -> Z)
  (lo hi : nat) : Prop :=
  forall j d,
    (lo <= j < hi)%nat ->
    In d delays ->
    TickType_t (TickType_t (ticks j) + pdMS_TO_TICKS rate (pdMS_TO_TICKS rate d))
    <= TickType_t (ticks (S j)).

Definition punctual_forb (delays : list Z) (rate : Z) (ticks : nat -> Z)
  (lo hi : nat) : bool :=
  forallb
    (fun j =>
       forallb
         (fun d =>
            TickType_t (TickType_t (ticks j)
                        + pdMS_TO_TICKS rate (pdMS_TO_TICKS rate d))
            <=? TickType_t (ticks (S j)))
         delays)
    (seq lo (hi - lo)).

(** The five phases of a read slot. *)
Inductive ReadPhase : Type :=
| ReadInit
| ReadDriveLow
| ReadRelease
| ReadSample
| ReadDone.

Definition read_state (p : ReadPhase) : OneWireState :=
  match p with
  | ReadInit => ONEWIRE_STATE_READ_INIT
  | ReadDriveLow => ONEWIRE_STATE_READ_DRIVE_BUS_LOW
  | ReadRelease => ONEWIRE_STATE_READ_RELEASE_BUS
  | ReadSample => ONEWIRE_STATE_READ_SAMPLE_BUS
  | ReadDone => ONEWIRE_STATE_READ_DONE
  end.

(** The line operations of one read slot whose window took the samples
    [samples]: drive low, release, and one read per sample. *)
Definition read_slot_log (port pin : Z) (samples : list GPIO_PinState)
  : list HalCall :=
  slot_actions port pin ++ map (PinRead port pin) samples.

(** The drive and release still to come from phase [p] of a read slot. *)
Definition read_actions_left (port pin : Z) (p : ReadPhase) : list HalCall :=
  match p with
  | ReadInit => slot_actions port pin
  | ReadDriveLow => [PinWrite port pin GPIO_PIN_SET]
  | _ => []
  end.

(** Before the sample window of a slot opens, the scratch bit is at its
    start value. *)
Definition scratch_ready (p : ReadPhase) (w : World) : Prop :=
  match p with
  | ReadInit | ReadDriveLow | ReadRelease => sampled_bus_bit w = GPIO_PIN_SET
  | ReadSample | ReadDone => True
  end.

(** The bit that the slot in phase [p] stores at [bit_index], given the
    samples [rest] its window still takes. *)
Definition slot_bit (p : ReadPhase) (o : OneWireDriver) (w : World)
  (rest : list GPIO_PinState) : bool :=
  match p with
  | ReadDone => Z.testbit (rx_byte o) (bit_index o)
  | ReadSample => is_high (sampled_bus_bit w) && forallb is_high rest
  | _ => forallb is_high rest
  end.

(** Bits [i], [i+1], ... ([k] of them) of [x]. *)
Fixpoint bits_from (x i : Z) (k : nat) : list bool :=
  match k with
  | O => []
  | S k' => Z.testbit x i :: bits_from x (i + 1) k'
  end.

(** The value of a list of bits, least significant first. *)
Fixpoint byte_of_bits (bits : list bool) : Z :=
  match bits with
  | [] => 0
  | b :: rest => Z.b2z b + 2 * byte_of_bits rest
  end.

(** A reset polled late at every step. *)
Definition late_reset_clock (k : nat) : Z := Z.of_nat k * 500.

(** A byte read during which a device pulls the line low for a while: the
    tick counter advances by 20 per read, so at 1000 Hz each window of 55
    ticks takes two samples, and the line is low at samples 2, 3 and 4,
    that is in the window of bit 1 and at the start of that of bit 2. *)
Definition read_clock (k : nat) : Z := Z.of_nat k * 20.

Definition read_line (k : nat) : GPIO_PinState :=
  if ((2 <=? k) && (k <=? 4))%nat then GPIO_PIN_RESET else GPIO_PIN_SET.

(** The four phases of a reset that come before [RESET_DONE]. *)
Inductive ResetPhase : Type :=
| ResetInit
| ResetDriveLow
| ResetRelease
| ResetSample.

Definition reset_state (p : ResetPhase) : OneWireState :=
  match p with
  | ResetInit => ONEWIRE_STATE_RESET_INIT
  | ResetDriveLow => ONEWIRE_STATE_RESET_DRIVE_BUS_LOW
  | ResetRelease => ONEWIRE_STATE_RESET_RELEASE_BUS
  | ResetSample => ONEWIRE_STATE_RESET_SAMPLE_BUS
  end.

(** The states still to be entered, and the line operations still to come,
    from phase [p] of a reset that reaches [RESET_DONE]. *)
Definition reset_phases_left (p : ResetPhase) : list OneWireState :=
  match p with
  | ResetInit =>
      [ONEWIRE_STATE_RESET_DRIVE_BUS_LOW; ONEWIRE_STATE_RESET_RELEASE_BUS;
       ONEWIRE_STATE_RESET_SAMPLE_BUS; ONEWIRE_STATE_RESET_DONE]
  | ResetDriveLow =>
      [ONEWIRE_STATE_RESET_RELEASE_BUS; ONEWIRE_STATE_RESET_SAMPLE_BUS;
       ONEWIRE_STATE_RESET_DONE]
  | ResetRelease =>
      [ONEWIRE_STATE_RESET_SAMPLE_BUS; ONEWIRE_STATE_RESET_DONE]
  | ResetSample => [ONEWIRE_STATE_RESET_DONE]
  end.

Definition reset_actions_left (port pin : Z) (p : ResetPhase) : list HalCall :=
  match p with
  | ResetInit => slot_actions port pin
  | ResetDriveLow => [PinWrite port pin GPIO_PIN_SET]
  | ResetRelease | ResetSample => []
  end.

(** ** Bits of the registers *)

Lemma land_1_testbit (a : Z) : Z.land a 1 = Z.b2z (Z.testbit a 0).
Proof.
  change 1 with (Z.ones 1). rewrite Z.land_ones by lia.
  rewrite Z.bit0_mod. reflexivity.
Qed.

Lemma uint8_t_b2z (b : bool) : uint8_t (Z.b2z b) = Z.b2z b.
Proof. destruct b; reflexivity. Qed.

Lemma uint8_t_testbit (a k : Z) :
  0 <= k < 8 -> Z.testbit (uint8_t a) k = Z.testbit a k.
Proof.
  intros Hk. unfold uint8_t. change 256 with (2 ^ 8).
  apply Z.mod_pow2_bits_low. lia.
Qed.

Lemma uint8_t_small (a : Z) : 0 <= a < 256 -> uint8_t a = a.
Proof. intros H. unfold uint8_t. apply Z.mod_small. exact H. Qed.

(** [(x >> k) & 1], converted to [uint8_t], is bit [k] of [x]. *)
Lemma bit_extract (x k : Z) :
  0 <= k -> uint8_t (Z.land (Z.shiftr x k) 1) = Z.b2z (Z.testbit x k).
Proof.
  intros Hk. rewrite land_1_testbit, uint8_t_b2z.
  rewrite Z.shiftr_spec by lia. reflexivity.
Qed.

Lemma get_flag_spec (o : OneWireDriver) (f : OneWireFlags) :
  get_flag o f = Z.b2z (Z.testbit (flag_reg o) (flag_bit f)).
Proof.
  unfold get_flag. destruct f; cbn [flag_bit Z.ltb Z.compare];
    apply bit_extract; lia.
Qed.

Lemma flag_bit_range (f : OneWireFlags) : 0 <= flag_bit f < 8.
Proof. destruct f; cbn; lia. Qed.

Lemma set_flag_reg (o : OneWireDriver) (f : OneWireFlags) :
  flag_reg (set_flag o f)
  = uint8_t (Z.lor (flag_reg o) (Z.shiftl 1 (flag_bit f))).
Proof. destruct f; reflexivity. Qed.

Lemma get_flag_set_flag (o : OneWireDriver) (f : OneWireFlags) :
  get_flag (set_flag o f) f = 1.
Proof.
  rewrite get_flag_spec, set_flag_reg.
  pose proof (flag_bit_range f) as Hf.
  rewrite uint8_t_testbit by exact Hf.
  rewrite Z.lor_spec, Z.shiftl_spec by lia.
  rewrite Z.sub_diag. cbn. rewrite orb_true_r. reflexivity.
Qed.

Lemma get_flag_set_flag_other (o : OneWireDriver) (f g : OneWireFlags) :
  f <> g -> get_flag (set_flag o f) g = get_flag o g.
Proof.
  intros Hfg. rewrite !get_flag_spec, set_flag_reg.
  rewrite uint8_t_testbit by apply flag_bit_range.
  rewrite Z.lor_spec.
  replace (Z.testbit (Z.shiftl 1 (flag_bit f)) (flag_bit g)) with false.
  - rewrite orb_false_r. reflexivity.
  - destruct f, g; try congruence; reflexivity.
Qed.

Lemma set_flag_fields (o : OneWireDriver) (f : OneWireFlags) :
  state (set_flag o f) = state o /\ bit_index (set_flag o f) = bit_index o
  /\ rx_byte (set_flag o f) = rx_byte o /\ tx_byte (set_flag o f) = tx_byte o
  /\ timestamp (set_flag o f) = timestamp o
  /\ Pin (set_flag o f) = Pin o /\ Port (set_flag o f) = Port o.
Proof. destruct f; cbn; repeat split. Qed.

(** ** The model on small inputs *)

Example pdMS_TO_TICKS_at_1000_Hz : pdMS_TO_TICKS 1000 480 = 480.
Proof. reflexivity. Qed.

Example pdMS_TO_TICKS_at_100_Hz : pdMS_TO_TICKS 100 480 = 48.
Proof. reflexivity. Qed.

Example set_flag_byte_send :
  flag_reg (set_flag (driver_at ONEWIRE_STATE_IDLE 0 0 1) FLAG_BYTE_SEND) = 9.
Proof. reflexivity. Qed.

Example reset_flag_presence :
  flag_reg (reset_flag (driver_at ONEWIRE_STATE_IDLE 0 0 3)
              FLAG_PRESENCE_DETECTED) = 1.
Proof. reflexivity. Qed.

Example store_read_bit_sets_bit_5 :
  rx_byte (store_read_bit (driver_at ONEWIRE_STATE_READ_SAMPLE_BUS 5 0 0) 1)
  = 32.
Proof. reflexivity. Qed.

Example write_byte_starts_low_slot_for_even_value :
  state (fst (onewire_write_byte (driver_at ONEWIRE_STATE_IDLE 0 0 0) 164
                (steady_world 0 GPIO_PIN_SET)))
  = ONEWIRE_STATE_WRITE_LOW_INIT.
Proof. reflexivity. Qed.

Example byte_write_phases_0xA5_first_two_slots :
  firstn 8 (byte_write_phases 165)
  = [ONEWIRE_STATE_WRITE_HIGH_INIT; ONEWIRE_STATE_WRITE_HIGH_DRIVE_BUS_LOW;
     ONEWIRE_STATE_WRITE_HIGH_RELEASE_BUS; ONEWIRE_STATE_WRITE_HIGH_DONE;
     ONEWIRE_STATE_WRITE_LOW_INIT; ONEWIRE_STATE_WRITE_LOW_DRIVE_BUS_LOW;
     ONEWIRE_STATE_WRITE_LOW_RELEASE_BUS; ONEWIRE_STATE_WRITE_LOW_DONE].
Proof. reflexivity. Qed.

(** A read slot polled late at every step goes through its five states and
    stores the quiet line as a 1 in bit 0. *)
Example read_slot_on_quiet_line :
  let o := driver_at ONEWIRE_STATE_READ_INIT 0 0 0 in
  let w := scripted_world slow_clock (fun _ => GPIO_PIN_SET) in
  phase_log 1000 5 o w
  = [ONEWIRE_STATE_READ_DRIVE_BUS_LOW; ONEWIRE_STATE_READ_RELEASE_BUS;
     ONEWIRE_STATE_READ_SAMPLE_BUS; ONEWIRE_STATE_READ_DONE;
     ONEWIRE_STATE_READ_INIT]
  /\ rx_byte (fst (poll 1000 5 o w)) = 1
  /\ bit_index (fst (poll 1000 5 o w)) = 1.
Proof. vm_compute. repeat split. Qed.

(** ** Stepping the engine *)

Arguments uint8_t : simpl never.
Arguments TickType_t : simpl never.
Arguments pdMS_TO_TICKS : simpl never.
Arguments set_flag : simpl never.
Arguments reset_flag : simpl never.
Arguments get_flag : simpl never.
Arguments store_read_bit : simpl never.

Ltac unfold_driver :=
  unfold onewire_process, onewire_write_byte, onewire_init,
    handle_write_bit_done_state, set_write_init_state, case_WRITE_HIGH_INIT,
    set_state, is_time_expired, pin_output_mode, pull_low, pull_high,
    read_pin, bind, ret, xTaskGetTickCount, HAL_GPIO_WritePin,
    HAL_GPIO_ReadPin, HAL_GPIO_Init, get_sampled_bus_bit, set_sampled_bus_bit.

Ltac unfold_driver_in H :=
  unfold onewire_process, onewire_write_byte, onewire_init,
    handle_write_bit_done_state, set_write_init_state, case_WRITE_HIGH_INIT,
    set_state, is_time_expired, pin_output_mode, pull_low, pull_high,
    read_pin, bind, ret, xTaskGetTickCount, HAL_GPIO_WritePin,
    HAL_GPIO_ReadPin, HAL_GPIO_Init, get_sampled_bus_bit, set_sampled_bus_bit in H.

Ltac flag_fields :=
  repeat match goal with
    | |- context [state (set_flag ?o ?f)] =>
        replace (state (set_flag o f)) with (state o)
          by (symmetry; apply set_flag_fields)
    | |- context [bit_index (set_flag ?o ?f)] =>
        replace (bit_index (set_flag o f)) with (bit_index o)
          by (symmetry; apply set_flag_fields)
    | |- context [rx_byte (set_flag ?o ?f)] =>
        replace (rx_byte (set_flag o f)) with (rx_byte o)
          by (symmetry; apply set_flag_fields)
    | |- context [tx_byte (set_flag ?o ?f)] =>
        replace (tx_byte (set_flag o f)) with (tx_byte o)
          by (symmetry; apply set_flag_fields)
    end.

(** Whatever the clock says: once in [ERROR], the engine stays there. *)
Lemma error_is_absorbing (rate : Z) (n : nat) :
  forall o w, state o = ONEWIRE_STATE_ERROR ->
              state (fst (poll rate n o w)) = ONEWIRE_STATE_ERROR.
Proof.
  induction n as [|n IH]; intros o w Hs; cbn [poll].
  - exact Hs.
  - destruct (onewire_process rate o w) as [o' w'] eqn:Hp.
    apply IH.
    unfold onewire_process in Hp. rewrite Hs in Hp.
    unfold_driver_in Hp. cbn in Hp. inversion Hp; subst.
    flag_fields. reflexivity.
Qed.

(** ** States without a case: [IDLE] and [RESET_DONE] *)

(** C1 (the code departs from the claim).  The claim: a call of
    [onewire_process] on an instance in [IDLE] does nothing.  The switch has
    no case for [ONEWIRE_STATE_IDLE], so the instance that [onewire_init] has
    just set up (state [IDLE], no flag set) is taken by the [default] branch:
    after one poll it is in [ERROR] with the error flag latched and a new
    time stamp. *)
Theorem idle_poll_enters_error :
  forall (rate : Z) (o : OneWireDriver) (port pin : Z) (w : World),
    let o1 := fst (onewire_init o port pin w) in
    let w1 := snd (onewire_init o port pin w) in
    let o2 := fst (onewire_process rate o1 w1) in
    state o1 = ONEWIRE_STATE_IDLE /\ flag_reg o1 = 0
    /\ state o2 = ONEWIRE_STATE_ERROR /\ flag_reg o2 = 1
    /\ get_flag o2 FLAG_ERROR = 1
    /\ o2 <> o1.
Proof.
  intros rate o port pin w. cbn zeta.
  unfold_driver. cbn.
  repeat split; try reflexivity.
  intro Heq. apply (f_equal state) in Heq. cbn in Heq. discriminate.
Qed.

(** C10.  An instance in [RESET_DONE] is taken by the [default] branch of the
    switch: the next poll puts it in [ERROR] and sets the error flag, without
    touching the line. *)
Theorem reset_done_poll_latches_error :
  forall (rate : Z) (o : OneWireDriver) (w : World),
    state o = ONEWIRE_STATE_RESET_DONE ->
    let o' := fst (onewire_process rate o w) in
    let w' := snd (onewire_process rate o w) in
    state o' = ONEWIRE_STATE_ERROR
    /\ get_flag o' FLAG_ERROR = 1
    /\ bus_log w' = bus_log w.
Proof.
  intros rate o w Hs. cbn zeta.
  unfold onewire_process. rewrite Hs. unfold_driver. cbn.
  split; [|split].
  - flag_fields. reflexivity.
  - apply get_flag_set_flag.
  - reflexivity.
Qed.

(** An instance left in [RESET_DONE], polled at tick 5. *)
Lemma reset_done_poll_latches_error_witness :
  state (driver_at ONEWIRE_STATE_RESET_DONE 0 0 0) = ONEWIRE_STATE_RESET_DONE
  /\ state (fst (onewire_process 1000 (driver_at ONEWIRE_STATE_RESET_DONE 0 0 0)
                   (steady_world 5 GPIO_PIN_SET))) = ONEWIRE_STATE_ERROR
  /\ get_flag (fst (onewire_process 1000 (driver_at ONEWIRE_STATE_RESET_DONE 0 0 0)
                      (steady_world 5 GPIO_PIN_SET))) FLAG_ERROR = 1
  /\ bus_log (snd (onewire_process 1000 (driver_at ONEWIRE_STATE_RESET_DONE 0 0 0)
                     (steady_world 5 GPIO_PIN_SET))) = [].
Proof.
  split; [reflexivity|].
  apply (reset_done_poll_latches_error 1000
           (driver_at ONEWIRE_STATE_RESET_DONE 0 0 0)
           (steady_world 5 GPIO_PIN_SET)).
  reflexivity.
Defined.

(** ** The [DONE] states *)

(** C6.  When the write of the eighth bit ([bit_index] 7) is in its [DONE]
    state, the next poll resets [bit_index], clears [rx_byte], sets the
    byte-sent flag and returns to [IDLE]. *)
Theorem eighth_write_bit_done_completes_byte :
  forall (rate : Z) (o : OneWireDriver) (w : World),
    state o = ONEWIRE_STATE_WRITE_HIGH_DONE
    \/ state o = ONEWIRE_STATE_WRITE_LOW_DONE ->
    bit_index o = 7 ->
    let o' := fst (onewire_process rate o w) in
    bit_index o' = 0
    /\ rx_byte o' = 0
    /\ get_flag o' FLAG_BYTE_SEND = 1
    /\ state o' = ONEWIRE_STATE_IDLE.
Proof.
  intros rate o w Hs Hi. cbn zeta.
  unfold onewire_process.
  destruct Hs as [Hs|Hs]; rewrite Hs; unfold_driver; cbn;
    rewrite Hi; cbn;
    (split; [|split; [|split]]);
    [ flag_fields; reflexivity | flag_fields; reflexivity
    | apply get_flag_set_flag | flag_fields; reflexivity
    | flag_fields; reflexivity | flag_fields; reflexivity
    | apply get_flag_set_flag | flag_fields; reflexivity ].
Qed.

(** The last bit of a byte, a 0, with its slot finished at tick 110. *)
Lemma eighth_write_bit_done_completes_byte_witness :
  let o := driver_at ONEWIRE_STATE_WRITE_LOW_DONE 7 100 0 in
  let o' := fst (onewire_process 1000 o (steady_world 110 GPIO_PIN_SET)) in
  bit_index o = 7
  /\ bit_index o' = 0 /\ rx_byte o' = 0 /\ get_flag o' FLAG_BYTE_SEND = 1
  /\ state o' = ONEWIRE_STATE_IDLE.
Proof.
  cbn zeta. split; [reflexivity|].
  apply (eighth_write_bit_done_completes_byte 1000
           (driver_at ONEWIRE_STATE_WRITE_LOW_DONE 7 100 0)
           (steady_world 110 GPIO_PIN_SET)).
  - right. reflexivity.
  - reflexivity.
Defined.

(** C8.  In [READ_DONE] a poll advances [bit_index]; while fewer than eight
    bits are complete the engine goes back to [READ_INIT] with the advanced
    index, and on the eighth bit it sets the byte-received flag, resets
    [bit_index] to 0 and returns to [IDLE]. *)
Theorem read_done_advances_or_completes :
  forall (rate : Z) (o : OneWireDriver) (w : World),
    state o = ONEWIRE_STATE_READ_DONE ->
    0 <= bit_index o < 8 ->
    let o' := fst (onewire_process rate o w) in
    (bit_index o < 7 ->
       state o' = ONEWIRE_STATE_READ_INIT
       /\ bit_index o' = bit_index o + 1
       /\ get_flag o' FLAG_BYTE_RECEIVED = get_flag o FLAG_BYTE_RECEIVED)
    /\ (bit_index o = 7 ->
       state o' = ONEWIRE_STATE_IDLE
       /\ bit_index o' = 0
       /\ get_flag o' FLAG_BYTE_RECEIVED = 1)
    /\ rx_byte o' = rx_byte o.
Proof.
  intros rate o w Hs Hi. cbn zeta.
  unfold onewire_process. rewrite Hs. unfold_driver. cbn.
  rewrite (uint8_t_small (bit_index o + 1)) by lia.
  destruct (8 <=? bit_index o + 1) eqn:Hc.
  - apply Z.leb_le in Hc. cbn. split; [intros; lia|]. split.
    + intros _. split; [|split].
      * flag_fields. reflexivity.
      * reflexivity.
      * rewrite !get_flag_spec. cbn [flag_reg].
        rewrite <- get_flag_spec. apply get_flag_set_flag.
    + flag_fields. reflexivity.
  - apply Z.leb_gt in Hc. cbn. split; [|split; [intros; lia | reflexivity]].
    intros _. repeat split.
Qed.

(** The eighth bit of a byte read, in [READ_DONE]. *)
Lemma read_done_advances_or_completes_witness :
  let o := driver_at ONEWIRE_STATE_READ_DONE 7 100 0 in
  let o' := fst (onewire_process 1000 o (steady_world 160 GPIO_PIN_SET)) in
  0 <= bit_index o < 8
  /\ state o' = ONEWIRE_STATE_IDLE /\ bit_index o' = 0
  /\ get_flag o' FLAG_BYTE_RECEIVED = 1.
Proof.
  cbn zeta. split; [cbn; lia|].
  apply (read_done_advances_or_completes 1000
           (driver_at ONEWIRE_STATE_READ_DONE 7 100 0)
           (steady_world 160 GPIO_PIN_SET));
    [reflexivity | cbn; lia | reflexivity].
Defined.

(** ** The reset sample window *)

(** What the expiry of the reset sample window does to the error flag, for
    any instance and any world: the flag is set when the presence flag is
    set, and keeps its value when the presence flag is clear. *)
Lemma reset_sample_expiry_polarity :
  forall (rate : Z) (o : OneWireDriver) (w : World),
    state o = ONEWIRE_STATE_RESET_SAMPLE_BUS ->
    deadline_pending rate o w = false ->
    let o' := fst (onewire_process rate o w) in
    state o' = ONEWIRE_STATE_RESET_DONE
    /\ get_flag o' FLAG_PRESENCE_DETECTED = get_flag o FLAG_PRESENCE_DETECTED
    /\ get_flag o' FLAG_ERROR
       = (if get_flag o FLAG_PRESENCE_DETECTED =? 0
          then get_flag o FLAG_ERROR else 1).
Proof.
  intros rate o w Hs Hp. cbn zeta.
  unfold deadline_pending in Hp. rewrite Hs in Hp. cbn [phase_delay] in Hp.
  unfold_driver_in Hp. cbn in Hp. apply negb_false_iff in Hp.
  unfold onewire_process. rewrite Hs.
  unfold_driver. cbn. rewrite Hp. cbn.
  match goal with
  | |- context [get_flag ?x FLAG_PRESENCE_DETECTED =? 0] =>
      replace (get_flag x FLAG_PRESENCE_DETECTED)
        with (get_flag o FLAG_PRESENCE_DETECTED)
        by (rewrite !get_flag_spec; reflexivity)
  end.
  destruct (get_flag o FLAG_PRESENCE_DETECTED =? 0) eqn:Hpr; cbn.
  - repeat split; rewrite !get_flag_spec; reflexivity.
  - split; [flag_fields; reflexivity|]. split.
    + rewrite get_flag_set_flag_other by discriminate.
      rewrite !get_flag_spec. reflexivity.
    + apply get_flag_set_flag.
Qed.

(** C3 (the code departs from the claim).  The claim: at the expiry of the
    reset sample window, presence detected means the error flag is not set
    and no presence means it is set.  The code tests the presence flag the
    other way round.  With no presence detected (flag register 0) the
    expired window leaves the error flag clear; with presence detected
    (flag register 2) it sets the error flag. *)
Theorem reset_window_expiry_error_polarity :
  let w := steady_world 1000 GPIO_PIN_SET in
  let absent := driver_at ONEWIRE_STATE_RESET_SAMPLE_BUS 0 0 0 in
  let present := driver_at ONEWIRE_STATE_RESET_SAMPLE_BUS 0 0 2 in
  let absent' := fst (onewire_process 1000 absent w) in
  let present' := fst (onewire_process 1000 present w) in
  (get_flag absent FLAG_PRESENCE_DETECTED = 0
   /\ state absent' = ONEWIRE_STATE_RESET_DONE
   /\ get_flag absent' FLAG_ERROR = 0)
  /\ (get_flag present FLAG_PRESENCE_DETECTED = 1
      /\ get_flag present FLAG_ERROR = 0
      /\ state present' = ONEWIRE_STATE_RESET_DONE
      /\ get_flag present' FLAG_ERROR = 1).
Proof. vm_compute. repeat split. Qed.

(** In the reset sample window, a poll that finds the window open samples
    the line and then runs the body of [case ONEWIRE_STATE_WRITE_HIGH_INIT]:
    the instance leaves the reset family for [WRITE_HIGH_DRIVE_BUS_LOW] and
    the line is driven low. *)
Lemma reset_sample_falls_through :
  forall (rate : Z) (o : OneWireDriver) (w : World),
    state o = ONEWIRE_STATE_RESET_SAMPLE_BUS ->
    deadline_pending rate o w = true ->
    let o' := fst (onewire_process rate o w) in
    let w' := snd (onewire_process rate o w) in
    state o' = ONEWIRE_STATE_WRITE_HIGH_DRIVE_BUS_LOW
    /\ bus_log w'
       = bus_log w
           ++ [PinRead (Port o) (Pin o) (pin_source w (pin_reads w));
               PinWrite (Port o) (Pin o) GPIO_PIN_RESET].
Proof.
  intros rate o w Hs Hp. cbn zeta.
  unfold deadline_pending in Hp. rewrite Hs in Hp. cbn [phase_delay] in Hp.
  unfold_driver_in Hp. cbn in Hp. apply negb_true_iff in Hp.
  unfold onewire_process. rewrite Hs.
  unfold_driver. cbn. rewrite Hp. cbn.
  destruct (pin_source w (pin_reads w)); cbn;
    (split; [flag_fields; reflexivity|]);
    rewrite <- app_assoc; cbn;
    repeat f_equal; apply set_flag_fields.
Qed.

(** C4 (the code departs from the claim).  The claim: a poll never takes the
    machine out of the phase order, and a reset state never leads straight
    into a write state.  A reset started from [RESET_INIT] and polled four
    times goes [RESET_DRIVE_BUS_LOW], [RESET_RELEASE_BUS],
    [RESET_SAMPLE_BUS] and then, the sample window being open, directly
    [WRITE_HIGH_DRIVE_BUS_LOW], driving the line low: [RESET_DONE] and
    [WRITE_HIGH_INIT] are never entered. *)
Theorem reset_sample_leaves_reset_family :
  let o := driver_at ONEWIRE_STATE_RESET_INIT 0 0 0 in
  let w := scripted_world reset_clock (fun _ => GPIO_PIN_SET) in
  phase_log 1000 4 o w
  = [ONEWIRE_STATE_RESET_DRIVE_BUS_LOW; ONEWIRE_STATE_RESET_RELEASE_BUS;
     ONEWIRE_STATE_RESET_SAMPLE_BUS; ONEWIRE_STATE_WRITE_HIGH_DRIVE_BUS_LOW]
  /\ state (fst (poll 1000 3 o w)) = ONEWIRE_STATE_RESET_SAMPLE_BUS
  /\ deadline_pending 1000 (fst (poll 1000 3 o w)) (snd (poll 1000 3 o w))
     = true
  /\ state (fst (poll 1000 4 o w)) = ONEWIRE_STATE_WRITE_HIGH_DRIVE_BUS_LOW
  /\ bus_log (snd (poll 1000 4 o w))
     = [PinWrite 1207959552 1 GPIO_PIN_RESET;
        PinWrite 1207959552 1 GPIO_PIN_SET;
        PinRead 1207959552 1 GPIO_PIN_SET;
        PinWrite 1207959552 1 GPIO_PIN_RESET].
Proof. vm_compute. repeat split. Qed.

(** ** Deadlines *)

(** What [is_time_expired] answers: the sum of the time stamp and the
    converted argument, reduced to the tick type, is compared with the tick
    count read at the call. *)
Lemma is_time_expired_spec (rate : Z) (o : OneWireDriver) (d : Z) (w : World) :
  is_time_expired rate o d w
  = (TickType_t (timestamp o + pdMS_TO_TICKS rate d)
       <=? TickType_t (tick_source w (tick_reads w)),
     after_tick_reads 1 w).
Proof. reflexivity. Qed.

(** At a tick rate of 1000 Hz the conversion leaves a delay as it is. *)
Lemma pdMS_TO_TICKS_1kHz (x : Z) :
  0 <= x < 4294967 -> pdMS_TO_TICKS 1000 x = x.
Proof.
  intros Hx. unfold pdMS_TO_TICKS, TickType_t, uint32_t.
  rewrite (Z.mod_small x) by lia.
  rewrite (Z.mod_small 1000) by lia.
  rewrite (Z.mod_small (x * 1000)) by lia.
  rewrite Z.div_mul by lia.
  apply Z.mod_small. lia.
Qed.

(** At 1000 Hz, and as long as the sum does not leave the tick type, a delay
    [d] is found elapsed exactly when the tick count has reached
    [timestamp + d]. *)
Lemma is_time_expired_1kHz (o : OneWireDriver) (d : Z) (w : World) :
  0 <= d < 4294967 ->
  0 <= timestamp o ->
  timestamp o + d < 4294967296 ->
  fst (is_time_expired 1000 o (pdMS_TO_TICKS 1000 d) w) = true
  <-> timestamp o + d <= TickType_t (tick_source w (tick_reads w)).
Proof.
  intros Hd Ht Hsum. rewrite is_time_expired_spec. cbn [fst].
  rewrite (pdMS_TO_TICKS_1kHz d) by lia.
  rewrite (pdMS_TO_TICKS_1kHz d) by lia.
  unfold TickType_t at 1. unfold uint32_t. rewrite Z.mod_small by lia.
  apply Z.leb_le.
Qed.

(** C9 (the code departs from the claim).  The claim: a phase is expired
    exactly when [now >= timestamp + delay], the delay being the phase
    constant converted once to ticks.  Every case of the switch converts
    its constant with [pdMS_TO_TICKS] and [is_time_expired] converts its
    argument again.  At a tick rate of 100 Hz the reset hold time of 480 is
    48 ticks when converted once and 4 ticks when converted twice: with time
    stamp 0 and tick count 4 the deadline [0 + 48] of the claim has not been
    reached, and the engine finds the phase expired and releases the line. *)
Theorem reset_hold_delay_is_converted_twice :
  let o := driver_at ONEWIRE_STATE_RESET_DRIVE_BUS_LOW 0 0 0 in
  let w := steady_world 4 GPIO_PIN_SET in
  pdMS_TO_TICKS 100 RESET_DRIVE_BUS_LOW_DELAY = 48
  /\ pdMS_TO_TICKS 100 (pdMS_TO_TICKS 100 RESET_DRIVE_BUS_LOW_DELAY) = 4
  /\ (timestamp o + pdMS_TO_TICKS 100 RESET_DRIVE_BUS_LOW_DELAY
        <=? fst (xTaskGetTickCount w)) = false
  /\ fst (is_time_expired 100 o (pdMS_TO_TICKS 100 RESET_DRIVE_BUS_LOW_DELAY) w)
     = true
  /\ state (fst (onewire_process 100 o w)) = ONEWIRE_STATE_RESET_RELEASE_BUS
  /\ bus_log (snd (onewire_process 100 o w))
     = [PinWrite 1207959552 1 GPIO_PIN_SET].
Proof. vm_compute. repeat split. Qed.

(** The sum of time stamp and delay is reduced to 32 bits before it is
    compared: a phase entered at the last tick before the counter wraps is
    found expired at that very tick (rate 1000 Hz, write-1 low time 6). *)
Lemma deadline_sum_wraps :
  let o := driver_at ONEWIRE_STATE_WRITE_HIGH_DRIVE_BUS_LOW 0 4294967295 0 in
  let w := steady_world 4294967295 GPIO_PIN_SET in
  fst (xTaskGetTickCount w) = timestamp o
  /\ fst (is_time_expired 1000 o (pdMS_TO_TICKS 1000 WRITE_1_LOW_DELAY) w) = true.
Proof. vm_compute. split; reflexivity. Qed.

(** ** Waiting *)

(** [deadline_pending] looks at the tick counter only. *)
Lemma deadline_pending_same_clock (rate : Z) (o : OneWireDriver) (w1 w2 : World) :
  tick_source w1 = tick_source w2 ->
  tick_reads w1 = tick_reads w2 ->
  deadline_pending rate o w1 = deadline_pending rate o w2.
Proof.
  intros Hsrc Hreads. unfold deadline_pending.
  destruct (phase_delay (state o)) as [d|]; [|reflexivity].
  rewrite !is_time_expired_spec. cbn [fst]. rewrite Hsrc, Hreads. reflexivity.
Qed.

(** One poll of a waiting phase: nothing but the read of the tick counter. *)
Lemma waiting_poll (rate : Z) (o : OneWireDriver) (w : World) :
  waits_without_sampling (state o) = true ->
  deadline_pending rate o w = true ->
  onewire_process rate o w = (o, after_tick_reads 1 w).
Proof.
  intros Hq Hp. unfold deadline_pending in Hp.
  unfold onewire_process.
  destruct (state o); try discriminate Hq; cbn [phase_delay] in Hp;
    apply negb_true_iff in Hp;
    unfold bind at 1; rewrite is_time_expired_spec in *; cbn [fst] in Hp;
    rewrite Hp; reflexivity.
Qed.

(** One poll inside the open read sample window: the line is sampled, the
    instance is not touched, and the scratch bit goes low on a low sample. *)
Lemma read_window_poll (rate : Z) (o : OneWireDriver) (w : World) :
  state o = ONEWIRE_STATE_READ_SAMPLE_BUS ->
  deadline_pending rate o w = true ->
  let level := pin_source w (pin_reads w) in
  onewire_process rate o w
  = (o, mkWorld (tick_source w) (S (tick_reads w)) (pin_source w)
          (S (pin_reads w))
          (bus_log w ++ [PinRead (Port o) (Pin o) level])
          (match level with
           | GPIO_PIN_RESET => GPIO_PIN_RESET
           | GPIO_PIN_SET => sampled_bus_bit w
           end)).
Proof.
  intros Hs Hp. cbn zeta. unfold deadline_pending in Hp.
  rewrite Hs in Hp. cbn [phase_delay] in Hp. apply negb_true_iff in Hp.
  unfold onewire_process. rewrite Hs.
  unfold bind at 1. rewrite is_time_expired_spec in *. cbn [fst] in Hp.
  rewrite Hp. cbn [negb]. unfold_driver. cbn.
  destruct (pin_source w (pin_reads w)); reflexivity.
Qed.

Lemma pending_now (rate : Z) (n : nat) (o : OneWireDriver) (w : World) :
  (forall k, (k < S n)%nat ->
             deadline_pending rate o (after_tick_reads k w) = true) ->
  deadline_pending rate o w = true.
Proof.
  intros H. rewrite <- (H 0%nat) by lia.
  apply deadline_pending_same_clock; reflexivity.
Qed.

Lemma pending_later (rate : Z) (n : nat) (o : OneWireDriver) (w w1 : World) :
  tick_source w1 = tick_source w ->
  tick_reads w1 = S (tick_reads w) ->
  (forall k, (k < S n)%nat ->
             deadline_pending rate o (after_tick_reads k w) = true) ->
  forall k, (k < n)%nat ->
            deadline_pending rate o (after_tick_reads k w1) = true.
Proof.
  intros Hsrc Hreads H k Hk. rewrite <- (H (S k)) by lia.
  apply deadline_pending_same_clock; cbn; [exact Hsrc|].
  rewrite Hreads. lia.
Qed.

(** Polls of a waiting phase read the tick counter and do nothing else. *)
Lemma waiting_polls (rate : Z) (n : nat) :
  forall (o : OneWireDriver) (w : World),
    waits_without_sampling (state o) = true ->
    (forall k, (k < n)%nat ->
               deadline_pending rate o (after_tick_reads k w) = true) ->
    poll rate n o w = (o, after_tick_reads n w).
Proof.
  induction n as [|n IH]; intros o w Hq Hp.
  - destruct w; reflexivity.
  - cbn [poll].
    rewrite (waiting_poll rate o w Hq (pending_now rate n o w Hp)).
    rewrite IH; [|exact Hq|].
    + unfold after_tick_reads. cbn. rewrite Nat.add_succ_r. reflexivity.
    + apply (pending_later rate n o w); [reflexivity|reflexivity|exact Hp].
Qed.

(** Polls inside the open read sample window. *)
Lemma read_window_polls (rate : Z) (n : nat) :
  forall (o : OneWireDriver) (w : World),
    state o = ONEWIRE_STATE_READ_SAMPLE_BUS ->
    (forall k, (k < n)%nat ->
               deadline_pending rate o (after_tick_reads k w) = true) ->
    poll rate n o w = (o, after_window_polls o n w).
Proof.
  induction n as [|n IH]; intros o w Hs Hp.
  - destruct w. unfold after_window_polls, next_samples. cbn.
    rewrite app_nil_r. reflexivity.
  - cbn [poll].
    rewrite (read_window_poll rate o w Hs (pending_now rate n o w Hp)).
    rewrite IH; [|exact Hs|].
    + unfold after_window_polls, next_samples. cbn.
      rewrite !Nat.add_succ_r, <- app_assoc. cbn.
      destruct (pin_source w (pin_reads w)); cbn;
        destruct (forallb is_high (map (pin_source w) (seq (S (pin_reads w)) n)));
        reflexivity.
    + apply (pending_later rate n o w); [reflexivity|reflexivity|exact Hp].
Qed.

Lemma forallb_is_sample_reads (port pin : Z) (l : list GPIO_PinState) :
  forallb is_sample (map (PinRead port pin) l) = true.
Proof. induction l as [|p l IH]; cbn; [reflexivity|exact IH]. Qed.

(** A timed phase is a waiting phase or one of the two sample windows. *)
Lemma timed_phase_cases (s : OneWireState) (d : Z) :
  phase_delay s = Some d ->
  waits_without_sampling s = true
  \/ s = ONEWIRE_STATE_READ_SAMPLE_BUS
  \/ s = ONEWIRE_STATE_RESET_SAMPLE_BUS.
Proof. destruct s; cbn; intros H; try discriminate H; auto. Qed.

(** C2, the claim as stated fails: inside the open read sample window
    (time stamp 0, tick count 1, window of 55 ticks at 1000 Hz) a poll
    samples the line, which the log of line operations shows. *)
Lemma waiting_in_read_window_samples :
  ~ waiting_is_silent 1000
      (driver_at ONEWIRE_STATE_READ_SAMPLE_BUS 0 0 0)
      (steady_world 1 GPIO_PIN_SET).
Proof.
  intros H. destruct (H eq_refl) as [_ Hlog].
  vm_compute in Hlog. discriminate Hlog.
Qed.

(** C2, amended.  In every timed phase other than the two sample windows,
    any number of polls made while the deadline is pending perform no line
    operation and change nothing of the instance: each poll only reads the
    tick counter.  In the read sample window such polls leave the instance
    unchanged and never drive or release the line; each of them samples it
    once.  (The reset sample window is not covered.) *)
Theorem waiting_polls_are_quiet :
  forall (rate : Z) (n : nat) (o : OneWireDriver) (w : World),
    state o <> ONEWIRE_STATE_RESET_SAMPLE_BUS ->
    (forall k, (k < n)%nat ->
               deadline_pending rate o (after_tick_reads k w) = true) ->
    let o' := fst (poll rate n o w) in
    let w' := snd (poll rate n o w) in
    o' = o
    /\ (waits_without_sampling (state o) = true -> w' = after_tick_reads n w)
    /\ (state o = ONEWIRE_STATE_READ_SAMPLE_BUS ->
        exists samples,
          bus_log w' = bus_log w ++ samples
          /\ forallb is_sample samples = true
          /\ length samples = n).
Proof.
  intros rate n o w Hnot Hp. cbn zeta.
  destruct n as [|n].
  - cbn. split; [reflexivity|]. split.
    + intros _. destruct w; reflexivity.
    + intros _. exists []. rewrite app_nil_r. repeat split.
  - pose proof (pending_now rate n o w Hp) as H0.
    unfold deadline_pending in H0.
    destruct (phase_delay (state o)) as [d|] eqn:Hd; [|discriminate H0].
    destruct (timed_phase_cases _ _ Hd) as [Hq|[Hs|Hs]]; [| |contradiction].
    + rewrite (waiting_polls rate (S n) o w Hq Hp). cbn [fst snd].
      split; [reflexivity|]. split; [reflexivity|].
      intros Hs. rewrite Hs in Hq. discriminate Hq.
    + rewrite (read_window_polls rate (S n) o w Hs Hp). cbn [fst snd].
      split; [reflexivity|]. split.
      * intros Hq. rewrite Hs in Hq. discriminate Hq.
      * intros _.
        exists (map (PinRead (Port o) (Pin o)) (next_samples (S n) w)).
        split; [reflexivity|]. split.
        -- apply forallb_is_sample_reads.
        -- unfold next_samples. rewrite !length_map, length_seq. reflexivity.
Qed.

(** The reset hold time (480 ticks at 1000 Hz) entered at tick 100 and
    polled five times at tick 300. *)
Lemma waiting_polls_are_quiet_witness :
  let o := driver_at ONEWIRE_STATE_RESET_DRIVE_BUS_LOW 0 100 0 in
  let w := steady_world 300 GPIO_PIN_SET in
  state o <> ONEWIRE_STATE_RESET_SAMPLE_BUS
  /\ (forall k, (k < 5)%nat ->
                deadline_pending 1000 o (after_tick_reads k w) = true)
  /\ fst (poll 1000 5 o w) = o
  /\ snd (poll 1000 5 o w) = after_tick_reads 5 w.
Proof.
  cbn zeta.
  assert (Hs : state (driver_at ONEWIRE_STATE_RESET_DRIVE_BUS_LOW 0 100 0)
               <> ONEWIRE_STATE_RESET_SAMPLE_BUS) by (cbn; discriminate).
  assert (Hp : forall k, (k < 5)%nat ->
               deadline_pending 1000
                 (driver_at ONEWIRE_STATE_RESET_DRIVE_BUS_LOW 0 100 0)
                 (after_tick_reads k (steady_world 300 GPIO_PIN_SET)) = true)
    by (intros k _; reflexivity).
  split; [exact Hs|]. split; [exact Hp|].
  destruct (waiting_polls_are_quiet 1000 5
              (driver_at ONEWIRE_STATE_RESET_DRIVE_BUS_LOW 0 100 0)
              (steady_world 300 GPIO_PIN_SET) Hs Hp) as [Ho [Hw _]].
  split; [exact Ho|]. apply Hw. reflexivity.
Defined.

(** ** Reading a bit *)

Lemma poll_snoc (rate : Z) (n : nat) :
  forall (o : OneWireDriver) (w : World),
    poll rate (S n) o w
    = onewire_process rate (fst (poll rate n o w)) (snd (poll rate n o w)).
Proof.
  induction n as [|n IH]; intros o w.
  - cbn. destruct (onewire_process rate o w); reflexivity.
  - cbn [poll]. destruct (onewire_process rate o w) as [o1 w1].
    rewrite <- IH. reflexivity.
Qed.

Lemma shiftl_1_testbit (i j : Z) :
  0 <= i -> 0 <= j -> Z.testbit (Z.shiftl 1 i) j = (i =? j).
Proof.
  intros Hi Hj. rewrite Z.shiftl_1_l. apply Z.pow2_bits_eqb. exact Hi.
Qed.

(** [store_read_bit] writes bit [bit_index] of [rx_byte] and keeps the other
    seven. *)
Lemma store_read_bit_spec (o : OneWireDriver) (b : GPIO_PinState) (j : Z) :
  0 <= bit_index o < 8 ->
  0 <= j < 8 ->
  Z.testbit (rx_byte (store_read_bit o (uint8_t (pin_value b)))) j
  = if j =? bit_index o then is_high b else Z.testbit (rx_byte o) j.
Proof.
  intros Hi Hj. unfold store_read_bit.
  destruct b; cbn [pin_value is_high];
    [change (uint8_t 0 =? 0) with true | change (uint8_t 1 =? 0) with false];
    cbn [negb rx_byte with_rx_byte];
    rewrite uint8_t_testbit by exact Hj.
  - rewrite Z.land_spec, Z.lnot_spec by lia.
    rewrite shiftl_1_testbit by lia. rewrite (Z.eqb_sym j).
    destruct (bit_index o =? j); cbn.
    + apply andb_false_r.
    + apply andb_true_r.
  - rewrite Z.lor_spec. rewrite shiftl_1_testbit by lia. rewrite (Z.eqb_sym j).
    destruct (bit_index o =? j); cbn.
    + apply orb_true_r.
    + apply orb_false_r.
Qed.

Lemma store_read_bit_fields (o : OneWireDriver) (v : Z) :
  state (store_read_bit o v) = state o
  /\ bit_index (store_read_bit o v) = bit_index o
  /\ Pin (store_read_bit o v) = Pin o /\ Port (store_read_bit o v) = Port o.
Proof. unfold store_read_bit. destruct (negb (v =? 0)); repeat split. Qed.

(** The poll that finds the read sample window closed: the scratch bit is
    stored and the instance moves on to [READ_DONE], without touching the
    line. *)
Lemma read_window_expiry_poll (rate : Z) (o : OneWireDriver) (w : World) :
  state o = ONEWIRE_STATE_READ_SAMPLE_BUS ->
  deadline_pending rate o w = false ->
  onewire_process rate o w
  = (with_timestamp
       (with_state (store_read_bit o (uint8_t (pin_value (sampled_bus_bit w))))
                   ONEWIRE_STATE_READ_DONE)
       (TickType_t (tick_source w (S (tick_reads w)))),
     after_tick_reads 2 w).
Proof.
  intros Hs Hp. unfold deadline_pending in Hp.
  rewrite Hs in Hp. cbn [phase_delay] in Hp. apply negb_false_iff in Hp.
  unfold onewire_process. rewrite Hs.
  unfold bind at 1. rewrite is_time_expired_spec in *. cbn [fst] in Hp.
  rewrite Hp. reflexivity.
Qed.

(** With two lines that reading fails.  The instance on the other line is
    polled first and samples its line low, which puts the shared scratch bit
    low.  The instance under test is then polled inside its window (sample
    high) and again after the window has closed: every sample of its window
    was high, and the bit stored is 0. *)
Lemma stale_scratch_bit_is_recorded :
  ~ read_window_records_samples 1000 1
      (driver_at ONEWIRE_STATE_READ_SAMPLE_BUS 0 0 0)
      (snd (onewire_process 1000 other_line two_line_world)).
Proof.
  intros H.
  assert (Hbit : Z.testbit
            (rx_byte (fst (poll 1000 2
               (driver_at ONEWIRE_STATE_READ_SAMPLE_BUS 0 0 0)
               (snd (onewire_process 1000 other_line two_line_world)))))
            (bit_index (driver_at ONEWIRE_STATE_READ_SAMPLE_BUS 0 0 0))
          = forallb is_high
              (next_samples 1
                 (snd (onewire_process 1000 other_line two_line_world)))).
  { apply H.
    - reflexivity.
    - cbn. lia.
    - intros k Hk. destruct k as [|k]; [reflexivity|lia].
    - reflexivity. }
  vm_compute in Hbit. discriminate Hbit.
Qed.

(** What the code does get right.  If the shared scratch bit holds its
    start value (high) when the read sample window opens, then after [n]
    polls inside the window and the poll that finds it closed, the bit of
    [rx_byte] at position [bit_index] is 1 when every sample of the window
    was high and 0 when one of them was low; the other bits of [rx_byte] and
    [bit_index] are kept, and the window only sampled the line. *)
Theorem read_bit_records_window :
  forall (rate : Z) (n : nat) (o : OneWireDriver) (w : World),
    state o = ONEWIRE_STATE_READ_SAMPLE_BUS ->
    0 <= bit_index o < 8 ->
    sampled_bus_bit w = GPIO_PIN_SET ->
    (forall k, (k < n)%nat ->
               deadline_pending rate o (after_tick_reads k w) = true) ->
    deadline_pending rate o (after_tick_reads n w) = false ->
    let samples := next_samples n w in
    let o' := fst (poll rate (S n) o w) in
    let w' := snd (poll rate (S n) o w) in
    state o' = ONEWIRE_STATE_READ_DONE
    /\ bit_index o' = bit_index o
    /\ Z.testbit (rx_byte o') (bit_index o) = forallb is_high samples
    /\ (forall j, 0 <= j < 8 -> j <> bit_index o ->
                  Z.testbit (rx_byte o') j = Z.testbit (rx_byte o) j)
    /\ bus_log w'
       = bus_log w ++ map (PinRead (Port o) (Pin o)) samples.
Proof.
  intros rate n o w Hs Hi Hscratch Hopen Hclosed. cbn zeta.
  rewrite poll_snoc, (read_window_polls rate n o w Hs Hopen). cbn [fst snd].
  rewrite read_window_expiry_poll; [|exact Hs|].
  - cbn [fst snd]. cbn [state bit_index rx_byte with_timestamp with_state].
    destruct (store_read_bit_fields o
      (uint8_t (pin_value (sampled_bus_bit (after_window_polls o n w)))))
      as [_ [Hbi _]].
    assert (Hsc : is_high (sampled_bus_bit (after_window_polls o n w))
                  = forallb is_high (next_samples n w)).
    { cbn. rewrite Hscratch.
      destruct (forallb is_high (next_samples n w)); reflexivity. }
    split; [reflexivity|]. split; [exact Hbi|]. split; [|split].
    + rewrite store_read_bit_spec by lia.
      rewrite Z.eqb_refl. exact Hsc.
    + intros j Hj Hne. rewrite store_read_bit_spec by lia.
      destruct (j =? bit_index o) eqn:E; [|reflexivity].
      apply Z.eqb_eq in E. contradiction.
    + reflexivity.
  - rewrite <- Hclosed. apply deadline_pending_same_clock; reflexivity.
Qed.

(** Three polls inside the window of bit 3 on a quiet line, then the poll
    that closes it. *)
Lemma read_bit_records_window_witness :
  let o := driver_at ONEWIRE_STATE_READ_SAMPLE_BUS 3 0 0 in
  let o' := fst (poll 1000 4 o quiet_window_world) in
  sampled_bus_bit quiet_window_world = GPIO_PIN_SET
  /\ state o' = ONEWIRE_STATE_READ_DONE
  /\ bit_index o' = 3
  /\ Z.testbit (rx_byte o') 3 = true.
Proof.
  cbn zeta. split; [reflexivity|].
  assert (Hopen : forall k, (k < 3)%nat ->
            deadline_pending 1000
              (driver_at ONEWIRE_STATE_READ_SAMPLE_BUS 3 0 0)
              (after_tick_reads k quiet_window_world) = true).
  { intros k Hk. destruct k as [|[|[|k]]]; [reflexivity..|lia]. }
  assert (Hi : 0 <= bit_index (driver_at ONEWIRE_STATE_READ_SAMPLE_BUS 3 0 0) < 8)
    by (cbn; lia).
  destruct (read_bit_records_window 1000 3
              (driver_at ONEWIRE_STATE_READ_SAMPLE_BUS 3 0 0)
              quiet_window_world eq_refl Hi
              eq_refl Hopen eq_refl) as [H1 [H2 [H3 _]]].
  split; [exact H1|]. split; [exact H2|]. exact H3.
Defined.

Lemma scratch_rests_after_poll (rate : Z) (o : OneWireDriver) (w : World) :
  scratch_rests o w ->
  scratch_rests (fst (onewire_process rate o w))
                (snd (onewire_process rate o w)).
Proof.
  unfold scratch_rests. intros H.
  unfold onewire_process.
  destruct (state o) eqn:Hs;
    try (destruct H as [H|[H|H]]; try discriminate H);
    unfold_driver; cbn;
    repeat match goal with
      | |- context [if ?c then _ else _] => destruct c; cbn
      | |- context [match pin_source ?a ?b with _ => _ end] =>
          destruct (pin_source a b); cbn
      end;
    flag_fields; cbn; auto.
Qed.

(** C7 (the code departs from the claim).  The claim: a read window in which
    every sample is high records a 1 at [bit_index].  The sampled bit is kept
    in the file-scope variable [sampled_bus_bit], which all instances share
    and which only [READ_DONE] puts back to its start value; the reset
    sequence, next to it, keeps its presence sample in the instance.  Two
    runs in which every sample of the window under test is high and the bit
    stored is 0:
    - two lines: the instance on the other line samples its line low inside
      its own window; the instance under test, holding 0xFF, then takes one
      high sample and closes its window: [rx_byte] is 0xFE;
    - one line: a read is abandoned inside its window after a low sample,
      the instance is initialised again with [onewire_init] and a new read
      is started from [READ_INIT]; its window takes one high sample and
      stores 0, where the same run with the scratch bit at its start value
      stores 1. *)
Theorem high_window_records_stale_low_bit :
  (let w := snd (onewire_process 1000 other_line two_line_world) in
   let o' := fst (poll 1000 2 line_under_test w) in
   let w' := snd (poll 1000 2 line_under_test w) in
   sampled_bus_bit two_line_world = GPIO_PIN_SET
   /\ sampled_bus_bit w = GPIO_PIN_RESET
   /\ bus_log w' = bus_log w ++ [PinRead 1207959552 1 GPIO_PIN_SET]
   /\ state o' = ONEWIRE_STATE_READ_DONE
   /\ bit_index o' = 0
   /\ Z.testbit (rx_byte o') 0 = false
   /\ rx_byte o' = 254)
  /\ (let abandoned := driver_at ONEWIRE_STATE_READ_SAMPLE_BUS 0 0 0 in
      let o0 := fst (onewire_process 1000 abandoned restart_world) in
      let w0 := snd (onewire_process 1000 abandoned restart_world) in
      let o1 := with_state (fst (onewire_init o0 1207959552 1 w0))
                  ONEWIRE_STATE_READ_INIT in
      let w1 := snd (onewire_init o0 1207959552 1 w0) in
      let o' := fst (poll 1000 5 o1 w1) in
      let w' := snd (poll 1000 5 o1 w1) in
      state o0 = ONEWIRE_STATE_READ_SAMPLE_BUS
      /\ sampled_bus_bit w1 = GPIO_PIN_RESET
      /\ phase_log 1000 5 o1 w1
         = [ONEWIRE_STATE_READ_DRIVE_BUS_LOW; ONEWIRE_STATE_READ_RELEASE_BUS;
            ONEWIRE_STATE_READ_SAMPLE_BUS; ONEWIRE_STATE_READ_DONE]
      /\ bus_log w'
         = bus_log w1
             ++ [PinWrite 1207959552 1 GPIO_PIN_RESET;
                 PinWrite 1207959552 1 GPIO_PIN_SET;
                 PinRead 1207959552 1 GPIO_PIN_SET]
      /\ state o' = ONEWIRE_STATE_READ_DONE
      /\ bit_index o' = 0
      /\ rx_byte o' = 0
      /\ rx_byte (fst (poll 1000 5 o1 (with_scratch_high w1))) = 1).
Proof. vm_compute. repeat split. Qed.

Lemma byte_write_phases_slots (v : Z) :
  byte_write_phases v = write_slots v 0 8 ++ [ONEWIRE_STATE_IDLE].
Proof. reflexivity. Qed.

(** ** Writing a byte *)

Lemma write_init_poll (rate : Z) (high : bool) (o : OneWireDriver) (w : World) :
  state o = slot_state high AtInit ->
  onewire_process rate o w
  = (with_timestamp (with_state o (slot_state high AtDriveLow))
       (TickType_t (tick_source w (tick_reads w))),
     mkWorld (tick_source w) (S (tick_reads w)) (pin_source w) (pin_reads w)
       (bus_log w ++ [PinWrite (Port o) (Pin o) GPIO_PIN_RESET])
       (sampled_bus_bit w)).
Proof.
  intros Hs. unfold onewire_process. rewrite Hs.
  destruct high; reflexivity.
Qed.

Lemma write_drive_low_poll (rate : Z) (high : bool) (o : OneWireDriver) (w : World) :
  state o = slot_state high AtDriveLow ->
  deadline_pending rate o w = false ->
  onewire_process rate o w
  = (with_timestamp (with_state o (slot_state high AtRelease))
       (TickType_t (tick_source w (S (tick_reads w)))),
     mkWorld (tick_source w) (S (S (tick_reads w))) (pin_source w) (pin_reads w)
       (bus_log w ++ [PinWrite (Port o) (Pin o) GPIO_PIN_SET])
       (sampled_bus_bit w)).
Proof.
  intros Hs Hp. unfold deadline_pending in Hp. rewrite Hs in Hp.
  unfold onewire_process. rewrite Hs.
  destruct high; cbn [slot_state phase_delay] in *;
    apply negb_false_iff in Hp;
    unfold bind at 1; rewrite is_time_expired_spec in *; cbn [fst] in Hp;
    rewrite Hp; reflexivity.
Qed.

Lemma write_release_poll (rate : Z) (high : bool) (o : OneWireDriver) (w : World) :
  state o = slot_state high AtRelease ->
  deadline_pending rate o w = false ->
  onewire_process rate o w
  = (with_timestamp (with_state o (slot_state high AtDone))
       (TickType_t (tick_source w (S (tick_reads w)))),
     after_tick_reads 2 w).
Proof.
  intros Hs Hp. unfold deadline_pending in Hp. rewrite Hs in Hp.
  unfold onewire_process. rewrite Hs.
  destruct high; cbn [slot_state phase_delay] in *;
    apply negb_false_iff in Hp;
    unfold bind at 1; rewrite is_time_expired_spec in *; cbn [fst] in Hp;
    rewrite Hp; reflexivity.
Qed.

Lemma write_done_poll_next (rate : Z) (high : bool) (o : OneWireDriver) (w : World) :
  state o = slot_state high AtDone ->
  0 <= bit_index o < 7 ->
  onewire_process rate o w
  = (with_state
       (with_timestamp (with_bit_index o (bit_index o + 1))
          (TickType_t (tick_source w (tick_reads w))))
       (slot_state (Z.testbit (tx_byte o) (bit_index o + 1)) AtInit),
     after_tick_reads 1 w).
Proof.
  intros Hs Hi. unfold onewire_process. rewrite Hs.
  assert (Hrun : handle_write_bit_done_state o w
                 = (with_state
                      (with_timestamp (with_bit_index o (bit_index o + 1))
                         (TickType_t (tick_source w (tick_reads w))))
                      (slot_state (Z.testbit (tx_byte o) (bit_index o + 1)) AtInit),
                    after_tick_reads 1 w)).
  { unfold handle_write_bit_done_state.
    cbn [bit_index with_bit_index tx_byte].
    rewrite (uint8_t_small (bit_index o + 1)) by lia.
    replace (8 <=? bit_index o + 1) with false by (symmetry; apply Z.leb_gt; lia).
    unfold set_write_init_state, bind, xTaskGetTickCount.
    rewrite bit_extract by lia.
    destruct (Z.testbit (tx_byte o) (bit_index o + 1)); reflexivity. }
  destruct high; exact Hrun.
Qed.

Lemma write_done_poll_last (rate : Z) (high : bool) (o : OneWireDriver) (w : World) :
  state o = slot_state high AtDone ->
  bit_index o = 7 ->
  onewire_process rate o w
  = (set_flag
       (with_rx_byte
          (with_bit_index
             (with_timestamp
                (with_state (with_bit_index o 8) ONEWIRE_STATE_IDLE)
                (TickType_t (tick_source w (tick_reads w))))
             0)
          0)
       FLAG_BYTE_SEND,
     after_tick_reads 1 w).
Proof.
  intros Hs Hi. unfold onewire_process. rewrite Hs.
  assert (Hrun : handle_write_bit_done_state o w
                 = (set_flag
                      (with_rx_byte
                         (with_bit_index
                            (with_timestamp
                               (with_state (with_bit_index o 8) ONEWIRE_STATE_IDLE)
                               (TickType_t (tick_source w (tick_reads w))))
                            0)
                         0)
                      FLAG_BYTE_SEND,
                    after_tick_reads 1 w)).
  { unfold handle_write_bit_done_state. rewrite Hi. reflexivity. }
  destruct high; exact Hrun.
Qed.

(** A poll of an instance in [IDLE] ends in [ERROR], and so does every
    longer run. *)
Lemma idle_then_error (rate : Z) (n : nat) (o : OneWireDriver) (w : World) :
  state o = ONEWIRE_STATE_IDLE ->
  state (fst (poll rate (S n) o w)) = ONEWIRE_STATE_ERROR.
Proof.
  intros Hs. cbn [poll].
  destruct (onewire_process rate o w) as [o' w'] eqn:Hp.
  apply error_is_absorbing.
  unfold onewire_process in Hp. rewrite Hs in Hp.
  unfold_driver_in Hp. cbn in Hp. inversion Hp; subst.
  flag_fields. reflexivity.
Qed.

Lemma slot_state_not_idle (high : bool) (p : SlotPhase) :
  slot_state high p <> ONEWIRE_STATE_IDLE.
Proof. destruct high, p; discriminate. Qed.

Lemma slot_state_waits (high : bool) (p : SlotPhase) :
  p = AtDriveLow \/ p = AtRelease ->
  waits_without_sampling (slot_state high p) = true.
Proof. intros [->| ->]; destruct high; reflexivity. Qed.

Lemma state_eqb_refl (s : OneWireState) : state_eqb s s = true.
Proof. unfold state_eqb. destruct (OneWireState_eq_dec s s); congruence. Qed.

Lemma slot_state_step (high : bool) (p q : SlotPhase) :
  p <> q -> state_eqb (slot_state high p) (slot_state high q) = false.
Proof. intros H. destruct high, p, q; try reflexivity; congruence. Qed.

Lemma slot_state_next (high high' : bool) :
  state_eqb (slot_state high AtDone) (slot_state high' AtInit) = false.
Proof. destruct high, high'; reflexivity. Qed.

(** From phase [p] of the slot of bit [i], with [m] more bits to follow, a
    run of polls that ends in [IDLE] has entered exactly the remaining
    phases of this slot, the slots of the [m] following bits and [IDLE],
    and has driven and released the line once per slot. *)
Lemma write_run_safe (rate v : Z) (n : nat) :
  forall (o : OneWireDriver) (w : World) (i : Z) (m : nat) (p : SlotPhase),
    0 <= i ->
    i + Z.of_nat m = 7 ->
    in_slot v i p o ->
    state (fst (poll rate n o w)) = ONEWIRE_STATE_IDLE ->
    phase_log rate n o w
    = phases_left (Z.testbit v i) p ++ write_slots v (i + 1) m
        ++ [ONEWIRE_STATE_IDLE]
    /\ bus_log (snd (poll rate n o w))
       = bus_log w ++ actions_left (Port o) (Pin o) p
           ++ concat (repeat (slot_actions (Port o) (Pin o)) m).
Proof.
  induction n as [|n IH]; intros o w i m p Hi Him [Hs [Htx Hbi]] Hfin.
  - cbn in Hfin. rewrite Hs in Hfin.
    exfalso. exact (slot_state_not_idle _ _ Hfin).
  - cbn [poll phase_log] in *.
    destruct p.
    + (* INIT: the line is driven low *)
      rewrite (write_init_poll rate _ o w Hs) in *.
      match type of Hfin with
      | state (fst (poll _ _ ?o1 ?w1)) = _ =>
          destruct (IH o1 w1 i m AtDriveLow Hi Him) as [Hlog Hbus];
          [ repeat split; assumption | exact Hfin | ]
      end.
      rewrite Hlog, Hbus. cbn [state with_timestamp with_state].
      rewrite Hs, slot_state_step by discriminate.
      cbn. rewrite <- app_assoc. split; reflexivity.
    + (* DRIVE_BUS_LOW: wait, or release the line *)
      destruct (deadline_pending rate o w) eqn:Hp.
      * rewrite (waiting_poll rate o w) in *;
          [| rewrite Hs; apply slot_state_waits; auto | exact Hp
           | rewrite Hs; apply slot_state_waits; auto | exact Hp ].
        rewrite state_eqb_refl.
        destruct (IH o (after_tick_reads 1 w) i m AtDriveLow Hi Him) as [Hlog Hbus];
          [repeat split; assumption | exact Hfin | ].
        split; [exact Hlog | exact Hbus].
      * rewrite (write_drive_low_poll rate _ o w Hs Hp) in *.
        match type of Hfin with
        | state (fst (poll _ _ ?o1 ?w1)) = _ =>
            destruct (IH o1 w1 i m AtRelease Hi Him) as [Hlog Hbus];
            [ repeat split; assumption | exact Hfin | ]
        end.
        rewrite Hlog, Hbus. cbn [state with_timestamp with_state].
        rewrite Hs, slot_state_step by discriminate.
        cbn. rewrite <- app_assoc. split; reflexivity.
    + (* RELEASE_BUS: wait, or finish the slot *)
      destruct (deadline_pending rate o w) eqn:Hp.
      * rewrite (waiting_poll rate o w) in *;
          [| rewrite Hs; apply slot_state_waits; auto | exact Hp
           | rewrite Hs; apply slot_state_waits; auto | exact Hp ].
        rewrite state_eqb_refl.
        destruct (IH o (after_tick_reads 1 w) i m AtRelease Hi Him) as [Hlog Hbus];
          [repeat split; assumption | exact Hfin | ].
        split; [exact Hlog | exact Hbus].
      * rewrite (write_release_poll rate _ o w Hs Hp) in *.
        match type of Hfin with
        | state (fst (poll _ _ ?o1 ?w1)) = _ =>
            destruct (IH o1 w1 i m AtDone Hi Him) as [Hlog Hbus];
            [ repeat split; assumption | exact Hfin | ]
        end.
        rewrite Hlog, Hbus. cbn [state with_timestamp with_state].
        rewrite Hs, slot_state_step by discriminate.
        cbn. split; reflexivity.
    + (* DONE: next bit, or the byte is complete *)
      destruct m as [|m].
      * assert (Hlast : bit_index o = 7) by (cbn in Him; lia).
        rewrite (write_done_poll_last rate _ o w Hs Hlast) in *.
        destruct n as [|n].
        -- cbn. flag_fields. cbn.
           rewrite Hs. rewrite !app_nil_r.
           replace (state_eqb (slot_state (Z.testbit v i) AtDone)
                      ONEWIRE_STATE_IDLE) with false
             by (destruct (Z.testbit v i); reflexivity).
           split; reflexivity.
        -- rewrite idle_then_error in Hfin; [discriminate Hfin|].
           flag_fields. reflexivity.
      * assert (Hnext : 0 <= bit_index o < 7) by lia.
        rewrite (write_done_poll_next rate _ o w Hs Hnext) in *.
        rewrite Htx, Hbi in *.
        rewrite uint8_t_testbit in * by lia.
        match type of Hfin with
        | state (fst (poll _ _ ?o1 ?w1)) = _ =>
            destruct (IH o1 w1 (i + 1) m AtInit) as [Hlog Hbus];
            [ lia | lia | repeat split; assumption | exact Hfin | ]
        end.
        rewrite Hlog, Hbus. cbn [state with_timestamp with_state].
        rewrite Hs, slot_state_next.
        cbn. split; reflexivity.
Qed.

Lemma slot_delay_is_write_delay (high : bool) (p : SlotPhase) :
  p = AtDriveLow \/ p = AtRelease ->
  exists d, phase_delay (slot_state high p) = Some d /\ In d write_delays.
Proof.
  intros [->| ->]; destruct high; cbn;
    eexists; (split; [reflexivity|]); cbn; auto.
Qed.

Lemma punctual_deadline_elapsed
  (rate : Z) (high : bool) (p : SlotPhase) (o : OneWireDriver) (w : World)
  (lo hi : nat) :
  state o = slot_state high p ->
  p = AtDriveLow \/ p = AtRelease ->
  stamped o w ->
  punctual rate (tick_source w) lo hi ->
  (lo < tick_reads w <= hi)%nat ->
  deadline_pending rate o w = false.
Proof.
  intros Hs Hp [j [Hr Ht]] Hpunct Hrange.
  destruct (slot_delay_is_write_delay high p Hp) as [d [Hd Hin]].
  unfold deadline_pending. rewrite Hs, Hd.
  rewrite is_time_expired_spec. cbn [fst].
  rewrite Ht, Hr. apply negb_false_iff, Z.leb_le.
  apply Hpunct; [lia|exact Hin].
Qed.

Lemma write_run_completes (rate v : Z) (lo hi : nat) (m : nat) :
  forall (p : SlotPhase) (o : OneWireDriver) (w : World) (i : Z),
    0 <= i ->
    i + Z.of_nat m = 7 ->
    in_slot v i p o ->
    stamped o w ->
    punctual rate (tick_source w) lo hi ->
    (lo < tick_reads w)%nat ->
    (tick_reads w + reads_left p m <= hi + 3)%nat ->
    state (fst (poll rate (polls_left p m) o w)) = ONEWIRE_STATE_IDLE.
Proof.
  induction m as [|m IH].
  - (* the last slot *)
    assert (Hdone : forall o w i,
      0 <= i -> i + Z.of_nat 0 = 7 -> in_slot v i AtDone o ->
      state (fst (poll rate (polls_left AtDone 0) o w)) = ONEWIRE_STATE_IDLE).
    { intros o w i Hi Him [Hs [Htx Hbi]]. cbn [polls_left Nat.mul Nat.add poll].
      rewrite (write_done_poll_last rate _ o w Hs) by (cbn in Him; lia).
      cbn [fst]. flag_fields. reflexivity. }
    assert (Hrel : forall o w i,
      0 <= i -> i + Z.of_nat 0 = 7 -> in_slot v i AtRelease o ->
      stamped o w -> punctual rate (tick_source w) lo hi ->
      (lo < tick_reads w)%nat ->
      (tick_reads w + reads_left AtRelease 0 <= hi + 3)%nat ->
      state (fst (poll rate (polls_left AtRelease 0) o w)) = ONEWIRE_STATE_IDLE).
    { intros o w i Hi Him [Hs [Htx Hbi]] Hst Hpu Hlo Hhi.
      change (polls_left AtRelease 0) with (S (polls_left AtDone 0)).
      cbn [poll].
      rewrite (write_release_poll rate _ o w Hs)
        by (eapply punctual_deadline_elapsed; eauto; cbn in Hhi; lia).
      apply (Hdone _ _ i Hi Him). repeat split; assumption. }
    assert (Hdrv : forall o w i,
      0 <= i -> i + Z.of_nat 0 = 7 -> in_slot v i AtDriveLow o ->
      stamped o w -> punctual rate (tick_source w) lo hi ->
      (lo < tick_reads w)%nat ->
      (tick_reads w + reads_left AtDriveLow 0 <= hi + 3)%nat ->
      state (fst (poll rate (polls_left AtDriveLow 0) o w)) = ONEWIRE_STATE_IDLE).
    { intros o w i Hi Him [Hs [Htx Hbi]] Hst Hpu Hlo Hhi.
      change (polls_left AtDriveLow 0) with (S (polls_left AtRelease 0)).
      cbn [poll].
      rewrite (write_drive_low_poll rate _ o w Hs)
        by (eapply punctual_deadline_elapsed; eauto; cbn in Hhi; lia).
      apply (Hrel _ _ i Hi Him).
      - repeat split; assumption.
      - exists (S (tick_reads w)). split; reflexivity.
      - exact Hpu.
      - cbn. lia.
      - cbn in *. lia. }
    intros p o w i Hi Him Hin Hst Hpu Hlo Hhi. destruct p.
    + destruct Hin as [Hs [Htx Hbi]].
      change (polls_left AtInit 0) with (S (polls_left AtDriveLow 0)).
      cbn [poll]. rewrite (write_init_poll rate _ o w Hs).
      apply (Hdrv _ _ i Hi Him).
      * repeat split; assumption.
      * exists (tick_reads w). split; reflexivity.
      * exact Hpu.
      * cbn. lia.
      * cbn in *. lia.
    + apply (Hdrv _ _ i); assumption.
    + apply (Hrel _ _ i); assumption.
    + apply (Hdone _ _ i); assumption.
  - (* a slot with more to follow *)
    assert (Hdone : forall o w i,
      0 <= i -> i + Z.of_nat (S m) = 7 -> in_slot v i AtDone o ->
      punctual rate (tick_source w) lo hi ->
      (lo < tick_reads w)%nat ->
      (tick_reads w + reads_left AtDone (S m) <= hi + 3)%nat ->
      state (fst (poll rate (polls_left AtDone (S m)) o w))
      = ONEWIRE_STATE_IDLE).
    { intros o w i Hi Him [Hs [Htx Hbi]] Hpu Hlo Hhi.
      change (polls_left AtDone (S m)) with (S (polls_left AtInit m)).
      cbn [poll].
      rewrite (write_done_poll_next rate _ o w Hs) by lia.
      apply (IH AtInit _ _ (i + 1)).
      - lia.
      - lia.
      - rewrite Htx, Hbi. rewrite uint8_t_testbit by lia.
        split; [reflexivity|]. split; [exact Htx | reflexivity].
      - exists (tick_reads w). split; reflexivity.
      - exact Hpu.
      - cbn. lia.
      - cbn in *. lia. }
    assert (Hrel : forall o w i,
      0 <= i -> i + Z.of_nat (S m) = 7 -> in_slot v i AtRelease o ->
      stamped o w -> punctual rate (tick_source w) lo hi ->
      (lo < tick_reads w)%nat ->
      (tick_reads w + reads_left AtRelease (S m) <= hi + 3)%nat ->
      state (fst (poll rate (polls_left AtRelease (S m)) o w))
      = ONEWIRE_STATE_IDLE).
    { intros o w i Hi Him [Hs [Htx Hbi]] Hst Hpu Hlo Hhi.
      change (polls_left AtRelease (S m)) with (S (polls_left AtDone (S m))).
      cbn [poll].
      rewrite (write_release_poll rate _ o w Hs)
        by (eapply punctual_deadline_elapsed; eauto; cbn in Hhi; lia).
      apply (Hdone _ _ i Hi Him).
      - repeat split; assumption.
      - exact Hpu.
      - cbn. lia.
      - cbn in *. lia. }
    assert (Hdrv : forall o w i,
      0 <= i -> i + Z.of_nat (S m) = 7 -> in_slot v i AtDriveLow o ->
      stamped o w -> punctual rate (tick_source w) lo hi ->
      (lo < tick_reads w)%nat ->
      (tick_reads w + reads_left AtDriveLow (S m) <= hi + 3)%nat ->
      state (fst (poll rate (polls_left AtDriveLow (S m)) o w))
      = ONEWIRE_STATE_IDLE).
    { intros o w i Hi Him [Hs [Htx Hbi]] Hst Hpu Hlo Hhi.
      change (polls_left AtDriveLow (S m))
        with (S (polls_left AtRelease (S m))).
      cbn [poll].
      rewrite (write_drive_low_poll rate _ o w Hs)
        by (eapply punctual_deadline_elapsed; eauto; cbn in Hhi; lia).
      apply (Hrel _ _ i Hi Him).
      - repeat split; assumption.
      - exists (S (tick_reads w)). split; reflexivity.
      - exact Hpu.
      - cbn. lia.
      - cbn in *. lia. }
    intros p o w i Hi Him Hin Hst Hpu Hlo Hhi. destruct p.
    + destruct Hin as [Hs [Htx Hbi]].
      change (polls_left AtInit (S m)) with (S (polls_left AtDriveLow (S m))).
      cbn [poll]. rewrite (write_init_poll rate _ o w Hs).
      apply (Hdrv _ _ i Hi Him).
      * repeat split; assumption.
      * exists (tick_reads w). split; reflexivity.
      * exact Hpu.
      * cbn. lia.
      * cbn in *. lia.
    + apply (Hdrv _ _ i); assumption.
    + apply (Hrel _ _ i); assumption.
    + apply (Hdone _ _ i); assumption.
Qed.

(** [onewire_write_byte] puts the instance at the start of the slot of
    bit 0. *)
Lemma onewire_write_byte_spec (o : OneWireDriver) (v : Z) (w : World) :
  onewire_write_byte o v w
  = (with_state
       (with_timestamp (with_bit_index (with_tx_byte o (uint8_t v)) 0)
          (TickType_t (tick_source w (tick_reads w))))
       (slot_state (Z.testbit v 0) AtInit),
     after_tick_reads 1 w).
Proof.
  unfold onewire_write_byte, set_write_init_state, bind, xTaskGetTickCount.
  rewrite land_1_testbit, uint8_t_b2z, uint8_t_testbit by lia.
  destruct (Z.testbit v 0); reflexivity.
Qed.

(** C5.  For every 8-bit value [v]: after [onewire_write_byte], every run of
    polls that brings the engine back to [IDLE], whatever the clock, has
    gone through exactly eight write slots, the slot of bit [i] of [v] in
    position [i] (bit 0 first), in the write-high family when the bit is set
    and in the write-low family when it is clear, and has driven the line
    low and released it once per slot.  And the write does complete: when
    the application polls no faster than the write phases last, 32 polls
    bring the engine back to [IDLE]. *)
Theorem write_byte_sends_eight_slots_lsb_first :
  forall (rate v : Z) (o : OneWireDriver) (w : World),
    0 <= v < 256 ->
    let o0 := fst (onewire_write_byte o v w) in
    let w0 := snd (onewire_write_byte o v w) in
    (forall n,
        state (fst (poll rate n o0 w0)) = ONEWIRE_STATE_IDLE ->
        state o0 :: phase_log rate n o0 w0 = byte_write_phases v
        /\ bus_log (snd (poll rate n o0 w0))
           = bus_log w ++ byte_write_actions (Port o) (Pin o))
    /\ (punctual rate (tick_source w) (tick_reads w) (tick_reads w + 46) ->
        state (fst (poll rate 32 o0 w0)) = ONEWIRE_STATE_IDLE).
Proof.
  intros rate v o w Hv. cbn zeta.
  rewrite onewire_write_byte_spec. cbn [fst snd].
  match goal with
  | |- context [poll rate _ ?o0 ?w0] =>
      assert (Hslot : in_slot v 0 AtInit o0) by (repeat split)
  end.
  split.
  - intros n Hfin.
    destruct (write_run_safe rate v n _ _ 0 7%nat AtInit
                (Z.le_refl 0) eq_refl Hslot Hfin) as [Hlog Hbus].
    rewrite Hlog, Hbus. split; reflexivity.
  - intros Hpunct.
    apply (write_run_completes rate v (tick_reads w) (tick_reads w + 46)
             7%nat AtInit _ _ 0 (Z.le_refl 0) eq_refl Hslot).
    + exists (tick_reads w). split; reflexivity.
    + exact Hpunct.
    + cbn. lia.
    + cbn. lia.
Qed.

Lemma punctualb_sound (rate : Z) (ticks : nat -> Z) (lo hi : nat) :
  punctualb rate ticks lo hi = true -> punctual rate ticks lo hi.
Proof.
  intros H j d Hj Hin. unfold punctualb in H.
  rewrite forallb_forall in H.
  assert (Hseq : In j (seq lo (hi - lo))) by (apply in_seq; lia).
  apply H in Hseq. rewrite forallb_forall in Hseq.
  apply Z.leb_le. apply Hseq. exact Hin.
Qed.

(** The byte 0xA5 written under a clock that advances 100 ticks per read. *)
Lemma write_byte_sends_eight_slots_lsb_first_witness :
  let o := driver_at ONEWIRE_STATE_IDLE 0 0 0 in
  let w := scripted_world slow_clock (fun _ => GPIO_PIN_SET) in
  let o0 := fst (onewire_write_byte o 165 w) in
  let w0 := snd (onewire_write_byte o 165 w) in
  0 <= 165 < 256
  /\ punctual 1000 (tick_source w) (tick_reads w) (tick_reads w + 46)
  /\ state (fst (poll 1000 32 o0 w0)) = ONEWIRE_STATE_IDLE
  /\ state o0 :: phase_log 1000 32 o0 w0 = byte_write_phases 165
  /\ bus_log (snd (poll 1000 32 o0 w0))
     = byte_write_actions 1207959552 1.
Proof.
  cbn zeta.
  assert (Hv : 0 <= 165 < 256) by lia.
  assert (Hp : punctual 1000
                 (tick_source (scripted_world slow_clock (fun _ => GPIO_PIN_SET)))
                 (tick_reads (scripted_world slow_clock (fun _ => GPIO_PIN_SET)))
                 (tick_reads (scripted_world slow_clock (fun _ => GPIO_PIN_SET))
                  + 46))
    by (apply punctualb_sound; vm_compute; reflexivity).
  destruct (write_byte_sends_eight_slots_lsb_first 1000 165
              (driver_at ONEWIRE_STATE_IDLE 0 0 0)
              (scripted_world slow_clock (fun _ => GPIO_PIN_SET)) Hv)
    as [Hsafe Hlive].
  pose proof (Hlive Hp) as Hidle.
  destruct (Hsafe 32%nat Hidle) as [Hlog Hbus].
  split; [exact Hv|]. split; [exact Hp|]. split; [exact Hidle|].
  split; [exact Hlog|exact Hbus].
Defined.

(** ** The flag register *)

Lemma uint8_t_bits (a n : Z) :
  0 <= n -> Z.testbit (uint8_t a) n = (n <? 8) && Z.testbit a n.
Proof.
  intros Hn. unfold uint8_t. change 256 with (2 ^ 8).
  apply Z.testbit_mod_pow2. lia.
Qed.

Lemma uint8_t_bounds (a : Z) : 0 <= uint8_t a < 256.
Proof. unfold uint8_t. apply Z.mod_pos_bound. lia. Qed.

Lemma byte_bits_above (a n : Z) :
  0 <= a < 256 -> 8 <= n -> Z.testbit a n = false.
Proof.
  intros Ha Hn. rewrite <- (uint8_t_small a Ha), uint8_t_bits by lia.
  replace (n <? 8) with false by (symmetry; apply Z.ltb_ge; lia).
  reflexivity.
Qed.

Lemma reset_flag_reg (o : OneWireDriver) (f : OneWireFlags) :
  flag_reg (reset_flag o f)
  = uint8_t (Z.land (flag_reg o) (Z.lnot (Z.shiftl 1 (flag_bit f)))).
Proof. destruct f; reflexivity. Qed.

Lemma reset_flag_fields (o : OneWireDriver) (f : OneWireFlags) :
  state (reset_flag o f) = state o /\ bit_index (reset_flag o f) = bit_index o
  /\ rx_byte (reset_flag o f) = rx_byte o /\ tx_byte (reset_flag o f) = tx_byte o
  /\ timestamp (reset_flag o f) = timestamp o
  /\ Pin (reset_flag o f) = Pin o /\ Port (reset_flag o f) = Port o.
Proof. destruct f; cbn; repeat split. Qed.

Lemma flag_bits_differ (f g : OneWireFlags) :
  f <> g -> (flag_bit f =? flag_bit g) = false.
Proof. intros H. destruct f, g; try reflexivity; congruence. Qed.

Lemma get_flag_reset_flag (o : OneWireDriver) (f : OneWireFlags) :
  get_flag (reset_flag o f) f = 0.
Proof.
  rewrite get_flag_spec, reset_flag_reg.
  pose proof (flag_bit_range f) as Hf.
  rewrite uint8_t_testbit by exact Hf.
  rewrite Z.land_spec, Z.lnot_spec, shiftl_1_testbit by lia.
  rewrite Z.eqb_refl. cbn. rewrite andb_false_r. reflexivity.
Qed.

Lemma get_flag_reset_flag_other (o : OneWireDriver) (f g : OneWireFlags) :
  f <> g -> get_flag (reset_flag o f) g = get_flag o g.
Proof.
  intros Hfg. rewrite !get_flag_spec, reset_flag_reg.
  pose proof (flag_bit_range f) as Hf. pose proof (flag_bit_range g) as Hg.
  rewrite uint8_t_testbit by exact Hg.
  rewrite Z.land_spec, Z.lnot_spec, shiftl_1_testbit by lia.
  rewrite (flag_bits_differ f g Hfg). cbn. rewrite andb_true_r. reflexivity.
Qed.

(** X1.  Reading a flag gives 0 or 1; after [set_flag] the flag reads 1 and
    after [reset_flag] it reads 0, whatever the register held. *)
Theorem flag_set_reset_read_back :
  forall (o : OneWireDriver) (f : OneWireFlags),
    (get_flag o f = 0 \/ get_flag o f = 1)
    /\ get_flag (set_flag o f) f = 1
    /\ get_flag (reset_flag o f) f = 0.
Proof.
  intros o f. split; [|split].
  - rewrite get_flag_spec.
    destruct (Z.testbit (flag_reg o) (flag_bit f)); cbn; auto.
  - apply get_flag_set_flag.
  - apply get_flag_reset_flag.
Qed.

(** X2.  [set_flag] and [reset_flag] touch one flag only: every other flag
    reads as before, and so does every other field of the instance. *)
Theorem flag_updates_touch_one_flag :
  forall (o : OneWireDriver) (f g : OneWireFlags),
    f <> g ->
    get_flag (set_flag o f) g = get_flag o g
    /\ get_flag (reset_flag o f) g = get_flag o g
    /\ with_flag_reg (set_flag o f) (flag_reg o) = o
    /\ with_flag_reg (reset_flag o f) (flag_reg o) = o.
Proof.
  intros o f g Hfg. split; [|split; [|split]].
  - apply get_flag_set_flag_other. exact Hfg.
  - apply get_flag_reset_flag_other. exact Hfg.
  - destruct o, f; reflexivity.
  - destruct o, f; reflexivity.
Qed.

(** Setting the presence flag of a register that holds the error flag. *)
Lemma flag_updates_touch_one_flag_witness :
  let o := driver_at ONEWIRE_STATE_IDLE 0 0 1 in
  FLAG_PRESENCE_DETECTED <> FLAG_ERROR
  /\ get_flag (set_flag o FLAG_PRESENCE_DETECTED) FLAG_ERROR = 1
  /\ get_flag (reset_flag o FLAG_PRESENCE_DETECTED) FLAG_ERROR = 1.
Proof.
  cbn zeta.
  assert (Hne : FLAG_PRESENCE_DETECTED <> FLAG_ERROR) by discriminate.
  destruct (flag_updates_touch_one_flag (driver_at ONEWIRE_STATE_IDLE 0 0 1)
              FLAG_PRESENCE_DETECTED FLAG_ERROR Hne) as [Hs [Hr _]].
  split; [exact Hne|]. split; [exact Hs | exact Hr].
Defined.

(** X3.  On a register that holds a byte, [reset_flag] undoes [set_flag] of
    a flag that was clear, [set_flag] undoes [reset_flag] of a flag that was
    set, and setting a flag twice is setting it once. *)
Theorem flag_set_and_reset_are_inverse :
  forall (o : OneWireDriver) (f : OneWireFlags),
    0 <= flag_reg o < 256 ->
    (get_flag o f = 0 -> reset_flag (set_flag o f) f = o)
    /\ (get_flag o f = 1 -> set_flag (reset_flag o f) f = o)
    /\ set_flag (set_flag o f) f = set_flag o f.
Proof.
  intros o f Hr.
  pose proof (flag_bit_range f) as Hf.
  assert (Hreg : forall a b : Z, 0 <= b < 256 ->
            (forall n, 0 <= n < 8 -> Z.testbit (uint8_t a) n = Z.testbit b n) ->
            uint8_t a = b).
  { intros a b Hb H. apply Z.bits_inj'. intros n Hn.
    destruct (Z.lt_ge_cases n 8) as [Hlt|Hge].
    - apply H. lia.
    - rewrite (byte_bits_above b n Hb Hge).
      apply byte_bits_above; [apply uint8_t_bounds|exact Hge]. }
  assert (Hrec : forall v, flag_reg o = v ->
            mkOneWireDriver (Pin o) (Port o) (state o) (tx_byte o) (rx_byte o)
              (bit_index o) (timestamp o) v = o)
    by (intros v <-; destruct o; reflexivity).
  split; [|split].
  - intros Hclear. rewrite get_flag_spec in Hclear.
    destruct (Z.testbit (flag_reg o) (flag_bit f)) eqn:Hb; [discriminate|].
    transitivity (with_flag_reg o (flag_reg (reset_flag (set_flag o f) f))).
    { destruct o, f; reflexivity. }
    unfold with_flag_reg. apply Hrec. symmetry.
    rewrite reset_flag_reg, set_flag_reg. apply Hreg; [exact Hr|].
    intros n Hn. rewrite uint8_t_testbit by exact Hn.
    rewrite Z.land_spec, Z.lnot_spec, shiftl_1_testbit by lia.
    rewrite uint8_t_testbit by exact Hn.
    rewrite Z.lor_spec, shiftl_1_testbit by lia.
    destruct (flag_bit f =? n) eqn:E; cbn.
    + apply Z.eqb_eq in E. subst n. rewrite Hb, andb_false_r. reflexivity.
    + rewrite orb_false_r, andb_true_r. reflexivity.
  - intros Hset. rewrite get_flag_spec in Hset.
    destruct (Z.testbit (flag_reg o) (flag_bit f)) eqn:Hb; [|discriminate].
    transitivity (with_flag_reg o (flag_reg (set_flag (reset_flag o f) f))).
    { destruct o, f; reflexivity. }
    unfold with_flag_reg. apply Hrec. symmetry.
    rewrite set_flag_reg, reset_flag_reg. apply Hreg; [exact Hr|].
    intros n Hn. rewrite uint8_t_testbit by exact Hn.
    rewrite Z.lor_spec, shiftl_1_testbit by lia.
    rewrite uint8_t_testbit by exact Hn.
    rewrite Z.land_spec, Z.lnot_spec, shiftl_1_testbit by lia.
    destruct (flag_bit f =? n) eqn:E; cbn.
    + apply Z.eqb_eq in E. subst n. rewrite Hb. apply orb_true_r.
    + rewrite orb_false_r, andb_true_r. reflexivity.
  - transitivity (with_flag_reg (set_flag o f)
                    (flag_reg (set_flag (set_flag o f) f))).
    { destruct o, f; reflexivity. }
    transitivity (with_flag_reg (set_flag o f) (flag_reg (set_flag o f))).
    2: { destruct o, f; reflexivity. }
    f_equal.
    rewrite (set_flag_reg (set_flag o f)), set_flag_reg.
    apply Hreg; [apply uint8_t_bounds|].
    intros n Hn. rewrite !uint8_t_testbit by exact Hn.
    rewrite !Z.lor_spec, uint8_t_testbit by exact Hn.
    rewrite Z.lor_spec.
    destruct (Z.testbit (flag_reg o) n),
      (Z.testbit (Z.shiftl 1 (flag_bit f)) n); reflexivity.
Qed.

(** The byte-sent flag on a register that holds the error flag. *)
Lemma flag_set_and_reset_are_inverse_witness :
  let o := driver_at ONEWIRE_STATE_IDLE 0 0 1 in
  0 <= flag_reg o < 256
  /\ get_flag o FLAG_BYTE_SEND = 0
  /\ reset_flag (set_flag o FLAG_BYTE_SEND) FLAG_BYTE_SEND = o.
Proof.
  cbn zeta.
  assert (Hr : 0 <= flag_reg (driver_at ONEWIRE_STATE_IDLE 0 0 1) < 256)
    by (cbn; lia).
  destruct (flag_set_and_reset_are_inverse (driver_at ONEWIRE_STATE_IDLE 0 0 1)
              FLAG_BYTE_SEND Hr) as [Hinv _].
  split; [exact Hr|]. split; [reflexivity|]. apply Hinv. reflexivity.
Defined.

(** ** One poll, whatever the state *)

Ltac split_process :=
  unfold_driver; cbn;
  repeat match goal with
    | |- context [if ?c then _ else _] => destruct c eqn:?; cbn
    | |- context [match pin_source ?a ?b with _ => _ end] =>
        destruct (pin_source a b) eqn:?; cbn
    end.

Lemma state_eqb_eq (a b : OneWireState) : state_eqb a b = true -> a = b.
Proof.
  unfold state_eqb. destruct (OneWireState_eq_dec a b); [auto|discriminate].
Qed.

Lemma store_read_bit_keeps (o : OneWireDriver) (v : Z) :
  tx_byte (store_read_bit o v) = tx_byte o
  /\ timestamp (store_read_bit o v) = timestamp o
  /\ flag_reg (store_read_bit o v) = flag_reg o.
Proof. unfold store_read_bit. destruct (negb (v =? 0)); repeat split. Qed.

(** The next state is one the diagram allows. *)
Lemma process_successor (rate : Z) (o : OneWireDriver) (w : World) :
  In (state (fst (onewire_process rate o w))) (successors (state o)).
Proof.
  destruct o as [pin port s tx rx bi ts fr]. cbn [state].
  destruct s; split_process; flag_fields; cbn; auto 6.
Qed.

(** What a poll leaves alone and what it may add to the log. *)
Lemma process_frame (rate : Z) (o : OneWireDriver) (w : World) :
  let o' := fst (onewire_process rate o w) in
  let w' := snd (onewire_process rate o w) in
  Pin o' = Pin o /\ Port o' = Port o /\ tx_byte o' = tx_byte o
  /\ tick_source w' = tick_source w /\ pin_source w' = pin_source w
  /\ (tick_reads w <= tick_reads w' <= tick_reads w + 2)%nat
  /\ (pin_reads w <= pin_reads w' <= pin_reads w + 1)%nat
  /\ exists l,
       bus_log w' = bus_log w ++ l
       /\ forallb (on_line (Port o) (Pin o)) l = true
       /\ (length l <= 2)%nat.
Proof.
  cbn zeta. destruct o as [pin port s tx rx bi ts fr]. cbn [Pin Port tx_byte].
  destruct s; split_process;
    repeat match goal with
      | |- context [Pin (set_flag ?o ?f)] =>
          replace (Pin (set_flag o f)) with (Pin o)
            by (symmetry; apply set_flag_fields)
      | |- context [Port (set_flag ?o ?f)] =>
          replace (Port (set_flag o f)) with (Port o)
            by (symmetry; apply set_flag_fields)
      | |- context [Pin (reset_flag ?o ?f)] =>
          replace (Pin (reset_flag o f)) with (Pin o)
            by (symmetry; apply reset_flag_fields)
      | |- context [Port (reset_flag ?o ?f)] =>
          replace (Port (reset_flag o f)) with (Port o)
            by (symmetry; apply reset_flag_fields)
      | |- context [tx_byte (reset_flag ?o ?f)] =>
          replace (tx_byte (reset_flag o f)) with (tx_byte o)
            by (symmetry; apply reset_flag_fields)
      | |- context [tx_byte (store_read_bit ?o ?v)] =>
          replace (tx_byte (store_read_bit o v)) with (tx_byte o)
            by (symmetry; apply store_read_bit_keeps)
      | |- context [Pin (store_read_bit ?o ?v)] =>
          replace (Pin (store_read_bit o v)) with (Pin o)
            by (symmetry; apply store_read_bit_fields)
      | |- context [Port (store_read_bit ?o ?v)] =>
          replace (Port (store_read_bit o v)) with (Port o)
            by (symmetry; apply store_read_bit_fields)
      end;
    flag_fields; cbn;
    repeat (split; [first [reflexivity | lia]|]);
    first
      [ exists []; rewrite app_nil_r; cbn; repeat split; lia
      | eexists; split;
        [ first [reflexivity | rewrite <- app_assoc; reflexivity] |];
        cbn; rewrite !Z.eqb_refl; cbn; split; [reflexivity|lia] ].
Qed.

Lemma get_flag_same_reg (a b : OneWireDriver) (f : OneWireFlags) :
  flag_reg a = flag_reg b -> get_flag a f = get_flag b f.
Proof. intros H. rewrite !get_flag_spec, H. reflexivity. Qed.

(** What a poll does to the flag register: nothing, or it sets one of the
    four master flags, or it clears the presence flag. *)
Lemma process_flag_reg (rate : Z) (o : OneWireDriver) (w : World) :
  let o' := fst (onewire_process rate o w) in
  flag_reg o' = flag_reg o
  \/ (exists f, f <> FLAG_IS_SLAVE /\ flag_reg o' = flag_reg (set_flag o f))
  \/ flag_reg o' = flag_reg (reset_flag o FLAG_PRESENCE_DETECTED).
Proof.
  cbn zeta. destruct o as [pin port s tx rx bi ts fr].
  destruct s; split_process;
    rewrite ?set_flag_reg, ?reset_flag_reg; cbn [flag_reg];
    repeat match goal with
      | |- context [flag_reg (store_read_bit ?o ?v)] =>
          replace (flag_reg (store_read_bit o v)) with (flag_reg o)
            by (symmetry; apply store_read_bit_keeps)
      end;
    rewrite ?set_flag_reg, ?reset_flag_reg; cbn [flag_reg];
    first
      [ left; reflexivity
      | right; right; reflexivity
      | right; left; exists FLAG_ERROR; split; [discriminate|reflexivity]
      | right; left; exists FLAG_PRESENCE_DETECTED;
        split; [discriminate|reflexivity]
      | right; left; exists FLAG_BYTE_RECEIVED;
        split; [discriminate|reflexivity]
      | right; left; exists FLAG_BYTE_SEND;
        split; [discriminate|reflexivity] ].
Qed.

Lemma flag_dec (f g : OneWireFlags) : {f = g} + {f <> g}.
Proof. decide equality. Qed.

Lemma process_keeps_latched_flag
  (rate : Z) (o : OneWireDriver) (w : World) (f : OneWireFlags) :
  f <> FLAG_PRESENCE_DETECTED ->
  get_flag o f = 1 ->
  get_flag (fst (onewire_process rate o w)) f = 1.
Proof.
  intros Hf H1.
  destruct (process_flag_reg rate o w) as [H|[[g [_ H]]|H]].
  - rewrite (get_flag_same_reg _ o f H). exact H1.
  - rewrite (get_flag_same_reg _ (set_flag o g) f H).
    destruct (flag_dec g f) as [->|Hne].
    + apply get_flag_set_flag.
    + rewrite get_flag_set_flag_other by exact Hne. exact H1.
  - rewrite (get_flag_same_reg _ (reset_flag o FLAG_PRESENCE_DETECTED) f H).
    rewrite get_flag_reset_flag_other by congruence. exact H1.
Qed.

Lemma process_keeps_slave_flag (rate : Z) (o : OneWireDriver) (w : World) :
  get_flag (fst (onewire_process rate o w)) FLAG_IS_SLAVE
  = get_flag o FLAG_IS_SLAVE.
Proof.
  destruct (process_flag_reg rate o w) as [H|[[g [Hg H]]|H]].
  - apply get_flag_same_reg. exact H.
  - rewrite (get_flag_same_reg _ (set_flag o g) _ H).
    apply get_flag_set_flag_other. exact Hg.
  - rewrite (get_flag_same_reg _ (reset_flag o FLAG_PRESENCE_DETECTED) _ H).
    apply get_flag_reset_flag_other. discriminate.
Qed.

(** ** The state diagram *)

(** X4.  One call of [onewire_process] takes an instance from its state to
    one of the successors the switch gives that state, and to no other;
    every such edge is taken by some instance in some world (at 1000 Hz).
    In particular the slave states and the states without a case lead to
    [ERROR] only, no state leads back into the reset family from outside
    it, and [RESET_SAMPLE_BUS] never repeats. *)
Theorem state_diagram_is_exact :
  (forall (rate : Z) (o : OneWireDriver) (w : World),
      In (state (fst (onewire_process rate o w))) (successors (state o)))
  /\ (forall s s',
        In s' (successors s) ->
        exists o w,
          state o = s /\ state (fst (onewire_process 1000 o w)) = s').
Proof.
  split.
  - apply process_successor.
  - intros s s' Hin.
    assert (Hedge : edge_taken s s' = true).
    { destruct s; cbn in Hin;
        repeat (destruct Hin as [<-|Hin]; [vm_compute; reflexivity|]);
        contradiction. }
    unfold edge_taken in Hedge.
    apply existsb_exists in Hedge. destruct Hedge as [o [Ho Hw]].
    apply existsb_exists in Hw. destruct Hw as [w [_ Hw]].
    exists o, w. split.
    + cbn in Ho. destruct Ho as [<-|[<-|[<-|[]]]]; reflexivity.
    + apply state_eqb_eq. exact Hw.
Qed.

(** ** What polls leave alone *)

(** X5.  Polls never change the line an instance is bound to nor its
    [tx_byte]; every line operation they log is on the instance's own line,
    at most two per poll; and a poll reads the tick counter at most twice
    and the line at most once. *)
Theorem polls_keep_binding_and_line :
  forall (rate : Z) (n : nat) (o : OneWireDriver) (w : World),
    let o' := fst (poll rate n o w) in
    let w' := snd (poll rate n o w) in
    Pin o' = Pin o /\ Port o' = Port o /\ tx_byte o' = tx_byte o
    /\ (tick_reads w <= tick_reads w' <= tick_reads w + 2 * n)%nat
    /\ (pin_reads w <= pin_reads w' <= pin_reads w + n)%nat
    /\ exists l,
         bus_log w' = bus_log w ++ l
         /\ forallb (on_line (Port o) (Pin o)) l = true
         /\ (length l <= 2 * n)%nat.
Proof.
  intros rate n. induction n as [|n IH]; intros o w; cbn zeta.
  - cbn. repeat (split; [first [reflexivity|lia]|]).
    exists []. rewrite app_nil_r. repeat split. cbn. lia.
  - cbn [poll].
    pose proof (process_frame rate o w) as Hf. cbn zeta in Hf.
    destruct (onewire_process rate o w) as [o1 w1]. cbn [fst snd] in Hf.
    destruct Hf as [Hpin [Hport [Htx [_ [_ [Ht [Hp [l1 [Hl1 [Hon1 Hlen1]]]]]]]]]].
    specialize (IH o1 w1). cbn zeta in IH.
    destruct IH as [Hpin' [Hport' [Htx' [Ht' [Hp' [l2 [Hl2 [Hon2 Hlen2]]]]]]]].
    split; [congruence|]. split; [congruence|]. split; [congruence|].
    split; [lia|]. split; [lia|].
    exists (l1 ++ l2). split; [|split].
    + rewrite Hl2, Hl1, app_assoc. reflexivity.
    + rewrite forallb_app, Hon1. rewrite Hpin, Hport in Hon2.
      rewrite Hon2. reflexivity.
    + rewrite length_app. lia.
Qed.

Lemma poll_keeps_latched_flag (rate : Z) (n : nat) :
  forall (o : OneWireDriver) (w : World) (f : OneWireFlags),
    f <> FLAG_PRESENCE_DETECTED -> get_flag o f = 1 ->
    get_flag (fst (poll rate n o w)) f = 1.
Proof.
  induction n as [|n IH]; intros o w f Hf H1; cbn [poll]; [exact H1|].
  pose proof (process_keeps_latched_flag rate o w f Hf H1) as Hstep.
  destruct (onewire_process rate o w) as [o1 w1]. apply IH; assumption.
Qed.

Lemma poll_keeps_slave_flag (rate : Z) (n : nat) :
  forall (o : OneWireDriver) (w : World),
    get_flag (fst (poll rate n o w)) FLAG_IS_SLAVE = get_flag o FLAG_IS_SLAVE.
Proof.
  induction n as [|n IH]; intros o w; cbn [poll]; [reflexivity|].
  pose proof (process_keeps_slave_flag rate o w) as Hstep.
  destruct (onewire_process rate o w) as [o1 w1].
  rewrite IH. exact Hstep.
Qed.

(** X6.  The flags are latched: no number of polls, and no call of
    [onewire_write_byte] followed by polls, clears the error, byte-received,
    byte-sent or slave flag once it is set (only the presence flag is ever
    cleared); and polls never change the slave flag at all. *)
Theorem polls_never_clear_latched_flags :
  forall (rate : Z) (n : nat) (o : OneWireDriver) (w : World)
         (v : Z) (f : OneWireFlags),
    f <> FLAG_PRESENCE_DETECTED ->
    get_flag o f = 1 ->
    get_flag (fst (poll rate n o w)) f = 1
    /\ get_flag (fst (poll rate n (fst (onewire_write_byte o v w))
                        (snd (onewire_write_byte o v w)))) f = 1
    /\ get_flag (fst (poll rate n o w)) FLAG_IS_SLAVE
       = get_flag o FLAG_IS_SLAVE.
Proof.
  intros rate n o w v f Hf H1. split; [|split].
  - apply poll_keeps_latched_flag; assumption.
  - apply poll_keeps_latched_flag; [exact Hf|].
    rewrite onewire_write_byte_spec. cbn [fst].
    rewrite <- H1. apply get_flag_same_reg. reflexivity.
  - apply poll_keeps_slave_flag.
Qed.

(** A second byte written after the first has been sent: the byte-sent flag
    of the first still reads 1 in the middle of the second. *)
Lemma polls_never_clear_latched_flags_witness :
  let o := driver_at ONEWIRE_STATE_IDLE 0 0 8 in
  let w := scripted_world slow_clock (fun _ => GPIO_PIN_SET) in
  FLAG_BYTE_SEND <> FLAG_PRESENCE_DETECTED
  /\ get_flag o FLAG_BYTE_SEND = 1
  /\ get_flag (fst (poll 1000 9 (fst (onewire_write_byte o 90 w))
                      (snd (onewire_write_byte o 90 w)))) FLAG_BYTE_SEND = 1.
Proof.
  cbn zeta.
  assert (Hne : FLAG_BYTE_SEND <> FLAG_PRESENCE_DETECTED) by discriminate.
  destruct (polls_never_clear_latched_flags 1000 9
              (driver_at ONEWIRE_STATE_IDLE 0 0 8)
              (scripted_world slow_clock (fun _ => GPIO_PIN_SET))
              90 FLAG_BYTE_SEND Hne eq_refl) as [_ [H _]].
  split; [exact Hne|]. split; [reflexivity|exact H].
Defined.

(** ** States without a case *)

Lemma caseless_poll (rate : Z) (o : OneWireDriver) (w : World) :
  has_case (state o) = false ->
  onewire_process rate o w
  = (set_flag
       (with_timestamp (with_state o ONEWIRE_STATE_ERROR)
          (TickType_t (tick_source w (tick_reads w))))
       FLAG_ERROR,
     after_tick_reads 1 w).
Proof.
  intros H. unfold onewire_process.
  destruct (state o); try discriminate H; reflexivity.
Qed.

Lemma caseless_polls (rate : Z) (n : nat) :
  forall (o : OneWireDriver) (w : World),
    has_case (state o) = false ->
    let o' := fst (poll rate n o w) in
    let w' := snd (poll rate n o w) in
    has_case (state o') = false
    /\ (forall g, g <> FLAG_ERROR -> get_flag o' g = get_flag o g)
    /\ rx_byte o' = rx_byte o /\ tx_byte o' = tx_byte o
    /\ bit_index o' = bit_index o
    /\ w' = after_tick_reads n w.
Proof.
  induction n as [|n IH]; intros o w Hc; cbn zeta.
  - cbn. repeat split; try assumption. destruct w; reflexivity.
  - cbn [poll]. rewrite (caseless_poll rate o w Hc).
    match goal with
    | |- context [poll rate n ?o1 ?w1] =>
        assert (Hc1 : has_case (state o1) = false)
          by (flag_fields; reflexivity);
        destruct (IH o1 w1 Hc1) as [H1 [H2 [H3 [H4 [H5 H6]]]]]
    end.
    split; [exact H1|]. split; [|split; [|split; [|split]]].
    + intros g Hg. rewrite (H2 g Hg).
      rewrite get_flag_set_flag_other by congruence.
      apply get_flag_same_reg. reflexivity.
    + rewrite H3. flag_fields. reflexivity.
    + rewrite H4. flag_fields. reflexivity.
    + rewrite H5. flag_fields. reflexivity.
    + rewrite H6. unfold after_tick_reads. cbn.
      rewrite Nat.add_succ_r. reflexivity.
Qed.

(** X7.  From [IDLE], [ERROR], [RESET_DONE] and the five slave states the
    first poll leads to [ERROR] with the error flag set, and no later poll
    leads anywhere else: the engine stays in [ERROR], never touches the
    line or the scratch bit, and keeps its buffers, [bit_index] and all
    other flags; each poll only reads the tick counter once. *)
Theorem caseless_states_end_in_silent_error :
  forall (rate : Z) (n : nat) (o : OneWireDriver) (w : World),
    has_case (state o) = false ->
    let o' := fst (poll rate (S n) o w) in
    let w' := snd (poll rate (S n) o w) in
    state o' = ONEWIRE_STATE_ERROR
    /\ get_flag o' FLAG_ERROR = 1
    /\ (forall g, g <> FLAG_ERROR -> get_flag o' g = get_flag o g)
    /\ rx_byte o' = rx_byte o /\ tx_byte o' = tx_byte o
    /\ bit_index o' = bit_index o
    /\ w' = after_tick_reads (S n) w.
Proof.
  intros rate n o w Hc. cbn zeta.
  destruct (caseless_polls rate (S n) o w Hc) as [_ [H2 [H3 [H4 [H5 H6]]]]].
  split; [|split; [|repeat split; assumption]].
  - rewrite poll_snoc.
    destruct (caseless_polls rate n o w Hc) as [Hn _].
    rewrite (caseless_poll rate _ _ Hn). cbn [fst].
    flag_fields. reflexivity.
  - rewrite poll_snoc.
    destruct (caseless_polls rate n o w Hc) as [Hn _].
    rewrite (caseless_poll rate _ _ Hn). cbn [fst].
    apply get_flag_set_flag.
Qed.

(** An instance parked in a slave state, with the byte-received flag set,
    polled three times. *)
Lemma caseless_states_end_in_silent_error_witness :
  let o := driver_at ONEWIRE_STATE_SLAVE_READ_MONITOR_BUS 0 0 4 in
  let w := steady_world 7 GPIO_PIN_RESET in
  has_case (state o) = false
  /\ state (fst (poll 1000 3 o w)) = ONEWIRE_STATE_ERROR
  /\ get_flag (fst (poll 1000 3 o w)) FLAG_ERROR = 1
  /\ bus_log (snd (poll 1000 3 o w)) = [].
Proof.
  cbn zeta.
  destruct (caseless_states_end_in_silent_error 1000 2
              (driver_at ONEWIRE_STATE_SLAVE_READ_MONITOR_BUS 0 0 4)
              (steady_world 7 GPIO_PIN_RESET) eq_refl)
    as [Hs [Hf [_ [_ [_ [_ Hw]]]]]].
  split; [reflexivity|]. split; [exact Hs|]. split; [exact Hf|].
  rewrite Hw. reflexivity.
Defined.

(** ** Time stamps and deadlines *)

Ltac through_updates :=
  repeat match goal with
    | |- context [state (set_flag ?o ?f)] =>
        replace (state (set_flag o f)) with (state o)
          by (symmetry; apply set_flag_fields)
    | |- context [timestamp (set_flag ?o ?f)] =>
        replace (timestamp (set_flag o f)) with (timestamp o)
          by (symmetry; apply set_flag_fields)
    | |- context [bit_index (set_flag ?o ?f)] =>
        replace (bit_index (set_flag o f)) with (bit_index o)
          by (symmetry; apply set_flag_fields)
    | |- context [rx_byte (set_flag ?o ?f)] =>
        replace (rx_byte (set_flag o f)) with (rx_byte o)
          by (symmetry; apply set_flag_fields)
    | |- context [tx_byte (set_flag ?o ?f)] =>
        replace (tx_byte (set_flag o f)) with (tx_byte o)
          by (symmetry; apply set_flag_fields)
    | |- context [state (reset_flag ?o ?f)] =>
        replace (state (reset_flag o f)) with (state o)
          by (symmetry; apply reset_flag_fields)
    | |- context [timestamp (reset_flag ?o ?f)] =>
        replace (timestamp (reset_flag o f)) with (timestamp o)
          by (symmetry; apply reset_flag_fields)
    | |- context [bit_index (reset_flag ?o ?f)] =>
        replace (bit_index (reset_flag o f)) with (bit_index o)
          by (symmetry; apply reset_flag_fields)
    | |- context [rx_byte (reset_flag ?o ?f)] =>
        replace (rx_byte (reset_flag o f)) with (rx_byte o)
          by (symmetry; apply reset_flag_fields)
    | |- context [tx_byte (reset_flag ?o ?f)] =>
        replace (tx_byte (reset_flag o f)) with (tx_byte o)
          by (symmetry; apply reset_flag_fields)
    | |- context [Pin (set_flag ?o ?f)] =>
        replace (Pin (set_flag o f)) with (Pin o)
          by (symmetry; apply set_flag_fields)
    | |- context [Port (set_flag ?o ?f)] =>
        replace (Port (set_flag o f)) with (Port o)
          by (symmetry; apply set_flag_fields)
    | |- context [Pin (reset_flag ?o ?f)] =>
        replace (Pin (reset_flag o f)) with (Pin o)
          by (symmetry; apply reset_flag_fields)
    | |- context [Port (reset_flag ?o ?f)] =>
        replace (Port (reset_flag o f)) with (Port o)
          by (symmetry; apply reset_flag_fields)
    | |- context [Pin (store_read_bit ?o ?v)] =>
        replace (Pin (store_read_bit o v)) with (Pin o)
          by (symmetry; apply store_read_bit_fields)
    | |- context [Port (store_read_bit ?o ?v)] =>
        replace (Port (store_read_bit o v)) with (Port o)
          by (symmetry; apply store_read_bit_fields)
    | |- context [state (store_read_bit ?o ?v)] =>
        replace (state (store_read_bit o v)) with (state o)
          by (symmetry; apply store_read_bit_fields)
    | |- context [bit_index (store_read_bit ?o ?v)] =>
        replace (bit_index (store_read_bit o v)) with (bit_index o)
          by (symmetry; apply store_read_bit_fields)
    | |- context [tx_byte (store_read_bit ?o ?v)] =>
        replace (tx_byte (store_read_bit o v)) with (tx_byte o)
          by (symmetry; apply store_read_bit_keeps)
    | |- context [timestamp (store_read_bit ?o ?v)] =>
        replace (timestamp (store_read_bit o v)) with (timestamp o)
          by (symmetry; apply store_read_bit_keeps)
    | |- context [flag_reg (store_read_bit ?o ?v)] =>
        replace (flag_reg (store_read_bit o v)) with (flag_reg o)
          by (symmetry; apply store_read_bit_keeps)
    end.

(** X8.  Every change of state stamps the instance: when a poll leaves the
    instance in another state than it found it in, [timestamp] is the
    reading of the tick counter taken last in that poll, so the deadline of
    the phase entered is counted from the moment of entry. *)
Theorem every_transition_stamps_the_instance :
  forall (rate : Z) (o : OneWireDriver) (w : World),
    state (fst (onewire_process rate o w)) <> state o ->
    stamped (fst (onewire_process rate o w)) (snd (onewire_process rate o w)).
Proof.
  intros rate o w. unfold stamped.
  destruct o as [pin port s tx rx bi ts fr]. cbn [state].
  destruct s; split_process; through_updates; cbn;
    intros Hne;
    first [ exfalso; apply Hne; reflexivity
          | eexists; split; reflexivity ].
Qed.

(** The release of the line at the end of a write-0 low time. *)
Lemma every_transition_stamps_the_instance_witness :
  let o := driver_at ONEWIRE_STATE_WRITE_LOW_DRIVE_BUS_LOW 2 100 0 in
  let w := scripted_world slow_clock (fun _ => GPIO_PIN_SET) in
  state (fst (onewire_process 1000 o
                (after_tick_reads 2 w))) <> state o
  /\ timestamp (fst (onewire_process 1000 o (after_tick_reads 2 w))) = 300.
Proof.
  cbn zeta.
  assert (Hne : state (fst (onewire_process 1000
                  (driver_at ONEWIRE_STATE_WRITE_LOW_DRIVE_BUS_LOW 2 100 0)
                  (after_tick_reads 2
                     (scripted_world slow_clock (fun _ => GPIO_PIN_SET)))))
                <> state (driver_at ONEWIRE_STATE_WRITE_LOW_DRIVE_BUS_LOW 2 100 0))
    by (vm_compute; discriminate).
  split; [exact Hne|].
  destruct (every_transition_stamps_the_instance 1000
              (driver_at ONEWIRE_STATE_WRITE_LOW_DRIVE_BUS_LOW 2 100 0)
              (after_tick_reads 2
                 (scripted_world slow_clock (fun _ => GPIO_PIN_SET))) Hne)
    as [j [Hj Ht]].
  rewrite Ht. vm_compute in Hj. injection Hj as <-. reflexivity.
Defined.

Lemma TickType_t_bounds (z : Z) : 0 <= TickType_t z < 4294967296.
Proof. unfold TickType_t, uint32_t. apply Z.mod_pos_bound. lia. Qed.

Lemma pdMS_TO_TICKS_bounds (rate x : Z) :
  0 <= pdMS_TO_TICKS rate x < 4294967296.
Proof. unfold pdMS_TO_TICKS. apply TickType_t_bounds. Qed.

(** X9.  The deadline [is_time_expired] checks, for an instance whose time
    stamp is a tick value.  With [D] the argument converted by
    [pdMS_TO_TICKS]: when [timestamp + D] fits the tick type the answer is
    true exactly from tick [timestamp + D] on; when the sum exceeds the
    tick type it is reduced, and the answer is true exactly from tick
    [timestamp + D - 2^32] on, a tick that lies before the time stamp. *)
Theorem is_time_expired_deadline :
  forall (rate : Z) (o : OneWireDriver) (d : Z) (w : World),
    0 <= timestamp o < 4294967296 ->
    let D := pdMS_TO_TICKS rate d in
    let now := fst (xTaskGetTickCount w) in
    (timestamp o + D < 4294967296 ->
       (fst (is_time_expired rate o d w) = true <-> timestamp o + D <= now))
    /\ (4294967296 <= timestamp o + D ->
       (fst (is_time_expired rate o d w) = true
        <-> timestamp o + D - 4294967296 <= now)
       /\ timestamp o + D - 4294967296 < timestamp o).
Proof.
  intros rate o d w Ht. cbn zeta.
  pose proof (pdMS_TO_TICKS_bounds rate d) as HD.
  rewrite is_time_expired_spec. cbn [fst].
  change (fst (xTaskGetTickCount w))
    with (TickType_t (tick_source w (tick_reads w))).
  split.
  - intros Hfit. unfold TickType_t at 1. unfold uint32_t.
    rewrite Z.mod_small by lia. apply Z.leb_le.
  - intros Hwrap. split; [|lia].
    unfold TickType_t at 1. unfold uint32_t.
    replace ((timestamp o + pdMS_TO_TICKS rate d) mod 4294967296)
      with (timestamp o + pdMS_TO_TICKS rate d - 4294967296).
    + apply Z.leb_le.
    + apply Z.mod_unique with (q := 1); lia.
Qed.

(** A phase entered five ticks before the counter wraps, with a delay of
    ten ticks: the deadline is tick 4, and tick 4294967295 is past it. *)
Lemma is_time_expired_deadline_witness :
  let o := driver_at ONEWIRE_STATE_WRITE_LOW_RELEASE_BUS 0 4294967291 0 in
  let w := steady_world 4294967295 GPIO_PIN_SET in
  0 <= timestamp o < 4294967296
  /\ 4294967296 <= timestamp o + pdMS_TO_TICKS 1000 10
  /\ fst (is_time_expired 1000 o 10 w) = true.
Proof.
  cbn zeta.
  assert (Ht : 0 <= timestamp
                 (driver_at ONEWIRE_STATE_WRITE_LOW_RELEASE_BUS 0 4294967291 0)
               < 4294967296) by (cbn; lia).
  assert (Hw : 4294967296
               <= timestamp
                    (driver_at ONEWIRE_STATE_WRITE_LOW_RELEASE_BUS 0 4294967291 0)
                  + pdMS_TO_TICKS 1000 10) by (vm_compute; discriminate).
  destruct (is_time_expired_deadline 1000
              (driver_at ONEWIRE_STATE_WRITE_LOW_RELEASE_BUS 0 4294967291 0)
              10 (steady_world 4294967295 GPIO_PIN_SET) Ht) as [_ Hwrap].
  destruct (Hwrap Hw) as [Hiff _].
  split; [exact Ht|]. split; [exact Hw|].
  apply Hiff. vm_compute. discriminate.
Defined.

(** ** Register ranges and the bit index *)

Lemma set_flag_reg_bounds (o : OneWireDriver) (f : OneWireFlags) :
  0 <= flag_reg (set_flag o f) < 256.
Proof. rewrite set_flag_reg. apply uint8_t_bounds. Qed.

Lemma reset_flag_reg_bounds (o : OneWireDriver) (f : OneWireFlags) :
  0 <= flag_reg (reset_flag o f) < 256.
Proof. rewrite reset_flag_reg. apply uint8_t_bounds. Qed.

Lemma store_read_bit_rx_bounds (o : OneWireDriver) (v : Z) :
  0 <= rx_byte (store_read_bit o v) < 256.
Proof.
  unfold store_read_bit. destruct (negb (v =? 0)); cbn; apply uint8_t_bounds.
Qed.

Lemma process_well_formed (rate : Z) (o : OneWireDriver) (w : World) :
  well_formed o -> well_formed (fst (onewire_process rate o w)).
Proof.
  unfold well_formed.
  destruct o as [pin port s tx rx bi ts fr]. cbn [tx_byte rx_byte bit_index
    timestamp flag_reg].
  intros [Htx [Hrx [Hbi [Hts Hfr]]]].
  destruct s; split_process; through_updates; cbn;
    repeat match goal with
      | H : (8 <=? _) = false |- _ => apply Z.leb_gt in H
      | |- context [flag_reg (set_flag ?o ?f)] =>
          pose proof (set_flag_reg_bounds o f);
          generalize dependent (flag_reg (set_flag o f)); intros
      | |- context [flag_reg (reset_flag ?o ?f)] =>
          pose proof (reset_flag_reg_bounds o f);
          generalize dependent (flag_reg (reset_flag o f)); intros
      | |- context [rx_byte (store_read_bit ?o ?v)] =>
          pose proof (store_read_bit_rx_bounds o v);
          generalize dependent (rx_byte (store_read_bit o v)); intros
      | |- context [TickType_t ?z] =>
          pose proof (TickType_t_bounds z);
          generalize dependent (TickType_t z); intros
      | |- context [uint8_t ?z] =>
          pose proof (uint8_t_bounds z);
          generalize dependent (uint8_t z); intros
      end;
    repeat split; lia.
Qed.

(** X10.  The registers keep to their C types and [bit_index] to the bit
    positions of a byte: an instance just initialised is well formed, and
    neither [onewire_write_byte] nor any number of polls takes a well-formed
    instance out of that set; in particular [bit_index] stays below 8. *)
Theorem well_formed_is_invariant :
  forall (rate : Z) (n : nat) (o : OneWireDriver) (w : World) (v : Z),
    well_formed o ->
    well_formed (fst (onewire_write_byte o v w))
    /\ well_formed (fst (poll rate n o w))
    /\ forall raw port pin, well_formed (fst (onewire_init raw port pin w)).
Proof.
  intros rate n o w v Hwf. split; [|split].
  - rewrite onewire_write_byte_spec. cbn [fst].
    destruct Hwf as [_ [Hrx [_ [_ Hfr]]]].
    unfold well_formed. cbn.
    pose proof (uint8_t_bounds v).
    pose proof (TickType_t_bounds (tick_source w (tick_reads w))).
    repeat split; lia.
  - revert o w Hwf. induction n as [|n IH]; intros o w Hwf; cbn [poll].
    + exact Hwf.
    + pose proof (process_well_formed rate o w Hwf) as Hstep.
      destruct (onewire_process rate o w) as [o1 w1]. apply IH. exact Hstep.
  - intros raw port pin. unfold well_formed. cbn. repeat split; lia.
Qed.

(** The last bit of a byte read, polled twice: [bit_index] goes from 7 back
    to 0, not to 8. *)
Lemma well_formed_is_invariant_witness :
  let o := driver_at ONEWIRE_STATE_READ_DONE 7 0 0 in
  let w := steady_world 0 GPIO_PIN_SET in
  well_formed o /\ well_formed (fst (poll 1000 2 o w)).
Proof.
  cbn zeta.
  assert (Hwf : well_formed (driver_at ONEWIRE_STATE_READ_DONE 7 0 0))
    by (unfold well_formed; cbn; lia).
  split; [exact Hwf|].
  destruct (well_formed_is_invariant 1000 2
              (driver_at ONEWIRE_STATE_READ_DONE 7 0 0)
              (steady_world 0 GPIO_PIN_SET) 0 Hwf) as [_ [Hpoll _]].
  exact Hpoll.
Defined.

(** X11.  [store_read_bit] writes one bit: for an index a shift can take,
    bit [bit_index] of [rx_byte] becomes 1 for any non-zero [value] and 0
    for [value] 0, and every other bit of the byte is kept; with an index
    of 8 or more no bit of the byte changes.  The result is a byte. *)
Theorem store_read_bit_writes_one_bit :
  forall (o : OneWireDriver) (value j : Z),
    0 <= bit_index o <= 30 ->
    0 <= j < 8 ->
    Z.testbit (rx_byte (store_read_bit o value)) j
    = (if j =? bit_index o then negb (value =? 0)
       else Z.testbit (rx_byte o) j)
    /\ 0 <= rx_byte (store_read_bit o value) < 256.
Proof.
  intros o value j Hi Hj. split; [|apply store_read_bit_rx_bounds].
  unfold store_read_bit.
  destruct (value =? 0); cbn [negb rx_byte with_rx_byte];
    rewrite uint8_t_testbit by exact Hj.
  - rewrite Z.land_spec, Z.lnot_spec by lia.
    rewrite shiftl_1_testbit by lia. rewrite (Z.eqb_sym j).
    destruct (bit_index o =? j); cbn.
    + apply andb_false_r.
    + apply andb_true_r.
  - rewrite Z.lor_spec. rewrite shiftl_1_testbit by lia. rewrite (Z.eqb_sym j).
    destruct (bit_index o =? j); cbn.
    + apply orb_true_r.
    + apply orb_false_r.
Qed.

(** Value 0x80 stored at index 2 of the byte 0xF0: bit 2 is set. *)
Lemma store_read_bit_writes_one_bit_witness :
  let o := mkOneWireDriver 1 1207959552 ONEWIRE_STATE_READ_SAMPLE_BUS
             0 240 2 0 0 in
  0 <= bit_index o <= 30
  /\ Z.testbit (rx_byte (store_read_bit o 128)) 2 = true
  /\ rx_byte (store_read_bit o 128) = 244.
Proof.
  cbn zeta.
  assert (Hi : 0 <= bit_index
                 (mkOneWireDriver 1 1207959552 ONEWIRE_STATE_READ_SAMPLE_BUS
                    0 240 2 0 0) <= 30) by (cbn; lia).
  assert (Hj : 0 <= 2 < 8) by lia.
  destruct (store_read_bit_writes_one_bit
              (mkOneWireDriver 1 1207959552 ONEWIRE_STATE_READ_SAMPLE_BUS
                 0 240 2 0 0) 128 2 Hi Hj) as [Hbit _].
  split; [exact Hi|]. split; [exact Hbit|reflexivity].
Defined.

(** ** The line *)

(** After a poll the line is held low exactly when the engine is in one of
    its drive-low states, provided that was so before the poll. *)
Lemma process_line (rate : Z) (o : OneWireDriver) (w : World) :
  driven_low (Port o) (Pin o) (bus_log w) = is_drive_low_state (state o) ->
  driven_low (Port o) (Pin o) (bus_log (snd (onewire_process rate o w)))
  = is_drive_low_state (state (fst (onewire_process rate o w))).
Proof.
  destruct o as [pin port s tx rx bi ts fr]. cbn [Pin Port state].
  unfold driven_low. intros H.
  destruct s; split_process; through_updates; cbn;
    rewrite ?fold_left_app; cbn; rewrite ?Z.eqb_refl; cbn;
    first [exact H | reflexivity].
Qed.

(** X12.  The line is held low exactly while the engine is in one of its
    four drive-low states: if that is so before a run of polls it is so
    after it.  In particular the engine never enters [IDLE], [ERROR] or a
    [DONE] state with the line held low. *)
Theorem line_is_low_exactly_in_drive_low_states :
  forall (rate : Z) (n : nat) (o : OneWireDriver) (w : World),
    driven_low (Port o) (Pin o) (bus_log w) = is_drive_low_state (state o) ->
    driven_low (Port o) (Pin o) (bus_log (snd (poll rate n o w)))
    = is_drive_low_state (state (fst (poll rate n o w))).
Proof.
  intros rate n. induction n as [|n IH]; intros o w H; cbn [poll].
  - exact H.
  - pose proof (process_line rate o w H) as Hstep.
    pose proof (process_frame rate o w) as Hf. cbn zeta in Hf.
    destruct (onewire_process rate o w) as [o1 w1]. cbn [fst snd] in *.
    destruct Hf as [Hpin [Hport _]].
    rewrite <- Hpin, <- Hport. apply IH.
    rewrite Hpin, Hport. exact Hstep.
Qed.

(** A byte written on a fresh line and polled nine times: the engine is in
    the drive-low phase of the third slot and the line is held low. *)
Lemma line_is_low_exactly_in_drive_low_states_witness :
  let o := fst (onewire_write_byte (driver_at ONEWIRE_STATE_IDLE 0 0 0) 165
                  (scripted_world slow_clock (fun _ => GPIO_PIN_SET))) in
  let w := snd (onewire_write_byte (driver_at ONEWIRE_STATE_IDLE 0 0 0) 165
                  (scripted_world slow_clock (fun _ => GPIO_PIN_SET))) in
  driven_low (Port o) (Pin o) (bus_log w) = is_drive_low_state (state o)
  /\ state (fst (poll 1000 9 o w)) = ONEWIRE_STATE_WRITE_HIGH_DRIVE_BUS_LOW
  /\ driven_low (Port o) (Pin o) (bus_log (snd (poll 1000 9 o w))) = true.
Proof.
  cbn zeta.
  pose proof (line_is_low_exactly_in_drive_low_states 1000 9
                (fst (onewire_write_byte (driver_at ONEWIRE_STATE_IDLE 0 0 0) 165
                        (scripted_world slow_clock (fun _ => GPIO_PIN_SET))))
                (snd (onewire_write_byte (driver_at ONEWIRE_STATE_IDLE 0 0 0) 165
                        (scripted_world slow_clock (fun _ => GPIO_PIN_SET))))
                eq_refl) as H.
  split; [reflexivity|]. split; [reflexivity|].
  rewrite H. reflexivity.
Defined.

(** ** Sampling *)

(** X13.  The line is sampled only inside an open sample window, once per
    poll: a poll reads the line exactly when the instance is in
    [RESET_SAMPLE_BUS] or [READ_SAMPLE_BUS] and the window's deadline is
    pending.  The shared scratch bit changes in two places only: a low
    sample in the open read window puts it low, and [READ_DONE] puts it
    back high; every other poll, of any instance, leaves it as it is. *)
Theorem line_is_sampled_only_in_open_windows :
  forall (rate : Z) (o : OneWireDriver) (w : World),
    let w' := snd (onewire_process rate o w) in
    pin_reads w'
    = (if is_sample_window (state o) && deadline_pending rate o w
       then S (pin_reads w) else pin_reads w)
    /\ sampled_bus_bit w'
       = (if state_eqb (state o) ONEWIRE_STATE_READ_DONE then GPIO_PIN_SET
          else if state_eqb (state o) ONEWIRE_STATE_READ_SAMPLE_BUS
                  && deadline_pending rate o w
                  && negb (is_high (pin_source w (pin_reads w)))
               then GPIO_PIN_RESET
               else sampled_bus_bit w).
Proof.
  intros rate o w. cbn zeta. unfold deadline_pending.
  destruct o as [pin port s tx rx bi ts fr]. cbn [state].
  destruct s; cbn [phase_delay is_sample_window andb];
    rewrite ?is_time_expired_spec; cbn [fst];
    split_process; split; reflexivity.
Qed.

(** ** The reset sequence *)

Lemma caseless_then_error (rate : Z) (n : nat) (o : OneWireDriver) (w : World) :
  has_case (state o) = false ->
  state (fst (poll rate (S n) o w)) = ONEWIRE_STATE_ERROR.
Proof.
  intros Hc. cbn [poll]. rewrite (caseless_poll rate o w Hc).
  apply error_is_absorbing. flag_fields. reflexivity.
Qed.

(** No poll leads into the reset family from outside it. *)
Lemma reset_family_is_not_entered (rate : Z) (n : nat) :
  forall (o : OneWireDriver) (w : World),
    in_reset_family (state o) = false ->
    in_reset_family (state (fst (poll rate n o w))) = false.
Proof.
  induction n as [|n IH]; intros o w H; cbn [poll]; [exact H|].
  pose proof (process_successor rate o w) as Hs.
  destruct (onewire_process rate o w) as [o1 w1]. cbn [fst] in Hs.
  apply IH.
  destruct (state o); try discriminate H; cbn in Hs;
    repeat (destruct Hs as [<-|Hs]; [reflexivity|]); contradiction.
Qed.

Lemma reset_init_poll (rate : Z) (o : OneWireDriver) (w : World) :
  state o = ONEWIRE_STATE_RESET_INIT ->
  deadline_pending rate o w = false ->
  onewire_process rate o w
  = (with_timestamp (with_state o ONEWIRE_STATE_RESET_DRIVE_BUS_LOW)
       (TickType_t (tick_source w (S (tick_reads w)))),
     mkWorld (tick_source w) (S (S (tick_reads w))) (pin_source w) (pin_reads w)
       (bus_log w ++ [PinWrite (Port o) (Pin o) GPIO_PIN_RESET])
       (sampled_bus_bit w)).
Proof.
  intros Hs Hp. unfold deadline_pending in Hp. rewrite Hs in Hp.
  cbn [phase_delay] in Hp. apply negb_false_iff in Hp.
  unfold onewire_process. rewrite Hs.
  unfold bind at 1. rewrite is_time_expired_spec in *. cbn [fst] in Hp.
  rewrite Hp. reflexivity.
Qed.

Lemma reset_drive_low_poll (rate : Z) (o : OneWireDriver) (w : World) :
  state o = ONEWIRE_STATE_RESET_DRIVE_BUS_LOW ->
  deadline_pending rate o w = false ->
  onewire_process rate o w
  = (with_timestamp (with_state o ONEWIRE_STATE_RESET_RELEASE_BUS)
       (TickType_t (tick_source w (S (tick_reads w)))),
     mkWorld (tick_source w) (S (S (tick_reads w))) (pin_source w) (pin_reads w)
       (bus_log w ++ [PinWrite (Port o) (Pin o) GPIO_PIN_SET])
       (sampled_bus_bit w)).
Proof.
  intros Hs Hp. unfold deadline_pending in Hp. rewrite Hs in Hp.
  cbn [phase_delay] in Hp. apply negb_false_iff in Hp.
  unfold onewire_process. rewrite Hs.
  unfold bind at 1. rewrite is_time_expired_spec in *. cbn [fst] in Hp.
  rewrite Hp. reflexivity.
Qed.

Lemma reset_release_poll (rate : Z) (o : OneWireDriver) (w : World) :
  state o = ONEWIRE_STATE_RESET_RELEASE_BUS ->
  deadline_pending rate o w = false ->
  onewire_process rate o w
  = (reset_flag
       (with_timestamp (with_state o ONEWIRE_STATE_RESET_SAMPLE_BUS)
          (TickType_t (tick_source w (S (tick_reads w)))))
       FLAG_PRESENCE_DETECTED,
     after_tick_reads 2 w).
Proof.
  intros Hs Hp. unfold deadline_pending in Hp. rewrite Hs in Hp.
  cbn [phase_delay] in Hp. apply negb_false_iff in Hp.
  unfold onewire_process. rewrite Hs.
  unfold bind at 1. rewrite is_time_expired_spec in *. cbn [fst] in Hp.
  rewrite Hp. reflexivity.
Qed.

Lemma reset_sample_closing_poll (rate : Z) (o : OneWireDriver) (w : World) :
  state o = ONEWIRE_STATE_RESET_SAMPLE_BUS ->
  deadline_pending rate o w = false ->
  get_flag o FLAG_PRESENCE_DETECTED = 0 ->
  onewire_process rate o w
  = (with_timestamp (with_state o ONEWIRE_STATE_RESET_DONE)
       (TickType_t (tick_source w (S (tick_reads w)))),
     after_tick_reads 2 w).
Proof.
  intros Hs Hp Hflag. unfold deadline_pending in Hp. rewrite Hs in Hp.
  cbn [phase_delay] in Hp. apply negb_false_iff in Hp.
  unfold onewire_process. rewrite Hs.
  unfold bind at 1. rewrite is_time_expired_spec in *. cbn [fst] in Hp.
  rewrite Hp. cbn [negb]. unfold_driver. cbn.
  match goal with
  | |- context [get_flag ?x FLAG_PRESENCE_DETECTED =? 0] =>
      replace (get_flag x FLAG_PRESENCE_DETECTED)
        with (get_flag o FLAG_PRESENCE_DETECTED)
        by (apply get_flag_same_reg; reflexivity)
  end.
  rewrite Hflag. reflexivity.
Qed.

(** What a reset that reaches [RESET_DONE] has done, from phase [p] on. *)
Lemma reset_run_safe (rate : Z) (n : nat) :
  forall (o : OneWireDriver) (w : World) (p : ResetPhase),
    state o = reset_state p ->
    (p = ResetSample -> get_flag o FLAG_PRESENCE_DETECTED = 0) ->
    state (fst (poll rate n o w)) = ONEWIRE_STATE_RESET_DONE ->
    phase_log rate n o w = reset_phases_left p
    /\ bus_log (snd (poll rate n o w))
       = bus_log w ++ reset_actions_left (Port o) (Pin o) p
    /\ pin_reads (snd (poll rate n o w)) = pin_reads w
    /\ get_flag (fst (poll rate n o w)) FLAG_PRESENCE_DETECTED = 0
    /\ (forall g, g <> FLAG_PRESENCE_DETECTED ->
                  get_flag (fst (poll rate n o w)) g = get_flag o g).
Proof.
  induction n as [|n IH]; intros o w p Hs Hpres Hfin.
  - cbn in Hfin. rewrite Hs in Hfin. destruct p; discriminate Hfin.
  - cbn [poll phase_log] in *.
    destruct (deadline_pending rate o w) eqn:Hp.
    + (* the deadline of the phase is pending *)
      destruct p.
      1-3: rewrite (waiting_poll rate o w) in *;
        [| rewrite Hs; reflexivity | exact Hp
         | rewrite Hs; reflexivity | exact Hp ];
        rewrite state_eqb_refl;
        match goal with
        | |- context [phase_log _ _ _ ?w1] =>
            destruct (IH o w1 _ Hs Hpres Hfin) as [H1 [H2 [H3 [H4 H5]]]]
        end;
        repeat split; assumption.
      (* an open sample window: the engine leaves the reset family *)
      exfalso.
      destruct (reset_sample_falls_through rate o w Hs Hp) as [Hout _].
      destruct (onewire_process rate o w) as [o1 w1]. cbn [fst] in Hout.
      pose proof (reset_family_is_not_entered rate n o1 w1) as Hnever.
      rewrite Hout, Hfin in Hnever. discriminate (Hnever eq_refl).
    + (* the deadline has elapsed *)
      destruct p.
      * rewrite (reset_init_poll rate o w Hs Hp) in *.
        match type of Hfin with
        | state (fst (poll _ _ ?o1 ?w1)) = _ =>
            destruct (IH o1 w1 ResetDriveLow eq_refl) as [H1 [H2 [H3 [H4 H5]]]];
            [ discriminate | exact Hfin | ]
        end.
        rewrite H1, H2, H3. cbn [state with_timestamp with_state].
        rewrite Hs. cbn. rewrite <- app_assoc.
        repeat split; try reflexivity; assumption.
      * rewrite (reset_drive_low_poll rate o w Hs Hp) in *.
        match type of Hfin with
        | state (fst (poll _ _ ?o1 ?w1)) = _ =>
            destruct (IH o1 w1 ResetRelease eq_refl) as [H1 [H2 [H3 [H4 H5]]]];
            [ discriminate | exact Hfin | ]
        end.
        rewrite H1, H2, H3. cbn [state with_timestamp with_state].
        rewrite Hs. cbn. rewrite <- app_assoc.
        repeat split; try reflexivity; assumption.
      * rewrite (reset_release_poll rate o w Hs Hp) in *.
        match type of Hfin with
        | state (fst (poll _ _ ?o1 ?w1)) = _ =>
            destruct (IH o1 w1 ResetSample) as [H1 [H2 [H3 [H4 H5]]]];
            [ apply reset_flag_fields
            | intros _; apply get_flag_reset_flag
            | exact Hfin | ]
        end.
        rewrite H1, H2, H3. through_updates.
        cbn [state Port Pin with_timestamp with_state].
        rewrite Hs. cbn.
        split; [reflexivity|]. split; [reflexivity|]. split; [reflexivity|].
        split; [exact H4|].
        intros g Hg. rewrite (H5 g Hg).
        rewrite get_flag_reset_flag_other by congruence.
        apply get_flag_same_reg. reflexivity.
      * rewrite (reset_sample_closing_poll rate o w Hs Hp (Hpres eq_refl)) in *.
        destruct n as [|n].
        -- cbn. rewrite Hs. cbn. rewrite app_nil_r.
           split; [reflexivity|]. split; [reflexivity|]. split; [reflexivity|].
           split.
           ++ rewrite <- (Hpres eq_refl). apply get_flag_same_reg. reflexivity.
           ++ intros g _. apply get_flag_same_reg. reflexivity.
        -- rewrite caseless_then_error in Hfin by reflexivity.
           discriminate Hfin.
Qed.

Lemma punctual_for_deadline_elapsed
  (delays : list Z) (rate : Z) (o : OneWireDriver) (w : World) (d : Z)
  (lo hi : nat) :
  phase_delay (state o) = Some d ->
  In d delays ->
  stamped o w ->
  punctual_for delays rate (tick_source w) lo hi ->
  (lo < tick_reads w <= hi)%nat ->
  deadline_pending rate o w = false.
Proof.
  intros Hd Hin [j [Hr Ht]] Hpunct Hrange.
  unfold deadline_pending. rewrite Hd.
  rewrite is_time_expired_spec. cbn [fst].
  rewrite Ht, Hr. apply negb_false_iff, Z.leb_le.
  apply Hpunct; [lia|exact Hin].
Qed.

Lemma punctual_forb_sound
  (delays : list Z) (rate : Z) (ticks : nat -> Z) (lo hi : nat) :
  punctual_forb delays rate ticks lo hi = true ->
  punctual_for delays rate ticks lo hi.
Proof.
  intros H j d Hj Hin. unfold punctual_forb in H.
  rewrite forallb_forall in H.
  assert (Hseq : In j (seq lo (hi - lo))) by (apply in_seq; lia).
  apply H in Hseq. rewrite forallb_forall in Hseq.
  apply Z.leb_le. apply Hseq. exact Hin.
Qed.

(** X14.  A reset started in [RESET_INIT] reaches [RESET_DONE] only without
    ever sampling the line: every run of polls that ends in [RESET_DONE],
    whatever the clock and the line, has gone through [RESET_DRIVE_BUS_LOW],
    [RESET_RELEASE_BUS] and [RESET_SAMPLE_BUS], has driven the line low once
    and released it once, has not read the line at all, and leaves the
    presence flag clear and every other flag as it was.  Such runs exist:
    when the settle delay has elapsed at the first poll and the application
    polls no faster than the reset phases last, four polls end in
    [RESET_DONE]. *)
Theorem reset_done_means_line_never_sampled :
  forall (rate : Z) (o : OneWireDriver) (w : World),
    state o = ONEWIRE_STATE_RESET_INIT ->
    (forall n,
        state (fst (poll rate n o w)) = ONEWIRE_STATE_RESET_DONE ->
        phase_log rate n o w
        = [ONEWIRE_STATE_RESET_DRIVE_BUS_LOW; ONEWIRE_STATE_RESET_RELEASE_BUS;
           ONEWIRE_STATE_RESET_SAMPLE_BUS; ONEWIRE_STATE_RESET_DONE]
        /\ bus_log (snd (poll rate n o w))
           = bus_log w ++ slot_actions (Port o) (Pin o)
        /\ pin_reads (snd (poll rate n o w)) = pin_reads w
        /\ get_flag (fst (poll rate n o w)) FLAG_PRESENCE_DETECTED = 0
        /\ (forall g, g <> FLAG_PRESENCE_DETECTED ->
                      get_flag (fst (poll rate n o w)) g = get_flag o g))
    /\ (deadline_pending rate o w = false ->
        punctual_for reset_delays rate (tick_source w)
          (tick_reads w) (tick_reads w + 6) ->
        state (fst (poll rate 4 o w)) = ONEWIRE_STATE_RESET_DONE).
Proof.
  intros rate o w Hs. split.
  - intros n Hfin.
    apply (reset_run_safe rate n o w ResetInit Hs); [discriminate|exact Hfin].
  - intros Hp Hpunct.
    cbn [poll].
    rewrite (reset_init_poll rate o w Hs Hp).
    rewrite reset_drive_low_poll; [|reflexivity|].
    2: { eapply (punctual_for_deadline_elapsed reset_delays);
         [reflexivity | cbn; auto | | exact Hpunct | cbn; lia].
         exists (S (tick_reads w)). split; reflexivity. }
    rewrite reset_release_poll; [|reflexivity|].
    2: { eapply (punctual_for_deadline_elapsed reset_delays);
         [reflexivity | cbn; auto | | exact Hpunct | cbn; lia].
         exists (S (S (S (tick_reads w)))). split; reflexivity. }
    rewrite reset_sample_closing_poll.
    + reflexivity.
    + apply reset_flag_fields.
    + eapply (punctual_for_deadline_elapsed reset_delays);
        [ through_updates; reflexivity
        | cbn; auto | | exact Hpunct | cbn; lia ].
      exists (S (S (S (S (S (tick_reads w)))))). split; [reflexivity|].
      through_updates. reflexivity.
    + apply get_flag_reset_flag.
Qed.

(** A reset polled every 1000 ticks, on a line that a device holds low all
    the time: the reset ends in [RESET_DONE] with the presence flag clear. *)
Lemma reset_done_means_line_never_sampled_witness :
  let o := driver_at ONEWIRE_STATE_RESET_INIT 0 0 0 in
  let w := scripted_world late_reset_clock (fun _ => GPIO_PIN_RESET) in
  state o = ONEWIRE_STATE_RESET_INIT
  /\ state (fst (poll 1000 4 o w)) = ONEWIRE_STATE_RESET_DONE
  /\ pin_reads (snd (poll 1000 4 o w)) = 0%nat
  /\ get_flag (fst (poll 1000 4 o w)) FLAG_PRESENCE_DETECTED = 0.
Proof.
  cbn zeta.
  destruct (reset_done_means_line_never_sampled 1000
              (driver_at ONEWIRE_STATE_RESET_INIT 0 0 0)
              (scripted_world late_reset_clock (fun _ => GPIO_PIN_RESET))
              eq_refl) as [Hsafe Hlive].
  assert (Hdone : state (fst (poll 1000 4
                    (driver_at ONEWIRE_STATE_RESET_INIT 0 0 0)
                    (scripted_world late_reset_clock (fun _ => GPIO_PIN_RESET))))
                  = ONEWIRE_STATE_RESET_DONE).
  { apply Hlive; [reflexivity|].
    apply punctual_forb_sound. vm_compute. reflexivity. }
  destruct (Hsafe 4%nat Hdone) as [_ [_ [Hreads [Hflag _]]]].
  split; [reflexivity|]. split; [exact Hdone|].
  split; [exact Hreads|exact Hflag].
Defined.

(** ** Reading a byte *)

Lemma poll_app (rate : Z) (a b : nat) :
  forall (o : OneWireDriver) (w : World),
    poll rate (a + b) o w
    = poll rate b (fst (poll rate a o w)) (snd (poll rate a o w)).
Proof.
  induction a as [|a IH]; intros o w; cbn [poll Nat.add fst snd].
  - reflexivity.
  - destruct (onewire_process rate o w) as [o1 w1]. apply IH.
Qed.

Lemma byte_of_its_bits (x : Z) :
  0 <= x < 256 -> byte_of_bits (bits_from x 0 8) = x.
Proof.
  intros Hx.
  assert (Hall : forallb
                   (fun k => byte_of_bits (bits_from (Z.of_nat k) 0 8)
                             =? Z.of_nat k)
                   (seq 0 256) = true) by (vm_compute; reflexivity).
  rewrite forallb_forall in Hall.
  specialize (Hall (Z.to_nat x)).
  rewrite Z2Nat.id in Hall by lia.
  apply Z.eqb_eq, Hall, in_seq. lia.
Qed.

Lemma bits_from_S (x i : Z) (k : nat) :
  bits_from x i (S k) = Z.testbit x i :: bits_from x (i + 1) k.
Proof. reflexivity. Qed.

Lemma read_init_poll (rate : Z) (o : OneWireDriver) (w : World) :
  state o = ONEWIRE_STATE_READ_INIT ->
  onewire_process rate o w
  = (with_timestamp (with_state o ONEWIRE_STATE_READ_DRIVE_BUS_LOW)
       (TickType_t (tick_source w (tick_reads w))),
     mkWorld (tick_source w) (S (tick_reads w)) (pin_source w) (pin_reads w)
       (bus_log w ++ [PinWrite (Port o) (Pin o) GPIO_PIN_RESET])
       (sampled_bus_bit w)).
Proof. intros Hs. unfold onewire_process. rewrite Hs. reflexivity. Qed.

Lemma read_drive_low_poll (rate : Z) (o : OneWireDriver) (w : World) :
  state o = ONEWIRE_STATE_READ_DRIVE_BUS_LOW ->
  deadline_pending rate o w = false ->
  onewire_process rate o w
  = (with_timestamp (with_state o ONEWIRE_STATE_READ_RELEASE_BUS)
       (TickType_t (tick_source w (S (tick_reads w)))),
     mkWorld (tick_source w) (S (S (tick_reads w))) (pin_source w) (pin_reads w)
       (bus_log w ++ [PinWrite (Port o) (Pin o) GPIO_PIN_SET])
       (sampled_bus_bit w)).
Proof.
  intros Hs Hp. unfold deadline_pending in Hp. rewrite Hs in Hp.
  cbn [phase_delay] in Hp. apply negb_false_iff in Hp.
  unfold onewire_process. rewrite Hs.
  unfold bind at 1. rewrite is_time_expired_spec in *. cbn [fst] in Hp.
  rewrite Hp. reflexivity.
Qed.

Lemma read_release_poll (rate : Z) (o : OneWireDriver) (w : World) :
  state o = ONEWIRE_STATE_READ_RELEASE_BUS ->
  deadline_pending rate o w = false ->
  onewire_process rate o w
  = (with_timestamp (with_state o ONEWIRE_STATE_READ_SAMPLE_BUS)
       (TickType_t (tick_source w (S (tick_reads w)))),
     after_tick_reads 2 w).
Proof.
  intros Hs Hp. unfold deadline_pending in Hp. rewrite Hs in Hp.
  cbn [phase_delay] in Hp. apply negb_false_iff in Hp.
  unfold onewire_process. rewrite Hs.
  unfold bind at 1. rewrite is_time_expired_spec in *. cbn [fst] in Hp.
  rewrite Hp. reflexivity.
Qed.

Lemma read_done_poll_next (rate : Z) (o : OneWireDriver) (w : World) :
  state o = ONEWIRE_STATE_READ_DONE ->
  0 <= bit_index o < 7 ->
  onewire_process rate o w
  = (with_timestamp
       (with_state (with_bit_index o (bit_index o + 1)) ONEWIRE_STATE_READ_INIT)
       (TickType_t (tick_source w (tick_reads w))),
     mkWorld (tick_source w) (S (tick_reads w)) (pin_source w) (pin_reads w)
       (bus_log w) GPIO_PIN_SET).
Proof.
  intros Hs Hi. unfold onewire_process. rewrite Hs.
  unfold_driver. cbn.
  rewrite (uint8_t_small (bit_index o + 1)) by lia.
  replace (8 <=? bit_index o + 1) with false by (symmetry; apply Z.leb_gt; lia).
  reflexivity.
Qed.

Lemma read_done_poll_last (rate : Z) (o : OneWireDriver) (w : World) :
  state o = ONEWIRE_STATE_READ_DONE ->
  bit_index o = 7 ->
  onewire_process rate o w
  = (with_timestamp
       (with_state
          (with_bit_index (set_flag (with_bit_index o 8) FLAG_BYTE_RECEIVED) 0)
          ONEWIRE_STATE_IDLE)
       (TickType_t (tick_source w (tick_reads w))),
     mkWorld (tick_source w) (S (tick_reads w)) (pin_source w) (pin_reads w)
       (bus_log w) GPIO_PIN_SET).
Proof.
  intros Hs Hi. unfold onewire_process. rewrite Hs.
  unfold_driver. cbn. rewrite Hi. reflexivity.
Qed.

(** From phase [p] of the read slot of bit [i], with [m] more slots to
    follow: what a run of polls that ends in [IDLE] has logged and stored.
    [rest] are the samples the current window still took and [sl] the
    samples of the windows of the following slots. *)
Lemma read_run_safe (rate : Z) (n : nat) :
  forall (o : OneWireDriver) (w : World) (i : Z) (m : nat) (p : ReadPhase),
    0 <= i ->
    i + Z.of_nat m = 7 ->
    state o = read_state p ->
    bit_index o = i ->
    scratch_ready p w ->
    state (fst (poll rate n o w)) = ONEWIRE_STATE_IDLE ->
    exists rest sl,
      length sl = m
      /\ (p = ReadDone -> rest = [])
      /\ bus_log (snd (poll rate n o w))
         = bus_log w ++ read_actions_left (Port o) (Pin o) p
             ++ map (PinRead (Port o) (Pin o)) rest
             ++ concat (map (read_slot_log (Port o) (Pin o)) sl)
      /\ (forall j, 0 <= j < i ->
            Z.testbit (rx_byte (fst (poll rate n o w))) j
            = Z.testbit (rx_byte o) j)
      /\ bits_from (rx_byte (fst (poll rate n o w))) i (S m)
         = slot_bit p o w rest :: map (forallb is_high) sl
      /\ get_flag (fst (poll rate n o w)) FLAG_BYTE_RECEIVED = 1
      /\ bit_index (fst (poll rate n o w)) = 0
      /\ ((p = ReadDone -> 0 <= rx_byte o < 256) ->
          0 <= rx_byte (fst (poll rate n o w)) < 256).
Proof.
  induction n as [|n IH]; intros o w i m p Hi Him Hs Hbi Hscr Hfin.
  - cbn in Hfin. rewrite Hs in Hfin. destruct p; discriminate Hfin.
  - cbn [poll] in *.
    destruct p.
    + (* READ_INIT: the line is driven low *)
      rewrite (read_init_poll rate o w Hs) in *.
      match type of Hfin with
      | state (fst (poll _ _ ?o1 ?w1)) = _ =>
          destruct (IH o1 w1 i m ReadDriveLow Hi Him eq_refl Hbi Hscr Hfin)
            as (rest & sl & Hlen & _ & Hlog & Hpre & Hbits & Hflag & Hidx
                & Hrange)
      end.
      exists rest, sl.
      split; [exact Hlen|]. split; [discriminate|]. split.
      { rewrite Hlog. cbn. rewrite <- ?app_assoc. reflexivity. }
      split; [exact Hpre|]. split; [exact Hbits|].
      split; [exact Hflag|]. split; [exact Hidx|].
      intros _. apply Hrange. discriminate.
    + (* READ_DRIVE_BUS_LOW: wait, or release the line *)
      destruct (deadline_pending rate o w) eqn:Hp.
      * rewrite (waiting_poll rate o w) in *;
          [| rewrite Hs; reflexivity | exact Hp
           | rewrite Hs; reflexivity | exact Hp ].
        destruct (IH o (after_tick_reads 1 w) i m ReadDriveLow
                    Hi Him Hs Hbi Hscr Hfin)
          as (rest & sl & Hlen & _ & Hlog & Hpre & Hbits & Hflag & Hidx
              & Hrange).
        exists rest, sl.
        split; [exact Hlen|]. split; [discriminate|]. split; [exact Hlog|].
        split; [exact Hpre|]. split; [exact Hbits|].
        split; [exact Hflag|]. split; [exact Hidx|exact Hrange].
      * rewrite (read_drive_low_poll rate o w Hs Hp) in *.
        match type of Hfin with
        | state (fst (poll _ _ ?o1 ?w1)) = _ =>
            destruct (IH o1 w1 i m ReadRelease Hi Him eq_refl Hbi Hscr Hfin)
              as (rest & sl & Hlen & _ & Hlog & Hpre & Hbits & Hflag & Hidx
                  & Hrange)
        end.
        exists rest, sl.
        split; [exact Hlen|]. split; [discriminate|]. split.
        { rewrite Hlog. cbn. rewrite <- ?app_assoc. reflexivity. }
        split; [exact Hpre|]. split; [exact Hbits|].
        split; [exact Hflag|]. split; [exact Hidx|].
        intros _. apply Hrange. discriminate.
    + (* READ_RELEASE_BUS: wait, or open the sample window *)
      destruct (deadline_pending rate o w) eqn:Hp.
      * rewrite (waiting_poll rate o w) in *;
          [| rewrite Hs; reflexivity | exact Hp
           | rewrite Hs; reflexivity | exact Hp ].
        destruct (IH o (after_tick_reads 1 w) i m ReadRelease
                    Hi Him Hs Hbi Hscr Hfin)
          as (rest & sl & Hlen & _ & Hlog & Hpre & Hbits & Hflag & Hidx
              & Hrange).
        exists rest, sl.
        split; [exact Hlen|]. split; [discriminate|]. split; [exact Hlog|].
        split; [exact Hpre|]. split; [exact Hbits|].
        split; [exact Hflag|]. split; [exact Hidx|exact Hrange].
      * rewrite (read_release_poll rate o w Hs Hp) in *.
        match type of Hfin with
        | state (fst (poll _ _ ?o1 ?w1)) = _ =>
            destruct (IH o1 w1 i m ReadSample Hi Him eq_refl Hbi I Hfin)
              as (rest & sl & Hlen & _ & Hlog & Hpre & Hbits & Hflag & Hidx
                  & Hrange)
        end.
        exists rest, sl.
        split; [exact Hlen|]. split; [discriminate|]. split; [exact Hlog|].
        split; [exact Hpre|]. split.
        { rewrite Hbits. cbn in Hscr. cbn. rewrite Hscr. reflexivity. }
        split; [exact Hflag|]. split; [exact Hidx|].
        intros _. apply Hrange. discriminate.
    + (* READ_SAMPLE_BUS: sample, or store the bit *)
      destruct (deadline_pending rate o w) eqn:Hp.
      * rewrite (read_window_poll rate o w Hs Hp) in *.
        match type of Hfin with
        | state (fst (poll _ _ _ ?w1)) = _ =>
            destruct (IH o w1 i m ReadSample Hi Him Hs Hbi I Hfin)
              as (rest & sl & Hlen & _ & Hlog & Hpre & Hbits & Hflag & Hidx
                  & Hrange)
        end.
        exists (pin_source w (pin_reads w) :: rest), sl.
        split; [exact Hlen|]. split; [discriminate|]. split.
        { rewrite Hlog. cbn. rewrite <- ?app_assoc. reflexivity. }
        split; [exact Hpre|]. split.
        { rewrite Hbits. cbn.
          destruct (pin_source w (pin_reads w)), (sampled_bus_bit w);
            reflexivity. }
        split; [exact Hflag|]. split; [exact Hidx|].
        intros _. apply Hrange. discriminate.
      * rewrite (read_window_expiry_poll rate o w Hs Hp) in *.
        pose proof (store_read_bit_fields o
                      (uint8_t (pin_value (sampled_bus_bit w))))
          as (_ & Hsbi & Hspin & Hsport).
        match type of Hfin with
        | state (fst (poll _ _ ?o1 ?w1)) = _ =>
            destruct (IH o1 w1 i m ReadDone Hi Him eq_refl) as
              (rest & sl & Hlen & Hnil & Hlog & Hpre & Hbits & Hflag & Hidx
               & Hrange);
            [ cbn; rewrite Hsbi; exact Hbi | exact I | exact Hfin | ]
        end.
        rewrite (Hnil eq_refl) in *. clear Hnil.
        cbn [Port Pin with_timestamp with_state rx_byte bit_index] in *.
        rewrite Hspin, Hsport, ?Hsbi in *.
        exists [], sl.
        split; [exact Hlen|]. split; [discriminate|]. split; [exact Hlog|].
        split.
        { intros j Hj. rewrite (Hpre j Hj).
          rewrite store_read_bit_spec by lia.
          replace (j =? bit_index o) with false
            by (symmetry; apply Z.eqb_neq; lia).
          reflexivity. }
        split.
        { rewrite Hbits. cbn [slot_bit rx_byte bit_index with_timestamp
            with_state forallb].
          rewrite Hsbi, store_read_bit_spec, Z.eqb_refl, andb_true_r by lia.
          reflexivity. }
        split; [exact Hflag|]. split; [exact Hidx|].
        intros _. apply Hrange. intros _. apply store_read_bit_rx_bounds.
    + (* READ_DONE: next bit, or the byte is complete *)
      destruct m as [|m].
      * assert (Hlast : bit_index o = 7) by (cbn in Him; lia).
        rewrite (read_done_poll_last rate o w Hs Hlast) in *.
        destruct n as [|n].
        -- exists [], []. cbn [poll fst snd].
           cbn [rx_byte bit_index Port Pin with_timestamp with_state
                  with_bit_index bus_log].
           through_updates. cbn [rx_byte with_bit_index].
           split; [reflexivity|]. split; [reflexivity|]. split.
           { cbn. rewrite app_nil_r. reflexivity. }
           split; [reflexivity|]. split.
           { cbn. rewrite Hbi. reflexivity. }
           split.
           { rewrite (get_flag_same_reg _
                        (set_flag (with_bit_index o 8) FLAG_BYTE_RECEIVED))
               by reflexivity.
             apply get_flag_set_flag. }
           split; [reflexivity|].
           intros H. apply H. reflexivity.
        -- rewrite idle_then_error in Hfin by reflexivity.
           discriminate Hfin.
      * assert (Hnext : 0 <= bit_index o < 7) by lia.
        rewrite (read_done_poll_next rate o w Hs Hnext) in *.
        match type of Hfin with
        | state (fst (poll _ _ ?o1 ?w1)) = _ =>
            destruct (IH o1 w1 (i + 1) m ReadInit) as
              (rest & sl & Hlen & _ & Hlog & Hpre & Hbits & Hflag & Hidx
               & Hrange);
            [ lia | lia | reflexivity | cbn; lia | reflexivity | exact Hfin | ]
        end.
        cbn [Port Pin with_timestamp with_state with_bit_index rx_byte
               bus_log] in *.
        exists [], (rest :: sl).
        split; [cbn; rewrite Hlen; reflexivity|].
        split; [reflexivity|]. split.
        { rewrite Hlog. cbn. rewrite <- ?app_assoc. reflexivity. }
        split.
        { intros j Hj. apply Hpre. lia. }
        split.
        { rewrite (bits_from_S _ i (S m)). rewrite Hbits. cbn [slot_bit map].
          rewrite (Hpre i) by lia. rewrite Hbi. reflexivity. }
        split; [exact Hflag|]. split; [exact Hidx|].
        intros _. apply Hrange. discriminate.
Qed.

(** With a punctual clock a read slot takes four polls from [READ_INIT] to
    [READ_DONE] and seven reads of the tick counter. *)
Lemma read_slot_completes
  (rate : Z) (o : OneWireDriver) (w : World) (lo hi : nat) :
  state o = ONEWIRE_STATE_READ_INIT ->
  punctual_for read_delays rate (tick_source w) lo hi ->
  (lo <= tick_reads w)%nat ->
  (tick_reads w + 5 <= hi)%nat ->
  state (fst (poll rate 4 o w)) = ONEWIRE_STATE_READ_DONE
  /\ bit_index (fst (poll rate 4 o w)) = bit_index o
  /\ tick_source (snd (poll rate 4 o w)) = tick_source w
  /\ tick_reads (snd (poll rate 4 o w)) = (tick_reads w + 7)%nat.
Proof.
  intros Hs Hpunct Hlo Hhi.
  cbn [poll]. rewrite (read_init_poll rate o w Hs).
  rewrite read_drive_low_poll; [|reflexivity|].
  2: { eapply (punctual_for_deadline_elapsed read_delays);
       [reflexivity | cbn; auto | | exact Hpunct | cbn; lia].
       exists (tick_reads w). split; reflexivity. }
  rewrite read_release_poll; [|reflexivity|].
  2: { eapply (punctual_for_deadline_elapsed read_delays);
       [reflexivity | cbn; auto | | exact Hpunct | cbn; lia].
       exists (S (S (tick_reads w))). split; reflexivity. }
  rewrite read_window_expiry_poll; [|reflexivity|].
  2: { eapply (punctual_for_deadline_elapsed read_delays);
       [reflexivity | cbn; auto | | exact Hpunct | cbn; lia].
       exists (S (S (S (S (tick_reads w))))). split; reflexivity. }
  cbn [fst snd state bit_index with_timestamp with_state].
  through_updates. cbn.
  repeat split; try reflexivity. lia.
Qed.

Lemma read_byte_completes (rate : Z) (lo hi : nat) (m : nat) :
  forall (o : OneWireDriver) (w : World) (i : Z),
    0 <= i ->
    i + Z.of_nat m = 7 ->
    state o = ONEWIRE_STATE_READ_INIT ->
    bit_index o = i ->
    punctual_for read_delays rate (tick_source w) lo hi ->
    (lo <= tick_reads w)%nat ->
    (tick_reads w + S m * 8 <= hi + 3)%nat ->
    state (fst (poll rate (S m * 5) o w)) = ONEWIRE_STATE_IDLE.
Proof.
  induction m as [|m IH]; intros o w i Hi Him Hs Hbi Hpunct Hlo Hhi.
  - change (1 * 5)%nat with (4 + 1)%nat. rewrite poll_app.
    destruct (read_slot_completes rate o w lo hi Hs Hpunct Hlo)
      as [Hdone [Hidx _]]; [cbn in Hhi; lia|].
    set (o4 := fst (poll rate 4 o w)) in *.
    set (w4 := snd (poll rate 4 o w)) in *.
    cbn [poll].
    rewrite (read_done_poll_last rate o4 w4 Hdone) by (rewrite Hidx; lia).
    reflexivity.
  - change (S (S m) * 5)%nat with (4 + S (S m * 5))%nat. rewrite poll_app.
    destruct (read_slot_completes rate o w lo hi Hs Hpunct Hlo)
      as [Hdone [Hidx [Hsrc Hreads]]]; [cbn in Hhi; lia|].
    set (o4 := fst (poll rate 4 o w)) in *.
    set (w4 := snd (poll rate 4 o w)) in *.
    cbn [poll].
    rewrite (read_done_poll_next rate o4 w4 Hdone) by (rewrite Hidx; lia).
    apply (IH _ _ (i + 1)).
    + lia.
    + lia.
    + reflexivity.
    + cbn. rewrite Hidx. lia.
    + cbn [tick_source]. rewrite Hsrc. exact Hpunct.
    + cbn [tick_reads]. lia.
    + cbn [tick_reads]. rewrite Hreads. cbn in Hhi |- *. lia.
Qed.

(** X15.  Eight read slots assemble a byte, least significant bit first.
    Started in [READ_INIT] with [bit_index] 0 and the scratch bit at its
    start value, every run of polls of this instance that ends in [IDLE],
    whatever the clock, has gone through eight slots, each a drive-low, a
    release and the samples of its window; bit [k] of [rx_byte] is 1 when
    every sample of the window of slot [k] was high (or the window took no
    sample) and 0 when one was low; the byte-received flag is set and
    [bit_index] is back at 0.  Such runs exist: when the application polls
    no faster than the read phases last, 40 polls end in [IDLE]. *)
Theorem read_byte_assembles_lsb_first :
  forall (rate : Z) (o : OneWireDriver) (w : World),
    state o = ONEWIRE_STATE_READ_INIT ->
    bit_index o = 0 ->
    sampled_bus_bit w = GPIO_PIN_SET ->
    (forall n,
        state (fst (poll rate n o w)) = ONEWIRE_STATE_IDLE ->
        exists windows,
          length windows = 8%nat
          /\ bus_log (snd (poll rate n o w))
             = bus_log w
                 ++ concat (map (read_slot_log (Port o) (Pin o)) windows)
          /\ rx_byte (fst (poll rate n o w))
             = byte_of_bits (map (forallb is_high) windows)
          /\ get_flag (fst (poll rate n o w)) FLAG_BYTE_RECEIVED = 1
          /\ bit_index (fst (poll rate n o w)) = 0)
    /\ (punctual_for read_delays rate (tick_source w)
          (tick_reads w) (tick_reads w + 61) ->
        state (fst (poll rate 40 o w)) = ONEWIRE_STATE_IDLE).
Proof.
  intros rate o w Hs Hbi Hscr. split.
  - intros n Hfin.
    destruct (read_run_safe rate n o w 0 7%nat ReadInit
                (Z.le_refl 0) eq_refl Hs Hbi Hscr Hfin)
      as (rest & sl & Hlen & _ & Hlog & _ & Hbits & Hflag & Hidx & Hrange).
    exists (rest :: sl).
    split; [cbn; rewrite Hlen; reflexivity|]. split.
    { rewrite Hlog. cbn. rewrite <- ?app_assoc. reflexivity. }
    split.
    { rewrite <- (byte_of_its_bits (rx_byte (fst (poll rate n o w))))
        by (apply Hrange; discriminate).
      rewrite Hbits. reflexivity. }
    split; [exact Hflag|exact Hidx].
  - intros Hpunct.
    apply (read_byte_completes rate (tick_reads w) (tick_reads w + 61)
             7%nat o w 0 (Z.le_refl 0) eq_refl Hs Hbi Hpunct).
    + lia.
    + cbn. lia.
Qed.

(** A byte read during which a device holds the line low over the window of
    bit 1 and the start of the window of bit 2: 56 polls end in [IDLE] with
    the byte 0xF9. *)
Lemma read_byte_assembles_lsb_first_witness :
  let o := driver_at ONEWIRE_STATE_READ_INIT 0 0 0 in
  let w := scripted_world read_clock read_line in
  state o = ONEWIRE_STATE_READ_INIT
  /\ bit_index o = 0
  /\ sampled_bus_bit w = GPIO_PIN_SET
  /\ state (fst (poll 1000 56 o w)) = ONEWIRE_STATE_IDLE
  /\ rx_byte (fst (poll 1000 56 o w)) = 249
  /\ exists windows,
       length windows = 8%nat
       /\ rx_byte (fst (poll 1000 56 o w))
          = byte_of_bits (map (forallb is_high) windows).
Proof.
  cbn zeta.
  destruct (read_byte_assembles_lsb_first 1000
              (driver_at ONEWIRE_STATE_READ_INIT 0 0 0)
              (scripted_world read_clock read_line)
              eq_refl eq_refl eq_refl) as [Hsafe _].
  assert (Hidle : state (fst (poll 1000 56
                    (driver_at ONEWIRE_STATE_READ_INIT 0 0 0)
                    (scripted_world read_clock read_line)))
                  = ONEWIRE_STATE_IDLE) by (vm_compute; reflexivity).
  destruct (Hsafe 56%nat Hidle) as (windows & Hlen & _ & Hrx & _).
  split; [reflexivity|]. split; [reflexivity|]. split; [reflexivity|].
  split; [exact Hidle|]. split; [vm_compute; reflexivity|].
  exists windows. split; [exact Hlen|exact Hrx].
Defined.
